(** * Shopee recommendation toolkit: response normaliser, session harvester
      and replay client

    A shallow embedding of the Python sources [main.py], [main_2.py],
    [cek_shopee.py] and [fetch_direct.py].

    Conventions of the embedding.
    - A Python value obtained from [json.load] is a [Py.value].  A [dict] is an
      association list in insertion order; keys are unique in a dictionary built
      by Python, and lookup takes the first binding.
    - A Python [str] is a Rocq [string] read as ASCII text (code points below
      128), so that [strip], [lower], slicing and [urllib.parse.quote] act on
      single characters.
    - A Python [float] is the rational it denotes ([Q]).  True division rounds
      its quotient to the nearest double and raises [OverflowError] beyond the
      doubles, as CPython does; [float(text)] keeps the decimal it reads.  The
      non-finite floats and the sign of zero are outside the model.
    - A raised exception is the left summand of [Py.result]; nothing in the
      extractors catches one, so the first one raised is the outcome.
    - The browser, the network and the disk are inputs: the responses that
      reach the observer, the answer to the replayed request and the content
      of the artifacts.  The lines the harvester prints are left out; those of
      the replay client are kept by content. *)

From Stdlib Require Import ZArith QArith String Ascii List Bool Lia DecimalString.
Import ListNotations.

Set Warnings "-register-all".

Open Scope string_scope.
Open Scope Z_scope.

(* ===================================================================== *)
(** * The fragment of Python the sources use *)
(* ===================================================================== *)

Module Py.

Inductive exn : Type :=
| TypeError
| AttributeError
| IndexError
| KeyError
| ValueError
| FileNotFoundError
| OverflowError
| OtherError.

Definition result (A : Type) : Type := (exn + A)%type.

Definition ok {A} (a : A) : result A := inr a.
Definition raise {A} (e : exn) : result A := inl e.

Definition bind {A B} (m : result A) (k : A -> result B) : result B :=
  match m with
  | inl e => inl e
  | inr a => k a
  end.

Inductive value : Type :=
| VNone
| VBool (b : bool)
| VInt (n : Z)
| VFloat (q : Q)
| VStr (s : string)
| VList (l : list value)
| VDict (d : list (string * value)).

Definition dict : Type := list (string * value).

(** [repr] of the values whose [str] is their [repr] and is not spelled out
    here: floats and containers. *)
Class Repr : Type := repr : value -> string.

(** ** Strings *)

Fixpoint starts_with (p s : string) : bool :=
  match p, s with
  | EmptyString, _ => true
  | String a p', String b s' => Ascii.eqb a b && starts_with p' s'
  | String _ _, EmptyString => false
  end.

(** [p in s] for two strings. *)
Fixpoint contains (p s : string) : bool :=
  starts_with p s ||
  match s with
  | EmptyString => false
  | String _ s' => contains p s'
  end.

Fixpoint drop (n : nat) (s : string) : string :=
  match n, s with
  | O, _ => s
  | S n', String _ s' => drop n' s'
  | S _, EmptyString => EmptyString
  end.

(** [s[:n]] *)
Fixpoint take (n : nat) (s : string) : string :=
  match n, s with
  | S n', String c s' => String c (take n' s')
  | _, _ => EmptyString
  end.

Fixpoint take_while (f : ascii -> bool) (s : string) : string :=
  match s with
  | String c s' => if f c then String c (take_while f s') else EmptyString
  | EmptyString => EmptyString
  end.

Fixpoint drop_while (f : ascii -> bool) (s : string) : string :=
  match s with
  | String c s' => if f c then drop_while f s' else s
  | EmptyString => EmptyString
  end.

Fixpoint rev_string_onto (s acc : string) : string :=
  match s with
  | EmptyString => acc
  | String c s' => rev_string_onto s' (String c acc)
  end.

Definition rev_string (s : string) : string := rev_string_onto s EmptyString.

Definition is_digit (c : ascii) : bool :=
  let n := nat_of_ascii c in (48 <=? n)%nat && (n <=? 57)%nat.

Definition is_upper (c : ascii) : bool :=
  let n := nat_of_ascii c in (65 <=? n)%nat && (n <=? 90)%nat.

Definition is_lower (c : ascii) : bool :=
  let n := nat_of_ascii c in (97 <=? n)%nat && (n <=? 122)%nat.

(** [str.isspace] on one ASCII character. *)
Definition is_space (c : ascii) : bool :=
  let n := nat_of_ascii c in
  ((9 <=? n)%nat && (n <=? 13)%nat) || ((28 <=? n)%nat && (n <=? 32)%nat).

(** [s.strip()] *)
Definition strip (s : string) : string :=
  rev_string (drop_while is_space (rev_string (drop_while is_space s))).

Definition lower_char (c : ascii) : ascii :=
  if is_upper c then ascii_of_nat (nat_of_ascii c + 32) else c.

(** [s.lower()] *)
Fixpoint lower (s : string) : string :=
  match s with
  | EmptyString => EmptyString
  | String c s' => String (lower_char c) (lower s')
  end.

(** [s.split(sep)] for a one-character separator: never empty. *)
Fixpoint split_on (sep : ascii) (s : string) : list string :=
  match s with
  | EmptyString => [EmptyString]
  | String c s' =>
      if Ascii.eqb c sep then EmptyString :: split_on sep s'
      else match split_on sep s' with
           | [] => [String c EmptyString]
           | w :: ws => String c w :: ws
           end
  end.

(** [s.split(sep, 1)] when [sep in s]: the text before the first separator
    and the text after it; [None] when the separator does not occur. *)
Fixpoint split_once (sep : ascii) (s : string) : option (string * string) :=
  match s with
  | EmptyString => None
  | String c s' =>
      if Ascii.eqb c sep then Some (EmptyString, s')
      else match split_once sep s' with
           | Some (k, v) => Some (String c k, v)
           | None => None
           end
  end.

Fixpoint has_char (c : ascii) (s : string) : bool :=
  match s with
  | EmptyString => false
  | String a s' => Ascii.eqb a c || has_char c s'
  end.

(** [s.replace(a, b)] for single characters. *)
Fixpoint replace_char (a b : ascii) (s : string) : string :=
  match s with
  | EmptyString => EmptyString
  | String c s' => String (if Ascii.eqb c a then b else c) (replace_char a b s')
  end.

Fixpoint chars (s : string) : list string :=
  match s with
  | EmptyString => []
  | String c s' => String c EmptyString :: chars s'
  end.

(** ** Regular expressions of the shape [lit([\d.]+)] *)

Definition is_digit_or_dot (c : ascii) : bool :=
  is_digit c || Ascii.eqb c "."%char.

(** [re.search(lit + r'([\d.]+)', s)]: group 1 of the leftmost match. *)
Fixpoint re_search_number (lit s : string) : option string :=
  let here :=
    if starts_with lit s
    then match take_while is_digit_or_dot (drop (String.length lit) s) with
         | EmptyString => None
         | g => Some g
         end
    else None in
  match here with
  | Some g => Some g
  | None =>
      match s with
      | EmptyString => None
      | String _ s' => re_search_number lit s'
      end
  end.

(** ** [float(text)] for a text of digits and dots *)

Fixpoint digits_value (s : string) (acc : Z) : Z :=
  match s with
  | EmptyString => acc
  | String c s' => digits_value s' (10 * acc + (Z.of_nat (nat_of_ascii c) - 48))
  end.

Fixpoint all_digits (s : string) : bool :=
  match s with
  | EmptyString => true
  | String c s' => is_digit c && all_digits s'
  end.

Fixpoint pow10 (n : nat) : positive :=
  match n with
  | O => 1%positive
  | S n' => (10 * pow10 n')%positive
  end.

(** The decimal numeral [ip.fp] as a rational. *)
Definition decimal_value (ip fp : string) : Q :=
  Qmake (digits_value fp (digits_value ip 0)) (pow10 (String.length fp)).

Definition float_of_string (s : string) : result Q :=
  match split_once "."%char s with
  | None =>
      if all_digits s && negb (String.eqb s EmptyString)
      then ok (inject_Z (digits_value s 0))
      else raise ValueError
  | Some (ip, fp) =>
      if all_digits ip && all_digits fp && negb (String.eqb (ip ++ fp) EmptyString)
      then ok (decimal_value ip fp)
      else raise ValueError
  end.

(** ** Values *)

(** Truth value of an object, as tested by [if], [not] and [or]. *)
Definition truthy (v : value) : bool :=
  match v with
  | VNone => false
  | VBool b => b
  | VInt n => negb (n =? 0)
  | VFloat q => negb (Qeq_bool q 0)
  | VStr s => negb (String.eqb s EmptyString)
  | VList l => match l with [] => false | _ :: _ => true end
  | VDict d => match d with [] => false | _ :: _ => true end
  end.

(** [a or b] *)
Definition or_else (a b : value) : value := if truthy a then a else b.

Fixpoint lookup (k : string) (d : dict) : option value :=
  match d with
  | [] => None
  | (k', v) :: d' => if String.eqb k' k then Some v else lookup k d'
  end.

(** [d[k] = v]: an existing key keeps its position. *)
Fixpoint assoc_set {V : Type} (k : string) (v : V) (d : list (string * V))
  : list (string * V) :=
  match d with
  | [] => [(k, v)]
  | (k', v') :: d' =>
      if String.eqb k' k then (k, v) :: d' else (k', v') :: assoc_set k v d'
  end.

Definition dict_set (k : string) (v : value) (d : dict) : dict :=
  assoc_set k v d.

(** [d.get(k, default)] on a dictionary. *)
Definition dict_get (d : dict) (k : string) (default : value) : value :=
  match lookup k d with
  | Some v => v
  | None => default
  end.

(** [obj.get(k, default)]: only a dictionary has the method. *)
Definition get (obj : value) (k : string) (default : value) : result value :=
  match obj with
  | VDict d => ok (dict_get d k default)
  | _ => raise AttributeError
  end.

(** The items a [for] loop or a comprehension draws from an object. *)
Definition iter (v : value) : result (list value) :=
  match v with
  | VList l => ok l
  | VStr s => ok (map VStr (chars s))
  | VDict d => ok (map (fun kv => VStr (fst kv)) d)
  | VNone | VBool _ | VInt _ | VFloat _ => raise TypeError
  end.

(** [v[0]] *)
Definition index0 (v : value) : result value :=
  match v with
  | VList [] => raise IndexError
  | VList (x :: _) => ok x
  | VStr EmptyString => raise IndexError
  | VStr (String c _) => ok (VStr (String c EmptyString))
  | VDict _ => raise KeyError
  | VNone | VBool _ | VInt _ | VFloat _ => raise TypeError
  end.

(** [v[:n]]; a dictionary rejects a slice as a key ([TypeError], unhashable,
    before Python 3.12). *)
Definition slice_to (n : nat) (v : value) : result value :=
  match v with
  | VList l => ok (VList (firstn n l))
  | VStr s => ok (VStr (take n s))
  | VDict _ | VNone | VBool _ | VInt _ | VFloat _ => raise TypeError
  end.

(** ** Floats *)

(** [n / d] rounded to the nearest integer, a tie to the even one, for
    [0 <= n] and [0 < d]. *)
Definition round_half_even (n d : Z) : Z :=
  let m := n / d in
  match 2 * (n mod d) ?= d with
  | Lt => m
  | Gt => m + 1
  | Eq => if Z.even m then m else m + 1
  end.

(** The exponent [e] with [2^e <= n/d < 2^(e+1)], for positive [n] and [d]. *)
Definition binade (n d : Z) : Z :=
  let e0 := Z.log2 n - Z.log2 d in
  let below :=
    if 0 <=? e0 then n <? d * 2 ^ e0 else n * 2 ^ (- e0) <? d in
  if below then e0 - 1 else e0.

(** The IEEE 754 double nearest to [q], a tie to the even significand, as
    the rational it is: 53 bits of significand, exponents down to the
    subnormal quantum [2^-1074].  [None] when the rounded magnitude reaches
    [2^1024].  The sign of a zero is not kept. *)
Definition round_double (q : Q) : option Q :=
  let n := Z.abs (Qnum q) in
  let d := Zpos (Qden q) in
  if n =? 0 then Some (Qmake 0 1)
  else
    let e := binade n d in
    let k := Z.max (e - 52) (-1074) in
    let s := Z.sgn (Qnum q) in
    if 0 <=? k then
      let m := round_half_even n (d * 2 ^ k) in
      if 2 ^ 1024 <=? m * 2 ^ k then None
      else Some (Qmake (s * m * 2 ^ k) 1)
    else
      let m := round_half_even (n * 2 ^ (- k)) d in
      Some (Qmake (s * m) (Z.to_pos (2 ^ (- k)))).

(** The float of a rounded quotient; a quotient beyond the doubles is the
    [OverflowError] of the division of two integers. *)
Definition float_quotient (q : Q) : result value :=
  match round_double q with
  | Some f => ok (VFloat f)
  | None => raise OverflowError
  end.

(** [v / n] for a positive integer literal [n]: true division, correctly
    rounded.  A [bool] divides as the integer it is. *)
Definition truediv (v : value) (n : positive) : result value :=
  match v with
  | VInt a => float_quotient (Qmake a n)
  | VBool b => float_quotient (Qmake (if b then 1 else 0) n)
  | VFloat q => float_quotient (q / inject_Z (Zpos n))
  | VNone | VStr _ | VList _ | VDict _ => raise TypeError
  end.

(** [v == n] for an integer literal [n]. *)
Definition eq_int (v : value) (n : Z) : bool :=
  match v with
  | VInt a => a =? n
  | VBool b => (if b then 1 else 0) =? n
  | VFloat q => Qeq_bool q (inject_Z n)
  | VNone | VStr _ | VList _ | VDict _ => false
  end.

(** [v == s] for a string literal [s]. *)
Definition eq_str (v : value) (s : string) : bool :=
  match v with
  | VStr a => String.eqb a s
  | _ => false
  end.

(** [f"{v}"] *)
Definition str_of {R : Repr} (v : value) : string :=
  match v with
  | VNone => "None"
  | VBool true => "True"
  | VBool false => "False"
  | VInt n => NilEmpty.string_of_int (Z.to_int n)
  | VStr s => s
  | VFloat _ | VList _ | VDict _ => repr v
  end.

(** [re.search(lit + r'([\d.]+)', v)]: the pattern wants a string. *)
Definition re_search (lit : string) (v : value) : result (option string) :=
  match v with
  | VStr s => ok (re_search_number lit s)
  | _ => raise TypeError
  end.

(** [v.replace(a, b)] *)
Definition replace (a b : ascii) (v : value) : result string :=
  match v with
  | VStr s => ok (replace_char a b s)
  | _ => raise AttributeError
  end.

(** ** [urllib.parse.quote] with its default [safe='/'] *)

Definition hex_digit (n : nat) : ascii :=
  if (n <? 10)%nat then ascii_of_nat (48 + n) else ascii_of_nat (55 + n).

Definition is_unreserved (c : ascii) : bool :=
  is_digit c || is_upper c || is_lower c ||
  Ascii.eqb c "_"%char || Ascii.eqb c "."%char ||
  Ascii.eqb c "-"%char || Ascii.eqb c "~"%char || Ascii.eqb c "/"%char.

Fixpoint quote_string (s : string) : string :=
  match s with
  | EmptyString => EmptyString
  | String c s' =>
      if is_unreserved c then String c (quote_string s')
      else let n := nat_of_ascii c in
           String "%"%char
             (String (hex_digit (Nat.div n 16))
                (String (hex_digit (Nat.modulo n 16)) (quote_string s')))
  end.

Definition quote (v : value) : result string :=
  match v with
  | VStr s => ok (quote_string s)
  | _ => raise TypeError
  end.

(** ** Loops *)

(** [for x in xs: body], threading the loop's variables [s]; an exception
    raised by the body ends the loop and the function. *)
Fixpoint for_each {A S : Type} (xs : list A) (body : S -> A -> result S) (s : S)
  : result S :=
  match xs with
  | [] => ok s
  | x :: xs' =>
      match body s x with
      | inl e => inl e
      | inr s' => for_each xs' body s'
      end
  end.

End Py.

Notation "'let*' x ':=' e 'in' k" := (Py.bind e (fun x => k))
  (at level 10, x name, e at level 100, k at level 200).

(* ===================================================================== *)
(** * Persisted artifacts *)
(* ===================================================================== *)

Module Files.

Import Py.

(** What a path holds, as far as [open] followed by [json.load] can tell. *)
Inductive file : Type :=
| Absent
| Corrupt
| Image
| Json (v : value).

Definition fs : Type := string -> file.

(** [with open(path, 'r') as f: json.load(f)] *)
Definition read_json (disk : fs) (path : string) : result value :=
  match disk path with
  | Absent => raise FileNotFoundError
  | Corrupt => raise OtherError
  | Image => raise OtherError
  | Json v => ok v
  end.

(** [with open(path, 'w') as f: json.dump(v, f)] *)
Definition write_json (disk : fs) (path : string) (v : value) : fs :=
  fun p => if String.eqb p path then Json v else disk p.

(** [page.screenshot(path=path)]: an image, which is no JSON text. *)
Definition write_image (disk : fs) (path : string) : fs :=
  fun p => if String.eqb p path then Image else disk p.

Definition empty_disk : fs := fun _ => Absent.

End Files.

(* ===================================================================== *)
(** * [main.py]: the response normaliser *)
(* ===================================================================== *)

Module Main.

Import Py.

(** [try: ... json.load ... except Exception: return {}] *)
Definition load_json_data (disk : Files.fs) (file_path : string) : value :=
  match Files.read_json disk file_path with
  | inr v => v
  | inl _ => VDict []
  end.

Section Normaliser.

Context {R : Repr}.

(** [f"https://down-id.img.susercontent.com/file/{v}"] *)
Definition cdn_url (v : value) : string :=
  "https://down-id.img.susercontent.com/file/" ++ str_of v.

(** [rank_score] between double quotes, then a colon. *)
Definition rank_score_lit : string :=
  String (ascii_of_nat 34) ("rank_score" ++ String (ascii_of_nat 34) ":").

(** One turn of the loop over [parts] in [parse_info_string]. *)
Definition parse_part (parsed : dict) (part : string) : dict :=
  if has_char ":"%char part && negb (has_char "{"%char part)
  then match split_once ":"%char part with
       | Some (k, v) => dict_set (lower (strip k)) (VStr (strip v)) parsed
       | None => parsed
       end
  else parsed.

Definition parse_info_string (info : value) : result dict :=
  if negb (truthy info) then ok []
  else
    let parsed := [] in
    let* score_match := re_search "SCORE:" info in
    let* parsed :=
      match score_match with
      | Some g => let* f := float_of_string g in
                  ok (dict_set "score" (VFloat f) parsed)
      | None => ok parsed
      end in
    match info with
    | VStr s => ok (fold_left parse_part (split_on ","%char s) parsed)
    | _ => raise AttributeError
    end.

(** The body of the inner loop of [extract_shopee_products]. *)
Definition top_product (item : value) : result dict :=
  let* info := get item "info" (VStr EmptyString) in
  let* info_meta := parse_info_string info in
  let* image_ids := get item "images" (VList []) in
  let* ids := iter image_ids in
  let image_urls := map cdn_url ids in
  let* knodeid := get item "knodeid" VNone in
  let* key := get item "key" VNone in
  let cat_id := or_else knodeid key in
  let* encoded_cat_id :=
    if truthy cat_id then quote cat_id else ok EmptyString in
  let product_url := "https://shopee.co.id/top_products?catId=" ++ encoded_cat_id in
  let* name := get item "name" VNone in
  let* count := get item "count" VNone in
  let* product_id := get item "key" VNone in
  ok [ ("name", name);
       ("sold_count", count);
       ("label", VStr "Top Product");
       ("product_id", product_id);
       ("score", dict_get info_meta "score" VNone);
       ("images", VList (map VStr image_urls));
       ("primary_image",
          match image_urls with u :: _ => VStr u | [] => VNone end);
       ("type", VStr "Top Product");
       ("url", VStr product_url) ].

Definition extract_shopee_products (data : value) : result (list dict) :=
  let extracted_products := [] in
  let* d := get data "data" (VDict []) in
  let* sections := get d "sections" (VList []) in
  let* sections := iter sections in
  for_each sections
    (fun extracted_products section =>
       let* section_data := get section "data" (VDict []) in
       let* top_products := get section_data "top_product" VNone in
       if truthy top_products then
         let* items := iter top_products in
         for_each items
           (fun extracted_products item =>
              let* product := top_product item in
              ok (extracted_products ++ [product])%list)
           extracted_products
       else ok extracted_products)
    extracted_products.

(** The body of the loop of [extract_suggestions]. *)
Definition suggestion (q : value) : result dict :=
  let* text := get q "text" (VStr EmptyString) in
  let* image := get q "image" VNone in
  let* img_id :=
    if truthy image then ok image
    else let* images := get q "images" VNone in
         if truthy images then index0 images else ok VNone in
  let primary_image :=
    if truthy img_id then VStr (cdn_url img_id) else VNone in
  let* encoded_keyword := quote text in
  let search_url := "https://shopee.co.id/search?keyword=" ++ encoded_keyword in
  let score := VNone in
  let* tracking := get q "tracking" (VStr EmptyString) in
  let* score_match := re_search rank_score_lit tracking in
  let* score :=
    match score_match with
    | Some g => let* f := float_of_string g in ok (VFloat f)
    | None => ok score
    end in
  let* item_ids := get q "item_ids" (VList [VNone]) in
  let* product_id := index0 item_ids in
  ok [ ("name", text);
       ("sold_count", VNone);
       ("label", VStr "Suggestion");
       ("product_id", product_id);
       ("score", score);
       ("images", VList (if truthy primary_image then [primary_image] else []));
       ("primary_image", primary_image);
       ("type", VStr "Suggestion");
       ("url", VStr search_url) ].

Definition extract_suggestions (data : value) : result (list dict) :=
  let extracted := [] in
  let* d := get data "data" (VDict []) in
  let* queries := get d "queries" (VList []) in
  let* queries := iter queries in
  for_each queries
    (fun extracted q =>
       let* item := suggestion q in
       ok (extracted ++ [item])%list)
    extracted.

(** The dictionary appended by [extract_categories] for a level-1 entry. *)
Definition category (c : value) : result dict :=
  let* display_name := get c "display_name" VNone in
  let* name := get c "name" VNone in
  let* catid := get c "catid" VNone in
  let* image := get c "image" VNone in
  let* display := get c "display_name" (VStr EmptyString) in
  let* slug := replace " "%char "-"%char display in
  let* quoted := quote (VStr slug) in
  ok [ ("name", or_else display_name name);
       ("id", catid);
       ("image", if truthy image then VStr (cdn_url image) else VNone);
       ("url", VStr ("https://shopee.co.id/" ++ quoted ++ "-cat." ++ str_of catid)) ].

Definition extract_categories (data : value) : result (list dict) :=
  let cats := [] in
  let* d := get data "data" (VDict []) in
  let* cat_list := get d "category_list" (VList []) in
  let* cat_list := iter cat_list in
  for_each cat_list
    (fun cats c =>
       let* level := get c "level" VNone in
       if eq_int level 1 then
         let* entry := category c in
         ok (cats ++ [entry])%list
       else ok cats)
    cats.

(** The body of the loop of [extract_flash_sales]. *)
Definition flash_sale (it : value) : result dict :=
  let* p := get it "price" VNone in
  let raw_price := or_else p (VInt 0) in
  let* pb := get it "price_before_discount" VNone in
  let raw_old_price := or_else pb (VInt 0) in
  let* price := truediv raw_price 100000 in
  let* old_price := truediv raw_old_price 100000 in
  let* discount := get it "discount" (VStr EmptyString) in
  let* img_id := get it "image" VNone in
  let primary_image :=
    if truthy img_id then VStr (cdn_url img_id) else VNone in
  let* itemid := get it "itemid" VNone in
  let* shopid := get it "shopid" VNone in
  let product_url :=
    "https://shopee.co.id/product-i." ++ str_of shopid ++ "." ++ str_of itemid in
  let* name := get it "name" VNone in
  let* historical_sold := get it "historical_sold" VNone in
  let* item_rating := get it "item_rating" (VDict []) in
  let* rating_star := get item_rating "rating_star" VNone in
  ok [ ("name", name);
       ("price", price);
       ("old_price", old_price);
       ("discount", discount);
       ("sold_count", historical_sold);
       ("label", VStr "Flash Sale");
       ("product_id", VStr (str_of shopid ++ "." ++ str_of itemid));
       ("score", rating_star);
       ("images", VList (if truthy primary_image then [primary_image] else []));
       ("primary_image", primary_image);
       ("type", VStr "Flash Sale");
       ("url", VStr product_url) ].

Definition extract_flash_sales (data : value) : result (list dict) :=
  let extracted := [] in
  let* d := get data "data" (VDict []) in
  let* items := get d "items" (VList []) in
  let* items := iter items in
  for_each items
    (fun extracted it =>
       let* item := flash_sale it in
       ok (extracted ++ [item])%list)
    extracted.

(** The record built by [extract_daily_discover] from a non-empty [it]. *)
Definition daily_discover (it : value) : result dict :=
  let* display_price := get it "item_card_display_price" (VDict []) in
  let* p := get display_price "price" VNone in
  let raw_price := or_else p (VInt 0) in
  let* sp := get display_price "strikethrough_price" VNone in
  let raw_old_price := or_else sp (VInt 0) in
  let* price := truediv raw_price 100000 in
  let* old_price := truediv raw_old_price 100000 in
  let* discount := get display_price "discount_text" (VStr EmptyString) in
  let* img_id := get it "image" VNone in
  let primary_image :=
    if truthy img_id then VStr (cdn_url img_id) else VNone in
  let* itemid := get it "itemid" VNone in
  let* shopid := get it "shopid" VNone in
  let product_url :=
    "https://shopee.co.id/product-i." ++ str_of shopid ++ "." ++ str_of itemid in
  let* name := get it "name" VNone in
  let* historical_sold := get it "historical_sold" VNone in
  let* item_rating := get it "item_rating" (VDict []) in
  let* rating_star := get item_rating "rating_star" VNone in
  let* images := get it "images" (VList []) in
  let* first3 := slice_to 3 images in
  let* imgs := iter first3 in
  ok [ ("name", name);
       ("price", price);
       ("old_price", old_price);
       ("discount", discount);
       ("sold_count", or_else historical_sold (VInt 0));
       ("label", VStr "Daily Discover");
       ("product_id", VStr (str_of shopid ++ "." ++ str_of itemid));
       ("score", rating_star);
       ("images", VList (map (fun img => VStr (cdn_url img)) imgs));
       ("primary_image", primary_image);
       ("type", VStr "Daily Discover");
       ("url", VStr product_url) ].

Definition extract_daily_discover (data : value) : result (list dict) :=
  let extracted := [] in
  let* d := get data "data" (VDict []) in
  let* feeds := get d "feeds" (VList []) in
  let* feeds := iter feeds in
  for_each feeds
    (fun extracted feed =>
       let* type := get feed "type" VNone in
       if eq_str type "item_card" then
         let* item_card := get feed "item_card" (VDict []) in
         let* it := get item_card "item" (VDict []) in
         if negb (truthy it) then ok extracted
         else
           let* item := daily_discover it in
           ok (extracted ++ [item])%list
       else ok extracted)
    extracted.

(** What the script of [main.py] hands to [generate_html_report]. *)
Record report_input : Type := {
  products : list dict;
  suggestions : list dict;
  footer_data : value;
  categories : list dict;
  flash_sales : list dict;
  daily_discover_items : list dict
}.

(** The [__main__] block of [main.py], up to the call of
    [generate_html_report]. *)
Definition main (disk : Files.fs) : result report_input :=
  let rec_data := load_json_data disk "response_shopee.json" in
  let* products := extract_shopee_products rec_data in
  let sug_data := load_json_data disk "search_suggestion_shopee.json" in
  let* suggestions :=
    if truthy sug_data then extract_suggestions sug_data else ok [] in
  let footer_data := load_json_data disk "response_footer.json" in
  let cat_data := load_json_data disk "response_category.json" in
  let* categories := extract_categories cat_data in
  let flash_data := load_json_data disk "response_flash_sale.json" in
  let* flash_sales :=
    if truthy flash_data then extract_flash_sales flash_data else ok [] in
  let discover_data := load_json_data disk "response_daily_discover.json" in
  let* daily_discover :=
    if truthy discover_data then extract_daily_discover discover_data
    else ok [] in
  ok {| products := products;
        suggestions := suggestions;
        footer_data := footer_data;
        categories := categories;
        flash_sales := flash_sales;
        daily_discover_items := daily_discover |}.

End Normaliser.

End Main.


(* ===================================================================== *)
(** * [main_2.py]: the copies of the extractors *)
(* ===================================================================== *)

Module Main2.

Import Py.

Section Normaliser.

Context {R : Repr}.

Definition cdn_url (v : value) : string :=
  "https://down-id.img.susercontent.com/file/" ++ str_of v.

Definition parse_part (parsed : dict) (part : string) : dict :=
  if has_char ":"%char part && negb (has_char "{"%char part)
  then match split_once ":"%char part with
       | Some (k, v) => dict_set (lower (strip k)) (VStr (strip v)) parsed
       | None => parsed
       end
  else parsed.

Definition parse_info_string (info : value) : result dict :=
  if negb (truthy info) then ok []
  else
    let parsed := [] in
    let* score_match := re_search "SCORE:" info in
    let* parsed :=
      match score_match with
      | Some g => let* f := float_of_string g in
                  ok (dict_set "score" (VFloat f) parsed)
      | None => ok parsed
      end in
    match info with
    | VStr s => ok (fold_left parse_part (split_on ","%char s) parsed)
    | _ => raise AttributeError
    end.

(** The body of the loop of [extract_flash_sales]. *)
Definition flash_sale (it : value) : result dict :=
  let* p := get it "price" VNone in
  let* price := truediv (or_else p (VInt 0)) 100000 in
  let* pb := get it "price_before_discount" VNone in
  let* old_price := truediv (or_else pb (VInt 0)) 100000 in
  let* img_id := get it "image" VNone in
  let primary_image :=
    if truthy img_id then VStr (cdn_url img_id) else VNone in
  let* itemid := get it "itemid" VNone in
  let* shopid := get it "shopid" VNone in
  let* name := get it "name" VNone in
  let* discount := get it "discount" (VStr EmptyString) in
  let* historical_sold := get it "historical_sold" VNone in
  let* item_rating := get it "item_rating" (VDict []) in
  let* rating_star := get item_rating "rating_star" VNone in
  ok [ ("name", name);
       ("price", price);
       ("old_price", old_price);
       ("discount", discount);
       ("sold_count", historical_sold);
       ("label", VStr "Flash Sale");
       ("product_id", VStr (str_of shopid ++ "." ++ str_of itemid));
       ("score", rating_star);
       ("images", VList (if truthy primary_image then [primary_image] else []));
       ("primary_image", primary_image);
       ("type", VStr "Flash Sale");
       ("url", VStr ("https://shopee.co.id/product-i."
                       ++ str_of shopid ++ "." ++ str_of itemid)) ].

Definition extract_flash_sales (data : value) : result (list dict) :=
  let extracted := [] in
  let* d := get data "data" (VDict []) in
  let* items := get d "items" (VList []) in
  let* items := iter items in
  for_each items
    (fun extracted it =>
       let* item := flash_sale it in
       ok (extracted ++ [item])%list)
    extracted.

(** The record built by [extract_daily_discover] from a non-empty [it]. *)
Definition daily_discover (it : value) : result dict :=
  let* dp := get it "item_card_display_price" (VDict []) in
  let* p := get dp "price" VNone in
  let* price := truediv (or_else p (VInt 0)) 100000 in
  let* sp := get dp "strikethrough_price" VNone in
  let* old_price := truediv (or_else sp (VInt 0)) 100000 in
  let* img_id := get it "image" VNone in
  let primary_image :=
    if truthy img_id then VStr (cdn_url img_id) else VNone in
  let* itemid := get it "itemid" VNone in
  let* shopid := get it "shopid" VNone in
  let* name := get it "name" VNone in
  let* discount := get dp "discount_text" (VStr EmptyString) in
  let* historical_sold := get it "historical_sold" VNone in
  let* item_rating := get it "item_rating" (VDict []) in
  let* rating_star := get item_rating "rating_star" VNone in
  let* images := get it "images" (VList []) in
  let* first3 := slice_to 3 images in
  let* imgs := iter first3 in
  ok [ ("name", name);
       ("price", price);
       ("old_price", old_price);
       ("discount", discount);
       ("sold_count", or_else historical_sold (VInt 0));
       ("label", VStr "Daily Discover");
       ("product_id", VStr (str_of shopid ++ "." ++ str_of itemid));
       ("score", rating_star);
       ("images", VList (map (fun img => VStr (cdn_url img)) imgs));
       ("primary_image", primary_image);
       ("type", VStr "Daily Discover");
       ("url", VStr ("https://shopee.co.id/product-i."
                       ++ str_of shopid ++ "." ++ str_of itemid)) ].

Definition extract_daily_discover (data : value) : result (list dict) :=
  let extracted := [] in
  let* d := get data "data" (VDict []) in
  let* feeds := get d "feeds" (VList []) in
  let* feeds := iter feeds in
  for_each feeds
    (fun extracted feed =>
       let* type := get feed "type" VNone in
       if eq_str type "item_card" then
         let* item_card := get feed "item_card" (VDict []) in
         let* it := get item_card "item" (VDict []) in
         if negb (truthy it) then ok extracted
         else
           let* item := daily_discover it in
           ok (extracted ++ [item])%list
       else ok extracted)
    extracted.

(** The body of the inner loop of [extract_shopee_products]. *)
Definition top_product (item : value) : result dict :=
  let* info := get item "info" (VStr EmptyString) in
  let* info_meta := parse_info_string info in
  let* image_ids := get item "images" (VList []) in
  let* ids := iter image_ids in
  let image_urls := map cdn_url ids in
  let* knodeid := get item "knodeid" VNone in
  let* key := get item "key" VNone in
  let cat_id := or_else knodeid key in
  let* product_url :=
    if truthy cat_id then
      let* quoted := quote cat_id in
      ok ("https://shopee.co.id/top_products?catId=" ++ quoted)
    else ok "#" in
  let* name := get item "name" VNone in
  let* count := get item "count" VNone in
  let* product_id := get item "key" VNone in
  ok [ ("name", name);
       ("sold_count", count);
       ("label", VStr "Top Product");
       ("product_id", product_id);
       ("score", dict_get info_meta "score" VNone);
       ("images", VList (map VStr image_urls));
       ("primary_image",
          match image_urls with u :: _ => VStr u | [] => VNone end);
       ("type", VStr "Top Product");
       ("url", VStr product_url) ].

Definition extract_shopee_products (data : value) : result (list dict) :=
  let extracted_products := [] in
  let* d := get data "data" (VDict []) in
  let* sections := get d "sections" (VList []) in
  let* sections := iter sections in
  for_each sections
    (fun extracted_products section =>
       let* section_data := get section "data" (VDict []) in
       let* top_products := get section_data "top_product" VNone in
       if truthy top_products then
         let* items := iter top_products in
         for_each items
           (fun extracted_products item =>
              let* product := top_product item in
              ok (extracted_products ++ [product])%list)
           extracted_products
       else ok extracted_products)
    extracted_products.

Definition rank_score_lit : string :=
  String (ascii_of_nat 34) ("rank_score" ++ String (ascii_of_nat 34) ":").

(** The body of the loop of [extract_suggestions]. *)
Definition suggestion (q : value) : result dict :=
  let* text := get q "text" (VStr EmptyString) in
  let* image := get q "image" VNone in
  let* img_id :=
    if truthy image then ok image
    else let* images := get q "images" VNone in
         if truthy images then index0 images else ok VNone in
  let primary_image :=
    if truthy img_id then VStr (cdn_url img_id) else VNone in
  let score := VNone in
  let* tracking := get q "tracking" (VStr EmptyString) in
  let* score_match := re_search rank_score_lit tracking in
  let* score :=
    match score_match with
    | Some g => let* f := float_of_string g in ok (VFloat f)
    | None => ok score
    end in
  let* item_ids := get q "item_ids" (VList [VNone]) in
  let* product_id := index0 item_ids in
  let* quoted := quote text in
  ok [ ("name", text);
       ("sold_count", VNone);
       ("label", VStr "Suggestion");
       ("product_id", product_id);
       ("score", score);
       ("images", VList (if truthy primary_image then [primary_image] else []));
       ("primary_image", primary_image);
       ("type", VStr "Suggestion");
       ("url", VStr ("https://shopee.co.id/search?keyword=" ++ quoted)) ].

Definition extract_suggestions (data : value) : result (list dict) :=
  let extracted := [] in
  let* d := get data "data" (VDict []) in
  let* queries := get d "queries" (VList []) in
  let* queries := iter queries in
  for_each queries
    (fun extracted q =>
       let* item := suggestion q in
       ok (extracted ++ [item])%list)
    extracted.

(** The dictionary appended by [extract_categories] for a level-1 entry. *)
Definition category (c : value) : result dict :=
  let* display_name := get c "display_name" VNone in
  let* name := get c "name" VNone in
  let* catid := get c "catid" VNone in
  let* image := get c "image" VNone in
  let* display := get c "display_name" (VStr EmptyString) in
  let* slug := replace " "%char "-"%char display in
  let* quoted := quote (VStr slug) in
  ok [ ("name", or_else display_name name);
       ("id", catid);
       ("image", if truthy image then VStr (cdn_url image) else VNone);
       ("url", VStr ("https://shopee.co.id/" ++ quoted ++ "-cat." ++ str_of catid)) ].

Definition extract_categories (data : value) : result (list dict) :=
  let cats := [] in
  let* d := get data "data" (VDict []) in
  let* cat_list := get d "category_list" (VList []) in
  let* cat_list := iter cat_list in
  for_each cat_list
    (fun cats c =>
       let* level := get c "level" VNone in
       if eq_int level 1 then
         let* entry := category c in
         ok (cats ++ [entry])%list
       else ok cats)
    cats.

(** The endpoints of [fetch_dynamic_data], in the order of the dictionary. *)
Definition endpoints : list (string * string) :=
  [ ("rec", "https://shopee.co.id/api/v4/recommend/recommend?bundle=top_products_homepage&limit=20");
    ("cat", "https://shopee.co.id/api/v4/pages/get_category_tree");
    ("flash", "https://shopee.co.id/api/v4/flash_sale/flash_sale_get_items?limit=16&need_personalize=true&offset=0&sort_soldout=true&tracker_info_version=1&with_dp_items=true");
    ("discover", "https://shopee.co.id/api/v4/homepage/get_daily_discover?bundle=daily_discover_main&item_card=3&limit=60&need_dynamic_translation=false&need_tab=true&offset=0");
    ("footer", "https://shopee.co.id/backend/CMS/footer/0/");
    ("sug", "https://shopee.co.id/api/v4/search/search_suggestion?bundle=popsearch&limit=10") ].

(** One turn of the loop over [endpoints.items()]: [evaluate url] is what
    [page.evaluate] gives for the script that fetches [url], a value or an
    exception.  Writing the artifact is taken to succeed. *)
Definition fetch_endpoint (evaluate : string -> result value)
           (state : dict * Files.fs) (endpoint : string * string)
  : dict * Files.fs :=
  let '(results, disk) := state in
  let '(name, url) := endpoint in
  match evaluate url with
  | inr raw_data =>
      (dict_set name raw_data results,
       Files.write_json disk ("dynamic_" ++ name ++ ".json") raw_data)
  | inl _ => (dict_set name (VDict []) results, disk)
  end.

(** The loop of [fetch_dynamic_data]: [results] and the disk after it. *)
Definition fetch_endpoints (evaluate : string -> result value)
           (disk : Files.fs) : dict * Files.fs :=
  fold_left (fetch_endpoint evaluate) endpoints ([], disk).

(** What [fetch_dynamic_data] hands to [generate_html_report]. *)
Record report_input : Type := {
  products : list dict;
  suggestions : list dict;
  footer_data : value;
  categories : list dict;
  flash_sales : list dict;
  daily_discover_items : list dict
}.

(** The data processing of [fetch_dynamic_data]. *)
Definition process (results : dict) : result report_input :=
  let* products := extract_shopee_products (dict_get results "rec" (VDict [])) in
  let* categories := extract_categories (dict_get results "cat" (VDict [])) in
  let* flash_sales := extract_flash_sales (dict_get results "flash" (VDict [])) in
  let* daily_discover :=
    extract_daily_discover (dict_get results "discover" (VDict [])) in
  let* suggestions := extract_suggestions (dict_get results "sug" (VDict [])) in
  let footer_data := dict_get results "footer" (VDict []) in
  ok {| products := products;
        suggestions := suggestions;
        footer_data := footer_data;
        categories := categories;
        flash_sales := flash_sales;
        daily_discover_items := daily_discover |}.

(** [fetch_dynamic_data] from the operator's confirmation on, up to the call
    of [generate_html_report]: the disk it leaves and the records it
    extracts. *)
Definition fetch_dynamic_data (evaluate : string -> result value)
           (disk : Files.fs) : Files.fs * result report_input :=
  let '(results, disk') := fetch_endpoints evaluate disk in
  (disk', process results).

End Normaliser.

End Main2.

(* ===================================================================== *)
(** * [cek_shopee.py]: the session harvester *)
(* ===================================================================== *)

Module Harvester.

Import Py.

Definition strmap : Type := list (string * string).

(** [harvested_data]: [url] is [None] until a capture. *)
Record token : Type := {
  url : option string;
  headers : strmap;
  cookies : strmap
}.

(** An observed response: its URL, the headers of its request, and what
    [response.json()] gives. *)
Record response : Type := {
  resp_url : string;
  request_headers : strmap;
  resp_json : result value
}.

(** A response reaching the observer, with what [context.cookies()] returns
    to it: the [(name, value)] pairs of the jar, or an exception. *)
Record arrival : Type := {
  resp : response;
  jar : result (list (string * string))
}.

(** The variables the observer and the main coroutine share.  Observers are
    run to completion one at a time: the test and the assignment of
    [harvested_data["url"]] come before the observer's first [await]. *)
Record state : Type := {
  harvested_data : token;
  request_captured : bool;
  disk : Files.fs
}.

Definition init (d : Files.fs) : state :=
  {| harvested_data := {| url := None; headers := []; cookies := [] |};
     request_captured := false;
     disk := d |}.

(** [not harvested_data["url"]] *)
Definition no_url (u : option string) : bool :=
  match u with
  | None => true
  | Some s => String.eqb s EmptyString
  end.

(** [{c['name']: c['value'] for c in cookies}] *)
Definition flatten (cs : list (string * string)) : strmap :=
  fold_left (fun d c => assoc_set (fst c) (snd c) d) cs [].

Definition target : string := "api/v4/recommend/recommend".
Definition bundle : string := "bundle=top_products_homepage".

Definition handle_response (s : state) (a : arrival) : state :=
  let response := resp a in
  if contains target (resp_url response) then
    if contains bundle (resp_url response) || no_url (url (harvested_data s))
    then
      let h := {| url := Some (resp_url response);
                  headers := request_headers response;
                  cookies := cookies (harvested_data s) |} in
      match jar a with
      | inl _ =>
          {| harvested_data := h;
             request_captured := request_captured s;
             disk := disk s |}
      | inr cs =>
          {| harvested_data := {| url := url h;
                                  headers := headers h;
                                  cookies := flatten cs |};
             request_captured := true;
             disk := match resp_json response with
                     | inr resp_json =>
                         Files.write_json (disk s) "response_shopee.json" resp_json
                     | inl _ => disk s
                     end |}
      end
    else s
  else s.

(** The observers that run while the main coroutine is suspended. *)
Definition deliver (arrivals : list arrival) (s : state) : state :=
  fold_left handle_response arrivals s.

(** One turn of the scroll loop as the environment shapes it: the responses
    arriving during [page.evaluate], whether that call returns, and the
    responses arriving during [asyncio.sleep(2)]. *)
Record turn : Type := {
  during_evaluate : list arrival;
  evaluate_ok : bool;
  during_sleep : list arrival
}.

(** [for i in range(15): ...] over the remaining values of [i].  The result
    is the shared state, the offsets passed to [window.scrollBy], and whether
    the loop ended without an exception. *)
Fixpoint scroll_loop (steps : list nat) (env : nat -> turn) (s : state)
  : state * list Z * bool :=
  match steps with
  | [] => (s, [], true)
  | i :: steps' =>
      if request_captured s then (s, [], true)
      else
        let scroll_val := 600 + Z.of_nat i * 200 in
        let s1 := deliver (during_evaluate (env i)) s in
        if evaluate_ok (env i) then
          let s2 := deliver (during_sleep (env i)) s1 in
          let '(s3, scrolls, completed) := scroll_loop steps' env s2 in
          (s3, scroll_val :: scrolls, completed)
        else (s1, [scroll_val], false)
  end.

(** What the environment does during one run: the responses arriving at
    each [await] of the main coroutine and whether the call awaited returns.
    [during_screenshot] and [screenshot_ok] speak of [page.screenshot],
    should it be called; [during_close] of [context.close()], which is taken
    not to raise. *)
Record world : Type := {
  during_goto : list arrival;
  goto_ok : bool;
  during_wait : list arrival;
  turns : nat -> turn;
  during_screenshot : list arrival;
  screenshot_ok : bool;
  during_close : list arrival
}.

(** [page.screenshot(path="debug_persistent.png")] *)
Definition take_screenshot (s : state) : state :=
  {| harvested_data := harvested_data s;
     request_captured := request_captured s;
     disk := Files.write_image (disk s) "debug_persistent.png" |}.

Record run : Type := {
  final : state;
  scrolls : list Z;
  screenshot : bool;
  saved : Files.fs
}.

Definition strmap_value (m : strmap) : value :=
  VDict (map (fun kv => (fst kv, VStr (snd kv))) m).

(** The dictionary written to [shopee_prep.json]. *)
Definition prep_data (u : string) (t : token) : value :=
  let headers :=
    assoc_set "accept" "application/json"
      (assoc_set "x-requested-with" "XMLHttpRequest" (headers t)) in
  VDict [ ("url", VStr u);
          ("headers", strmap_value headers);
          ("cookies", strmap_value (cookies t)) ].

Definition get_shopee_tokens_persistent (w : world) (d : Files.fs) : run :=
  let s0 := init d in
  let s1 := deliver (during_goto w) s0 in
  let '(s, scrolled, shot) :=
    if goto_ok w then
      let s2 := deliver (during_wait w) s1 in
      let '(s3, scrolled, completed) := scroll_loop (seq 0 15) (turns w) s2 in
      if completed && negb (request_captured s3) then
        let s4 := deliver (during_screenshot w) s3 in
        if screenshot_ok w then (take_screenshot s4, scrolled, true)
        else (s4, scrolled, false)
      else (s3, scrolled, false)
    else (s1, [], false) in
  let s := deliver (during_close w) s in
  {| final := s;
     scrolls := scrolled;
     screenshot := shot;
     saved := match url (harvested_data s) with
              | Some u =>
                  if String.eqb u EmptyString then disk s
                  else Files.write_json (disk s) "shopee_prep.json"
                         (prep_data u (harvested_data s))
              | None => disk s
              end |}.

(** The shared state when the loop tests the signal for step [i], should the
    loop get that far. *)
Fixpoint state_at_check (env : nat -> turn) (s : state) (first : nat) (i : nat)
  : state :=
  match i with
  | O => s
  | S i' =>
      state_at_check env
        (deliver (during_sleep (env first))
           (deliver (during_evaluate (env first)) s))
        (S first) i'
  end.

End Harvester.

(* ===================================================================== *)
(** * [fetch_direct.py]: the replay client *)
(* ===================================================================== *)

Module Replay.

Import Py.

(** An [httpx] response: [response.json()] is a field holding its outcome. *)
Record response : Type := {
  status_code : Z;
  text : string;
  json : result value
}.

(** The lines the client prints, by their content. *)
Inductive line : Type :=
| Loading
| PrepNotFound
| Sending (url60 : value)
| Success (product_count : Z)
| Saved
| StatusCode (code : Z)
| ResponseExcerpt (excerpt : string)
| ExceptionLine (e : exn).

(** [v[k]] for a string key. *)
Definition subscript (v : value) (k : string) : result value :=
  match v with
  | VDict d =>
      match lookup k d with
      | Some x => ok x
      | None => raise KeyError
      end
  | _ => raise TypeError
  end.

(** [len(v)] *)
Definition len (v : value) : result Z :=
  match v with
  | VList l => ok (Z.of_nat (List.length l))
  | VStr s => ok (Z.of_nat (String.length s))
  | VDict d => ok (Z.of_nat (List.length d))
  | VNone | VBool _ | VInt _ | VFloat _ => raise TypeError
  end.

(** The count of [top_product] entries over [data.sections]. *)
Definition count_products (data : value) : result Z :=
  let* d := get data "data" (VDict []) in
  let* sections := get d "sections" (VList []) in
  let product_count := 0 in
  let* sections := iter sections in
  for_each sections
    (fun product_count section =>
       let* section_data := get section "data" (VDict []) in
       let* prods := get section_data "top_product" (VList []) in
       let* n := len prods in
       ok (product_count + n))
    product_count.

(** The outcome of a run: the artifacts, the printed lines, and the exception
    that escapes the function, if one does. *)
Record outcome : Type := {
  disk : Files.fs;
  stdout : list line;
  escaped : option exn
}.

Section Client.

(** [httpx.AsyncClient(http2=True, cookies=cookies)]: the client is built,
    or the constructor raises.  It is called outside the [try]. *)
Variable new_client : value -> result unit.

(** [client.get(url, headers=headers, timeout=15)] on a client holding
    [cookies]: a response, or the exception the request raises.  Closing the
    client is taken not to raise. *)
Variable http_get : value -> value -> value -> result response.

Definition fetch_shopee_direct (d : Files.fs) : outcome :=
  match Files.read_json d "shopee_prep.json" with
  | inl FileNotFoundError =>
      {| disk := d; stdout := [Loading; PrepNotFound]; escaped := None |}
  | inl e => {| disk := d; stdout := [Loading]; escaped := Some e |}
  | inr prep =>
      match (let* url := subscript prep "url" in
             let* headers := subscript prep "headers" in
             let* cookies := subscript prep "cookies" in
             let* url60 := slice_to 60 url in
             ok (url, headers, cookies, url60)) with
      | inl e => {| disk := d; stdout := [Loading]; escaped := Some e |}
      | inr (url, headers, cookies, url60) =>
          let out := [Loading; Sending url60] in
          match new_client cookies with
          | inl e => {| disk := d; stdout := out; escaped := Some e |}
          | inr _ =>
              match http_get url headers cookies with
              | inl e =>
                  {| disk := d;
                     stdout := out ++ [ExceptionLine e];
                     escaped := None |}
              | inr response =>
                  if status_code response =? 200 then
                    match (let* data := json response in
                           let* product_count := count_products data in
                           ok (data, product_count)) with
                    | inl e =>
                        {| disk := d;
                           stdout := out ++ [ExceptionLine e];
                           escaped := None |}
                    | inr (data, product_count) =>
                        {| disk :=
                             Files.write_json d "response_shopee.json" data;
                           stdout := out ++ [Success product_count; Saved];
                           escaped := None |}
                    end
                  else
                    {| disk := d;
                       stdout :=
                         out ++ [StatusCode (status_code response);
                                 ResponseExcerpt (take 200 (text response))];
                       escaped := None |}
              end
          end
      end
  end.

End Client.

End Replay.

(* ===================================================================== *)
(** * Notions used by the statements *)
(* ===================================================================== *)

Import Py.

(** A rendering for the examples, none of which formats a float or a
    container. *)
Definition no_repr : Repr := fun _ => "<repr>".

(** [data.get('data', {}).get(key, [])], as a loop runs over it. *)
Definition container (data : value) (key : string) : result (list value) :=
  let* d := get data "data" (VDict []) in
  let* c := get d key (VList []) in
  iter c.

(** [{"data": {key: items}}] *)
Definition payload (key : string) (items : list value) : value :=
  VDict [("data", VDict [(key, VList items)])].

(** The invariant of a product record: [primary_image] is the first of
    [images], and is missing or [None] when there is none. *)
Definition primary_image_is_first (r : dict) : Prop :=
  dict_get r "primary_image" VNone =
  match dict_get r "images" (VList []) with
  | VList (u :: _) => u
  | _ => VNone
  end.

(** The info string of the score-parsing example. *)
Definition info_example : value := VStr "SCORE:4.8,other:{nested}".

(** A flash-sale payload whose only item has the price of the scaling
    example. *)
Definition flash_priced : value :=
  payload "items"
    [VDict [("itemid", VInt 7); ("shopid", VInt 3);
            ("price", VInt 12345600);
            ("price_before_discount", VInt 20000000)]].

(** A daily-discover item with display prices. *)
Definition discover_priced : dict :=
  [("itemid", VInt 7); ("shopid", VInt 3);
   ("item_card_display_price",
      VDict [("price", VInt 12345600);
             ("strikethrough_price", VInt 20000000)])].

(** A daily-discover payload whose item has a gallery and no cover image. *)
Definition discover_gallery_only : value :=
  payload "feeds"
    [VDict [("type", VStr "item_card");
            ("item_card",
               VDict [("item",
                         VDict [("itemid", VInt 7); ("shopid", VInt 3);
                                ("images", VList [VStr "a"; VStr "b"])])])]].

(** A top-product payload with one section of one product. *)
Definition top_products_one : value :=
  payload "sections"
    [VDict [("data",
               VDict [("top_product",
                         VList [VDict [("name", VStr "Kaos");
                                       ("key", VStr "k1");
                                       ("images", VList [VStr "a"; VStr "b"])]])])]].

(** A flash-sale payload whose item carries identifiers only. *)
Definition flash_bare : value :=
  payload "items" [VDict [("itemid", VInt 7); ("shopid", VInt 3)]].

(** [f] applied to the items in order, up to the first exception. *)
Fixpoint each {A B : Type} (f : A -> result B) (xs : list A)
  : result (list B) :=
  match xs with
  | [] => ok []
  | x :: xs' =>
      let* y := f x in
      let* ys := each f xs' in
      ok (y :: ys)
  end.

(** An item that gives one record. *)
Definition one {A B : Type} (f : A -> result B) (x : A) : result (list B) :=
  let* y := f x in ok [y].

Section Contributions.

Context {R : Repr}.

(** The records one section adds in [extract_shopee_products]. *)
Definition section_records (section : value) : result (list dict) :=
  let* section_data := get section "data" (VDict []) in
  let* top_products := get section_data "top_product" VNone in
  if truthy top_products then
    let* items := iter top_products in
    each Main.top_product items
  else ok [].

(** The records one entry adds in [extract_categories]. *)
Definition category_records (c : value) : result (list dict) :=
  let* level := get c "level" VNone in
  if eq_int level 1 then one Main.category c else ok [].

(** The records one feed adds in [extract_daily_discover]. *)
Definition feed_records (feed : value) : result (list dict) :=
  let* type := get feed "type" VNone in
  if eq_str type "item_card" then
    let* item_card := get feed "item_card" (VDict []) in
    let* it := get item_card "item" (VDict []) in
    if negb (truthy it) then ok [] else one Main.daily_discover it
  else ok [].

End Contributions.

(** An extractor [extract] over the container at [key], whose items add the
    records [records], contains no failure: an exception for one item is an
    exception of the extractor, and without one the extractor returns the
    records of all the items in order. *)
Definition all_or_nothing (extract : value -> result (list dict))
           (key : string) (records : value -> result (list dict)) : Prop :=
  forall data xs,
    container data key = ok xs ->
    (forall x e, In x xs -> records x = raise e ->
                 exists e', extract data = raise e') /\
    (forall rss, Forall2 (fun x rs => records x = ok rs) xs rss ->
                 extract data = ok (concat rss)).

(** Two suggestion queries: the first with an empty [item_ids], the second
    with none. *)
Definition query_empty_ids : value :=
  VDict [("text", VStr "kaos pria"); ("item_ids", VList [])].

Definition query_plain : value := VDict [("text", VStr "sepatu")].

Definition suggestions_empty_ids : value :=
  payload "queries" [query_empty_ids; query_plain].

(** The shared states of the harvester: the initial one and those an observer
    leaves. *)
Inductive reachable : Harvester.state -> Prop :=
| reach_init (d : Files.fs) : reachable (Harvester.init d)
| reach_step (s : Harvester.state) (a : Harvester.arrival) :
    reachable s -> reachable (Harvester.handle_response s a).

(** Two responses of the recommend API, the second one for the bundle. *)
Definition incidental : Harvester.arrival :=
  {| Harvester.resp :=
       {| Harvester.resp_url :=
            "https://shopee.co.id/api/v4/recommend/recommend?bundle=daily";
          Harvester.request_headers := [("user-agent", "Mozilla/5.0")];
          Harvester.resp_json := ok (VDict []) |};
     Harvester.jar := ok [("SPC_F", "abc")] |}.

Definition specific : Harvester.arrival :=
  {| Harvester.resp :=
       {| Harvester.resp_url :=
            "https://shopee.co.id/api/v4/recommend/recommend?bundle=top_products_homepage";
          Harvester.request_headers := [("user-agent", "Mozilla/5.0")];
          Harvester.resp_json := ok (VDict [("data", VDict [])]) |};
     Harvester.jar := ok [("SPC_F", "abc"); ("SPC_U", "42")] |}.

(** A run in which the incidental response arrives during the second scroll
    and nothing else happens. *)
Definition quiet_turn : Harvester.turn :=
  {| Harvester.during_evaluate := [];
     Harvester.evaluate_ok := true;
     Harvester.during_sleep := [] |}.

Definition capture_in_second_turn : Harvester.world :=
  {| Harvester.during_goto := [];
     Harvester.goto_ok := true;
     Harvester.during_wait := [];
     Harvester.turns := fun i =>
       if Nat.eqb i 1
       then {| Harvester.during_evaluate := [];
               Harvester.evaluate_ok := true;
               Harvester.during_sleep := [incidental] |}
       else quiet_turn;
     Harvester.during_screenshot := [];
     Harvester.screenshot_ok := true;
     Harvester.during_close := [] |}.

(** A persisted token record and a disk that holds it next to an earlier
    capture. *)
Definition prep_sample : value :=
  VDict [("url",
            VStr "https://shopee.co.id/api/v4/recommend/recommend?bundle=top_products_homepage");
         ("headers", VDict [("accept", VStr "application/json")]);
         ("cookies", VDict [("SPC_F", VStr "abc")])].

Definition earlier_capture : value := VDict [("data", VDict [])].

Definition disk_with_prep : Files.fs :=
  Files.write_json
    (Files.write_json Files.empty_disk "response_shopee.json" earlier_capture)
    "shopee_prep.json" prep_sample.

(** Three servers: one answers 200 with a page that is not JSON, one answers
    200 with a JSON body of two products, one answers 403. *)
Definition http_200_html (url headers cookies : value)
  : result Replay.response :=
  ok {| Replay.status_code := 200;
        Replay.text := "<html>captcha</html>";
        Replay.json := raise ValueError |}.

Definition fresh_body : value :=
  VDict [("data",
            VDict [("sections",
                      VList [VDict [("data",
                                       VDict [("top_product",
                                                 VList [VDict []; VDict []])])]])])].

Definition http_200_json (url headers cookies : value)
  : result Replay.response :=
  ok {| Replay.status_code := 200;
        Replay.text := "{...}";
        Replay.json := ok fresh_body |}.

Definition http_403 (url headers cookies : value) : result Replay.response :=
  ok {| Replay.status_code := 403;
        Replay.text := "forbidden";
        Replay.json := raise ValueError |}.

(** Two outcomes in step: both return, related by [Rel], or both raise,
    related by [Err]. *)
Definition in_step {S S' : Type} (Rel : S -> S' -> Prop)
           (Err : exn -> exn -> Prop) (a : result S) (b : result S') : Prop :=
  match a, b with
  | inr x, inr y => Rel x y
  | inl e, inl e' => Err e e'
  | _, _ => False
  end.

(** The link of a top product in [main_2.py], from its record in [main.py]:
    the bare category link becomes ["#"]. *)
Definition relink (r : dict) : dict :=
  match lookup "url" r with
  | Some (VStr u) =>
      if String.eqb u "https://shopee.co.id/top_products?catId="
      then dict_set "url" (VStr "#") r
      else r
  | _ => r
  end.

(** A suggestion query whose text is not a string and whose [item_ids] is
    empty. *)
Definition query_two_faults : value :=
  VDict [("text", VInt 5); ("item_ids", VList [])].

(** The keys of a product record with prices, and of one without. *)
Definition priced_keys : list string :=
  ["name"; "price"; "old_price"; "discount"; "sold_count"; "label";
   "product_id"; "score"; "images"; "primary_image"; "type"; "url"].

Definition plain_keys : list string :=
  ["name"; "sold_count"; "label"; "product_id"; "score"; "images";
   "primary_image"; "type"; "url"].

(** A record with the keys [keys], tagged [tag] as its type and its label. *)
Definition tagged (keys : list string) (tag : string) (r : dict) : Prop :=
  map fst r = keys /\
  lookup "type" r = Some (VStr tag) /\
  lookup "label" r = Some (VStr tag).

(** A record whose prices are numbers. *)
Definition priced (r : dict) : Prop :=
  exists q q', lookup "price" r = Some (VFloat q) /\
               lookup "old_price" r = Some (VFloat q').

(** A record whose link is the product page of its [product_id]. *)
Definition linked (r : dict) : Prop :=
  exists pid, lookup "product_id" r = Some (VStr pid) /\
              lookup "url" r
              = Some (VStr ("https://shopee.co.id/product-i." ++ pid)).

(** A record with at most [n] images. *)
Definition gallery_within (n : nat) (r : dict) : Prop :=
  exists l, lookup "images" r = Some (VList l) /\ (List.length l <= n)%nat.

(** A daily-discover payload of one item with five images. *)
Definition discover_five_images : value :=
  payload "feeds"
    [VDict [("type", VStr "item_card");
            ("item_card",
               VDict [("item",
                         VDict [("itemid", VInt 7); ("shopid", VInt 3);
                                ("images",
                                   VList [VStr "a"; VStr "b"; VStr "c";
                                          VStr "d"; VStr "e"])])])]].

(** [c.get('level') == 1] for an entry that has the method. *)
Definition is_level_1 (c : value) : bool :=
  match get c "level" VNone with
  | inr level => eq_int level 1
  | inl _ => false
  end.

(** The marker the in-page script returns when its [fetch] fails. *)
Definition error_marker (message : string) : dict :=
  [("error", VStr message)].

(** A category list with a level-1 entry, a level-2 entry and another
    level-1 entry. *)
Definition categories_mixed : value :=
  payload "category_list"
    [VDict [("display_name", VStr "Elektronik Rumah"); ("catid", VInt 123);
            ("level", VInt 1)];
     VDict [("display_name", VStr "Kulkas"); ("catid", VInt 124);
            ("level", VInt 2)];
     VDict [("display_name", VStr "Fashion"); ("catid", VInt 200);
            ("level", VInt 1)]].

(** A response that is not of the recommend API. *)
Definition misses (a : Harvester.arrival) : Prop :=
  contains Harvester.target (Harvester.resp_url (Harvester.resp a)) = false.

(** A run during which no response of the recommend API is observed. *)
Definition no_target_response (w : Harvester.world) : Prop :=
  Forall misses (Harvester.during_goto w) /\
  Forall misses (Harvester.during_wait w) /\
  (forall i, Forall misses (Harvester.during_evaluate (Harvester.turns w i)) /\
             Forall misses (Harvester.during_sleep (Harvester.turns w i))) /\
  Forall misses (Harvester.during_screenshot w) /\
  Forall misses (Harvester.during_close w).

(** A run in which nothing arrives and every call returns. *)
Definition silent_world : Harvester.world :=
  {| Harvester.during_goto := [];
     Harvester.goto_ok := true;
     Harvester.during_wait := [];
     Harvester.turns := fun _ => quiet_turn;
     Harvester.during_screenshot := [];
     Harvester.screenshot_ok := true;
     Harvester.during_close := [] |}.

(** The state after a run reads the harvested URL as holding the bundle
    discriminator. *)
Definition holds_bundle (s : Harvester.state) : Prop :=
  exists u, Harvester.url (Harvester.harvested_data s) = Some u /\
            contains Harvester.bundle u = true.

(** A run in which the bundle response arrives while the page loads. *)
Definition capture_on_load : Harvester.world :=
  {| Harvester.during_goto := [specific];
     Harvester.goto_ok := true;
     Harvester.during_wait := [];
     Harvester.turns := fun _ => quiet_turn;
     Harvester.during_screenshot := [];
     Harvester.screenshot_ok := true;
     Harvester.during_close := [] |}.

(** A server that refuses every request. *)
Definition http_refused (url headers cookies : value)
  : result Replay.response := raise OtherError.

(** What [results] holds for an endpoint after the loop of
    [fetch_dynamic_data]: the value of the in-page fetch, or the empty
    dictionary when [page.evaluate] raised. *)
Definition fetched (evaluate : string -> result value) (url : string) : value :=
  match evaluate url with
  | inr raw_data => raw_data
  | inl _ => VDict []
  end.

(** The artifact of an endpoint. *)
Definition dynamic_file (name : string) : string :=
  "dynamic_" ++ name ++ ".json".

(** An in-page fetch that gave nothing to extract: [page.evaluate] raised, or
    returned a dictionary without [data], such as the error marker. *)
Definition nothing_fetched (evaluate : string -> result value) (url : string)
  : Prop :=
  exists d, fetched evaluate url = VDict d /\ lookup "data" d = None.

(** A browser in which every in-page fetch fails and returns the marker, and
    one in which [page.evaluate] raises. *)
Definition evaluate_marker (url : string) : result value :=
  ok (VDict (error_marker "Failed to fetch")).

Definition evaluate_raises (url : string) : result value := raise OtherError.

(** The artifacts the script of [main.py] reads for its record lists. *)
Definition record_artifacts : list string :=
  ["response_shopee.json"; "search_suggestion_shopee.json";
   "response_category.json"; "response_flash_sale.json";
   "response_daily_discover.json"].

(** A disk whose recommend artifact holds a JSON array. *)
Definition disk_with_array : Files.fs :=
  Files.write_json Files.empty_disk "response_shopee.json" (VList []).

(** A disk whose flash-sale artifact holds an empty JSON array. *)
Definition disk_with_empty_flash : Files.fs :=
  Files.write_json Files.empty_disk "response_flash_sale.json" (VList []).

(** A parsed map whose score is a text. *)
Definition score_is_text (d : dict) : Prop :=
  exists v, lookup "score" d = Some (VStr v).

(** A flash-sale payload whose item has the raw price [2^64], and an item
    whose raw price is [10^400]. *)
Definition flash_price_two_64 : value :=
  payload "items"
    [VDict [("itemid", VInt 7); ("shopid", VInt 3);
            ("price", VInt 18446744073709551616)]].

Definition flash_item_beyond_doubles : dict :=
  [("itemid", VInt 7); ("shopid", VInt 3); ("price", VInt (10 ^ 400))].

(** A client that is built for every cookie jar, and one whose constructor
    rejects the jar. *)
Definition client_opens (cookies : value) : result unit := ok tt.

Definition client_rejects (cookies : value) : result unit := raise TypeError.

(** A token record whose cookies are a list of numbers. *)
Definition prep_bad_cookies : value :=
  VDict [("url", VStr "https://shopee.co.id/api/v4/recommend/recommend");
         ("headers", VDict []);
         ("cookies", VList [VInt 1; VInt 2])].

Definition disk_with_bad_cookies : Files.fs :=
  Files.write_json Files.empty_disk "shopee_prep.json" prep_bad_cookies.

(** The headers and the cookies of a token as dictionaries of texts. *)
Definition strmap_dict (m : Harvester.strmap) : dict :=
  map (fun kv => (fst kv, VStr (snd kv))) m.

(** The headers the harvester persists: the harvested ones with the two
    fixed ones set. *)
Definition persisted_headers (t : Harvester.token) : Harvester.strmap :=
  assoc_set "accept" "application/json"
    (assoc_set "x-requested-with" "XMLHttpRequest" (Harvester.headers t)).

(* ===================================================================== *)
(** * Loops and the result monad *)
(* ===================================================================== *)

(** Split [H : (let* x := m in k) = ok r] into [m = ok x] and [k x = ok r]. *)
Ltac bind_inv H :=
  match type of H with
  | Py.bind ?m _ = _ =>
      let E := fresh "E" in
      destruct m eqn:E;
      [cbn [Py.bind Py.ok] in H; discriminate H | cbn [Py.bind] in H]
  end.

Ltac binds H := repeat bind_inv H.

Lemma ok_inj {A : Type} (a b : A) : ok a = ok b -> a = b.
Proof. intros H. now injection H. Qed.

Ltac finish_record H :=
  unfold Py.ok in H; injection H as <-.

Lemma for_each_ext {A S : Type} (f g : S -> A -> result S) (xs : list A) :
  (forall s x, f s x = g s x) ->
  forall s, for_each xs f s = for_each xs g s.
Proof.
  intros Hfg. induction xs as [|x xs IH]; intros s; cbn.
  - reflexivity.
  - rewrite Hfg. destruct (g s x); [reflexivity | apply IH].
Qed.

Lemma for_each_invariant {A S : Type} (P : S -> Prop)
      (body : S -> A -> result S) (xs : list A) :
  (forall s x s', P s -> body s x = inr s' -> P s') ->
  forall s s', P s -> for_each xs body s = inr s' -> P s'.
Proof.
  intros Hbody. induction xs as [|x xs IH]; intros s s' Hs Hrun; cbn in Hrun.
  - injection Hrun as <-. exact Hs.
  - destruct (body s x) as [e|s1] eqn:Hx; [discriminate|].
    eapply IH; [|exact Hrun]. eapply Hbody; eassumption.
Qed.

(* ===================================================================== *)
(** * The two copies of the extractors agree *)
(* ===================================================================== *)

Section Copies.

Context {R : Repr}.

Lemma flash_sale_same (it : value) : Main.flash_sale it = Main2.flash_sale it.
Proof. destruct it; reflexivity. Qed.

Lemma daily_discover_same (it : value) :
  Main.daily_discover it = Main2.daily_discover it.
Proof.
  destruct it; try reflexivity.
  unfold Main.daily_discover, Main2.daily_discover.
  destruct (get (VDict d) "item_card_display_price" (VDict [])) as [e|dp];
    [reflexivity|].
  destruct dp; reflexivity.
Qed.

(** C10.  The flash-sale and daily-discover extractors of [main.py] and of
    [main_2.py] return the same outcome on every payload: the same records in
    the same order, or the same exception. *)
Theorem extractors_copies_agree (data : value) :
  Main.extract_flash_sales data = Main2.extract_flash_sales data /\
  Main.extract_daily_discover data = Main2.extract_daily_discover data.
Proof.
  split.
  - unfold Main.extract_flash_sales, Main2.extract_flash_sales.
    destruct (get data "data" (VDict [])) as [e|d]; [reflexivity|]; cbn [bind].
    destruct (get d "items" (VList [])) as [e|items]; [reflexivity|]; cbn [bind].
    destruct (iter items) as [e|its]; [reflexivity|]; cbn [bind].
    apply for_each_ext. intros s x. now rewrite flash_sale_same.
  - unfold Main.extract_daily_discover, Main2.extract_daily_discover.
    destruct (get data "data" (VDict [])) as [e|d]; [reflexivity|]; cbn [bind].
    destruct (get d "feeds" (VList [])) as [e|feeds]; [reflexivity|]; cbn [bind].
    destruct (iter feeds) as [e|fs]; [reflexivity|]; cbn [bind].
    apply for_each_ext. intros s x.
    destruct (get x "type" VNone) as [e|ty]; [reflexivity|]; cbn [bind].
    destruct (eq_str ty "item_card"); [|reflexivity].
    destruct (get x "item_card" (VDict [])) as [e|card]; [reflexivity|]; cbn [bind].
    destruct (get card "item" (VDict [])) as [e|it]; [reflexivity|]; cbn [bind].
    destruct (negb (truthy it)); [reflexivity|].
    now rewrite daily_discover_same.
Qed.

End Copies.

(* ===================================================================== *)
(** * The metadata parser *)
(* ===================================================================== *)

(** C2.  On ["SCORE:4.8,other:{nested}"] both copies of [parse_info_string]
    return a map with the single key [score], and its entry is the text
    ["4.8"]: the number 4.8 that the [SCORE:] match stores first is replaced
    when the loop over the comma-separated parts reaches the part
    [SCORE:4.8].  The part holding a brace adds no entry. *)
Theorem parse_info_string_score_is_text :
  re_search_number "SCORE:" "SCORE:4.8,other:{nested}" = Some "4.8" /\
  float_of_string "4.8" = ok (48 # 10) /\
  Main.parse_info_string info_example = ok [("score", VStr "4.8")] /\
  Main2.parse_info_string info_example = ok [("score", VStr "4.8")].
Proof. repeat split; reflexivity. Qed.

(* ===================================================================== *)
(** * Missing artifacts and empty containers *)
(* ===================================================================== *)

Ltac open_container H :=
  unfold container in H;
  match type of H with
  | context [get ?data "data" ?dflt] =>
      destruct (get data "data" dflt) as [?|?d]; [discriminate H|];
      cbn [bind] in H |- *
  end;
  match type of H with
  | context [get ?d ?key ?dflt] =>
      destruct (get d key dflt) as [?|?c]; [discriminate H|];
      cbn [bind] in H |- *
  end;
  match type of H with
  | iter ?c = _ => rewrite H; cbn [bind]
  end.

Section Degrade.

Context {R : Repr}.

(** C8.  Loading an artifact that is absent or cannot be read gives the empty
    dictionary; each of the five extractors returns the empty sequence on the
    empty dictionary and on every payload whose container is empty. *)
Theorem missing_artifact_gives_empty_output (disk : Files.fs) (path : string) :
  (disk path = Files.Absent \/ disk path = Files.Corrupt ->
   Main.load_json_data disk path = VDict []) /\
  (Main.extract_shopee_products (VDict []) = ok [] /\
   Main.extract_suggestions (VDict []) = ok [] /\
   Main.extract_categories (VDict []) = ok [] /\
   Main.extract_flash_sales (VDict []) = ok [] /\
   Main.extract_daily_discover (VDict []) = ok []) /\
  (forall data,
     (container data "sections" = ok [] ->
      Main.extract_shopee_products data = ok []) /\
     (container data "queries" = ok [] ->
      Main.extract_suggestions data = ok []) /\
     (container data "category_list" = ok [] ->
      Main.extract_categories data = ok []) /\
     (container data "items" = ok [] ->
      Main.extract_flash_sales data = ok []) /\
     (container data "feeds" = ok [] ->
      Main.extract_daily_discover data = ok [])) /\
  Main.extract_shopee_products
    (payload "sections" [VDict [("data", VDict [("top_product", VList [])])]])
  = ok [].
Proof.
  split; [|split; [|split]].
  - unfold Main.load_json_data, Files.read_json.
    intros [-> | ->]; reflexivity.
  - repeat split; reflexivity.
  - intros data. repeat split; intros H.
    + unfold Main.extract_shopee_products. open_container H. reflexivity.
    + unfold Main.extract_suggestions. open_container H. reflexivity.
    + unfold Main.extract_categories. open_container H. reflexivity.
    + unfold Main.extract_flash_sales. open_container H. reflexivity.
    + unfold Main.extract_daily_discover. open_container H. reflexivity.
  - reflexivity.
Qed.

End Degrade.

Lemma missing_artifact_gives_empty_output_witness :
  Main.load_json_data Files.empty_disk "response_flash_sale.json" = VDict [] /\
  Main.extract_flash_sales (R := no_repr) (payload "items" []) = ok [].
Proof.
  pose proof (missing_artifact_gives_empty_output (R := no_repr)
                Files.empty_disk "response_flash_sale.json") as [Hload [_ [Hempty _]]].
  split.
  - apply Hload. left. reflexivity.
  - apply (Hempty (payload "items" [])). reflexivity.
Defined.

(* ===================================================================== *)
(** * Price scaling *)
(* ===================================================================== *)

Lemma dict_get_some (d : dict) (k : string) (v dflt : value) :
  lookup k d = Some v -> dict_get d k dflt = v.
Proof. unfold dict_get. now intros ->. Qed.

Lemma dict_get_none (d : dict) (k : string) (dflt : value) :
  lookup k d = None -> dict_get d k dflt = dflt.
Proof. unfold dict_get. now intros ->. Qed.

(** [n or 0] is [n] for an integer [n], zero included. *)
Lemma or_else_int (raw : Z) : or_else (VInt raw) (VInt 0) = VInt raw.
Proof.
  unfold or_else, truthy. destruct (Z.eqb_spec raw 0) as [->|]; reflexivity.
Qed.

Lemma float_quotient_inv (q : Q) (v : value) :
  float_quotient q = inr v ->
  exists f, round_double q = Some f /\ v = VFloat f.
Proof.
  unfold float_quotient. destruct (round_double q) as [f|]; intros H.
  - injection H as <-. now exists f.
  - discriminate H.
Qed.

Section Prices.

Context {R : Repr}.

(** C6, as the code has it.  When the raw price of a flash-sale or
    daily-discover item is an integer, the [price] of its record is the
    quotient of that integer by 100000 in float arithmetic: the double
    nearest to the exact quotient, and so is [old_price] for the raw price
    before discount.  When the quotient is beyond the doubles no record is
    built: [OverflowError] is raised.  12345600 gives the double that the
    literal 123.456 denotes. *)
Theorem price_is_nearest_double_of_quotient (raw : Z) (d r : dict) :
  (lookup "price" d = Some (VInt raw) ->
   Main.flash_sale (VDict d) = ok r ->
   exists q, lookup "price" r = Some (VFloat q) /\
             round_double (raw # 100000) = Some q) /\
  (lookup "price_before_discount" d = Some (VInt raw) ->
   Main.flash_sale (VDict d) = ok r ->
   exists q, lookup "old_price" r = Some (VFloat q) /\
             round_double (raw # 100000) = Some q) /\
  (forall dp,
     lookup "item_card_display_price" d = Some (VDict dp) ->
     lookup "price" dp = Some (VInt raw) ->
     Main.daily_discover (VDict d) = ok r ->
     exists q, lookup "price" r = Some (VFloat q) /\
               round_double (raw # 100000) = Some q) /\
  (forall dp,
     lookup "item_card_display_price" d = Some (VDict dp) ->
     lookup "strikethrough_price" dp = Some (VInt raw) ->
     Main.daily_discover (VDict d) = ok r ->
     exists q, lookup "old_price" r = Some (VFloat q) /\
               round_double (raw # 100000) = Some q) /\
  (lookup "price" d = Some (VInt raw) ->
   round_double (raw # 100000) = None ->
   Main.flash_sale (VDict d) = raise OverflowError) /\
  (forall dp,
     lookup "item_card_display_price" d = Some (VDict dp) ->
     lookup "price" dp = Some (VInt raw) ->
     round_double (raw # 100000) = None ->
     Main.daily_discover (VDict d) = raise OverflowError) /\
  (exists q, truediv (VInt 12345600) 100000 = ok (VFloat q) /\
             round_double (123456 # 1000) = Some q).
Proof.
  repeat apply conj.
  - intros Hp H. unfold Main.flash_sale in H. cbn [get bind ok] in H.
    rewrite (dict_get_some _ _ _ VNone Hp), or_else_int in H.
    cbn [truediv] in H. bind_inv H.
    match goal with
    | E : float_quotient _ = inr _ |- _ =>
        apply float_quotient_inv in E; destruct E as [f [Hf ->]]
    end.
    binds H. finish_record H. exists f. split; [reflexivity | exact Hf].
  - intros Hp H. unfold Main.flash_sale in H. cbn [get bind ok] in H.
    rewrite (dict_get_some _ _ _ VNone Hp), or_else_int in H.
    bind_inv H. cbn [truediv] in H. bind_inv H.
    match goal with
    | E : float_quotient _ = inr _ |- _ =>
        apply float_quotient_inv in E; destruct E as [f [Hf ->]]
    end.
    binds H. finish_record H. exists f. split; [reflexivity | exact Hf].
  - intros dp Hdp Hp H. unfold Main.daily_discover in H.
    cbn [get bind ok] in H.
    rewrite (dict_get_some _ _ _ (VDict []) Hdp) in H. cbn [get bind ok] in H.
    rewrite (dict_get_some _ _ _ VNone Hp), or_else_int in H.
    cbn [truediv] in H. bind_inv H.
    match goal with
    | E : float_quotient _ = inr _ |- _ =>
        apply float_quotient_inv in E; destruct E as [f [Hf ->]]
    end.
    binds H. finish_record H. exists f. split; [reflexivity | exact Hf].
  - intros dp Hdp Hp H. unfold Main.daily_discover in H.
    cbn [get bind ok] in H.
    rewrite (dict_get_some _ _ _ (VDict []) Hdp) in H. cbn [get bind ok] in H.
    rewrite (dict_get_some _ _ _ VNone Hp), or_else_int in H.
    bind_inv H. cbn [truediv] in H. bind_inv H.
    match goal with
    | E : float_quotient _ = inr _ |- _ =>
        apply float_quotient_inv in E; destruct E as [f [Hf ->]]
    end.
    binds H. finish_record H. exists f. split; [reflexivity | exact Hf].
  - intros Hp Hover. unfold Main.flash_sale. cbn [get bind ok].
    rewrite (dict_get_some _ _ _ VNone Hp), or_else_int.
    cbn [truediv]. unfold float_quotient. rewrite Hover. reflexivity.
  - intros dp Hdp Hp Hover. unfold Main.daily_discover. cbn [get bind ok].
    rewrite (dict_get_some _ _ _ (VDict []) Hdp). cbn [get bind ok].
    rewrite (dict_get_some _ _ _ VNone Hp), or_else_int.
    cbn [truediv]. unfold float_quotient. rewrite Hover. reflexivity.
  - eexists; split; vm_compute; reflexivity.
Qed.

End Prices.

Lemma price_is_nearest_double_of_quotient_witness :
  (exists r q,
     Main.extract_flash_sales (R := no_repr) flash_priced = ok [r] /\
     lookup "price" r = Some (VFloat q) /\
     round_double (12345600 # 100000) = Some q /\
     q == 8687443681197687 # 70368744177664) /\
  (exists r q,
     Main.daily_discover (R := no_repr) (VDict discover_priced) = ok r /\
     lookup "old_price" r = Some (VFloat q) /\
     round_double (20000000 # 100000) = Some q /\
     q == 200) /\
  Main.flash_sale (R := no_repr) (VDict flash_item_beyond_doubles)
  = raise OverflowError.
Proof.
  split; [|split].
  - edestruct (price_is_nearest_double_of_quotient (R := no_repr) 12345600
                 [("itemid", VInt 7); ("shopid", VInt 3);
                  ("price", VInt 12345600);
                  ("price_before_discount", VInt 20000000)])
      as [Hprice _].
    destruct (Hprice eq_refl eq_refl) as [q [Hq Hround]].
    eexists; exists q. split; [reflexivity|]. split; [exact Hq|].
    split; [exact Hround|].
    vm_compute in Hround. injection Hround as <-. reflexivity.
  - edestruct (price_is_nearest_double_of_quotient (R := no_repr) 20000000
                 discover_priced) as [_ [_ [_ [Hold _]]]].
    destruct (Hold _ eq_refl eq_refl eq_refl) as [q [Hq Hround]].
    eexists; exists q. split; [reflexivity|]. split; [exact Hq|].
    split; [exact Hround|].
    vm_compute in Hround. injection Hround as <-. reflexivity.
  - refine (proj1 (proj2 (proj2 (proj2 (proj2
              (price_is_nearest_double_of_quotient (R := no_repr) (10 ^ 400)
                 flash_item_beyond_doubles [])))))
              eq_refl _).
    vm_compute. reflexivity.
Defined.

(** C6 fails as an exact quotient.  For the raw price [2^64] the record
    holds 184467440737095.53125 (5902958103587057 over 32), the double
    nearest to [2^64 / 100000], which is not that quotient; for the raw price
    [10^400] the extractor raises [OverflowError] and there is no record. *)
Lemma price_is_not_the_exact_quotient :
  (exists r q,
     Main.extract_flash_sales (R := no_repr) flash_price_two_64 = ok [r] /\
     lookup "price" r = Some (VFloat q) /\
     q == 5902958103587057 # 32 /\
     ~ q == 18446744073709551616 # 100000) /\
  Main.extract_flash_sales (R := no_repr)
    (payload "items" [VDict flash_item_beyond_doubles])
  = raise OverflowError.
Proof.
  split.
  - eexists. eexists. split; [vm_compute; reflexivity|].
    split; [reflexivity|]. split; [reflexivity|].
    intros H. vm_compute in H. discriminate H.
  - vm_compute. reflexivity.
Qed.

(* ===================================================================== *)
(** * The primary image *)
(* ===================================================================== *)

Section PrimaryImage.

Context {R : Repr}.

Lemma truthy_cdn_url (v : value) : truthy (VStr (Main.cdn_url v)) = true.
Proof. reflexivity. Qed.

Lemma top_product_primary (item : value) (r : dict) :
  Main.top_product item = ok r -> primary_image_is_first r.
Proof.
  intros H. destruct item; try discriminate H.
  unfold Main.top_product in H. cbn [get bind ok] in H.
  binds H. finish_record H.
  unfold primary_image_is_first. cbn.
  destruct l as [|i l]; reflexivity.
Qed.

Lemma suggestion_primary (q : value) (r : dict) :
  Main.suggestion q = ok r -> primary_image_is_first r.
Proof.
  intros H. destruct q; try discriminate H.
  unfold Main.suggestion in H. cbn [get bind ok] in H.
  binds H. finish_record H.
  unfold primary_image_is_first.
  destruct (truthy v); reflexivity.
Qed.

Lemma category_primary (c : value) (r : dict) :
  Main.category c = ok r -> primary_image_is_first r.
Proof.
  intros H. destruct c; try discriminate H.
  unfold Main.category in H. cbn [get bind ok] in H.
  binds H. finish_record H. reflexivity.
Qed.

Lemma flash_sale_primary (it : value) (r : dict) :
  Main.flash_sale it = ok r -> primary_image_is_first r.
Proof.
  intros H. destruct it; try discriminate H.
  unfold Main.flash_sale in H. cbn [get bind ok] in H.
  binds H. finish_record H.
  unfold primary_image_is_first.
  destruct (truthy (dict_get d "image" VNone)); reflexivity.
Qed.

(** A loop that appends records with a property keeps the property. *)
Lemma appended_records (P : dict -> Prop) (f : value -> result dict)
      (xs : list value) (acc out : list dict) :
  (forall x r, f x = ok r -> P r) ->
  Forall P acc ->
  for_each xs (fun acc x => let* r := f x in ok (acc ++ [r])%list) acc = ok out ->
  Forall P out.
Proof.
  intros Hf Hacc Hrun.
  refine (for_each_invariant (Forall P) _ xs _ acc out Hacc Hrun).
  intros s x s' Hs Hx. bind_inv Hx. finish_record Hx.
  apply Forall_app. split; [exact Hs|]. constructor; [|constructor].
  eapply Hf. exact E.
Qed.

(** C1, as the code has it.  In every record of the top-product, suggestion,
    category and flash-sale extractors [primary_image] is the first of
    [images], and is missing or [None] when [images] is empty or missing.  A
    daily-discover record takes [primary_image] from the item's [image] and
    [images] from the first three of the item's [images], independently. *)
Theorem primary_image_first_outside_daily_discover (data : value)
        (rs : list dict) :
  (Main.extract_shopee_products data = ok rs \/
   Main.extract_suggestions data = ok rs \/
   Main.extract_categories data = ok rs \/
   Main.extract_flash_sales data = ok rs ->
   Forall primary_image_is_first rs) /\
  (forall d r,
     Main.daily_discover (VDict d) = ok r ->
     dict_get r "primary_image" VNone =
       (if truthy (dict_get d "image" VNone)
        then VStr (Main.cdn_url (dict_get d "image" VNone)) else VNone) /\
     exists imgs,
       (let* first3 := slice_to 3 (dict_get d "images" (VList [])) in
        iter first3) = ok imgs /\
       dict_get r "images" VNone =
         VList (map (fun img => VStr (Main.cdn_url img)) imgs)).
Proof.
  split.
  - intros [H | [H | [H | H]]].
    + unfold Main.extract_shopee_products in H. binds H.
      refine (for_each_invariant (Forall primary_image_is_first)
                _ _ _ [] rs (Forall_nil _) H).
      intros s x s' Hs Hx. do 2 bind_inv Hx.
      match type of Hx with
      | (if ?b then _ else _) = _ =>
          destruct b; [|finish_record Hx; exact Hs]
      end.
      bind_inv Hx.
      exact (appended_records _ _ _ _ _ top_product_primary Hs Hx).
    + unfold Main.extract_suggestions in H. binds H.
      exact (appended_records _ _ _ _ _ suggestion_primary (Forall_nil _) H).
    + unfold Main.extract_categories in H. binds H.
      refine (for_each_invariant (Forall primary_image_is_first)
                _ _ _ [] rs (Forall_nil _) H).
      intros s x s' Hs Hx. bind_inv Hx.
      match type of Hx with
      | (if ?b then _ else _) = _ =>
          destruct b; [|finish_record Hx; exact Hs]
      end.
      bind_inv Hx. finish_record Hx.
      apply Forall_app. split; [exact Hs|]. constructor; [|constructor].
      eapply category_primary. eassumption.
    + unfold Main.extract_flash_sales in H. binds H.
      exact (appended_records _ _ _ _ _ flash_sale_primary (Forall_nil _) H).
  - intros d r H. unfold Main.daily_discover in H. cbn [get bind ok] in H.
    binds H. finish_record H. split; [reflexivity|].
    match goal with
    | Hi : iter _ = inr ?l |- _ => exists l; split; [exact Hi | reflexivity]
    end.
Qed.

End PrimaryImage.

Lemma primary_image_first_outside_daily_discover_witness :
  exists r,
    Main.extract_shopee_products (R := no_repr) top_products_one = ok [r] /\
    primary_image_is_first r.
Proof.
  eexists. split; [reflexivity|].
  refine (Forall_inv (proj1 (primary_image_first_outside_daily_discover
                               (R := no_repr) top_products_one _)
                        (or_introl eq_refl))).
Defined.

(** C1 fails for daily discover: an item with a gallery and no cover image
    gets a record whose [images] is not empty and whose [primary_image] is
    [None]. *)
Lemma primary_image_not_first_in_daily_discover :
  exists r,
    Main.extract_daily_discover (R := no_repr) discover_gallery_only = ok [r] /\
    dict_get r "images" VNone =
      VList [VStr "https://down-id.img.susercontent.com/file/a";
             VStr "https://down-id.img.susercontent.com/file/b"] /\
    dict_get r "primary_image" (VStr "missing") = VNone /\
    ~ primary_image_is_first r.
Proof.
  eexists. split; [reflexivity|]. split; [reflexivity|]. split; [reflexivity|].
  unfold primary_image_is_first. cbn. discriminate.
Qed.

(* ===================================================================== *)
(** * Fields absent from the source item *)
(* ===================================================================== *)

Section AbsentFields.

Context {R : Repr}.

(** Close a goal about one field of a record from [Hn], which says that a
    source key is missing. *)
Ltac field_from Hn :=
  rewrite ?(dict_get_none _ _ _ Hn) in *;
  repeat match goal with
         | E : _ = inr _ |- _ =>
             cbn in E; unfold Py.ok in E; injection E as <-
         end;
  cbn [lookup String.eqb Ascii.eqb Bool.eqb];
  try reflexivity.

(** The same when the missing key is one of the object [Hobj] speaks of. *)
Ltac nested_from Hobj Hn :=
  rewrite ?(dict_get_some _ _ _ (VDict []) Hobj) in *;
  cbn [get bind ok] in *;
  field_from Hn.

(** C3, as the code has it.  A missing source field gives [None] for
    [score] and [primary_image] in every record and for [name] in
    top-product, flash-sale and daily-discover records; a suggestion without
    [text] is named by the empty string.  In flash-sale and daily-discover
    records a missing price or old price gives 0.0 and a missing discount the
    empty string, whether the key is missing from the item or, for daily
    discover, from its display-price object or that object is missing.  The
    count of a daily-discover record defaults to 0; that of a top-product or
    flash-sale record is [None] when missing, and that of a suggestion is
    always [None]. *)
Theorem absent_fields_defaults (d r : dict) :
  (Main.top_product (VDict d) = ok r ->
   (lookup "name" d = None -> lookup "name" r = Some VNone) /\
   (lookup "info" d = None -> lookup "score" r = Some VNone) /\
   (forall meta,
      Main.parse_info_string (dict_get d "info" (VStr EmptyString)) = ok meta ->
      lookup "score" meta = None -> lookup "score" r = Some VNone) /\
   (lookup "images" d = None -> lookup "primary_image" r = Some VNone) /\
   (lookup "count" d = None -> lookup "sold_count" r = Some VNone)) /\
  (Main.suggestion (VDict d) = ok r ->
   (lookup "text" d = None -> lookup "name" r = Some (VStr EmptyString)) /\
   (lookup "tracking" d = None -> lookup "score" r = Some VNone) /\
   (forall s,
      lookup "tracking" d = Some (VStr s) ->
      re_search_number Main.rank_score_lit s = None ->
      lookup "score" r = Some VNone) /\
   (lookup "image" d = None -> lookup "images" d = None ->
    lookup "primary_image" r = Some VNone) /\
   lookup "sold_count" r = Some VNone) /\
  (Main.flash_sale (VDict d) = ok r ->
   (lookup "name" d = None -> lookup "name" r = Some VNone) /\
   (lookup "item_rating" d = None -> lookup "score" r = Some VNone) /\
   (forall rating,
      lookup "item_rating" d = Some (VDict rating) ->
      lookup "rating_star" rating = None ->
      lookup "score" r = Some VNone) /\
   (lookup "image" d = None -> lookup "primary_image" r = Some VNone) /\
   (lookup "price" d = None ->
    exists q, lookup "price" r = Some (VFloat q) /\ q == 0) /\
   (lookup "price_before_discount" d = None ->
    exists q, lookup "old_price" r = Some (VFloat q) /\ q == 0) /\
   (lookup "discount" d = None ->
    lookup "discount" r = Some (VStr EmptyString)) /\
   (lookup "historical_sold" d = None -> lookup "sold_count" r = Some VNone)) /\
  (Main.daily_discover (VDict d) = ok r ->
   (lookup "name" d = None -> lookup "name" r = Some VNone) /\
   (lookup "item_rating" d = None -> lookup "score" r = Some VNone) /\
   (forall rating,
      lookup "item_rating" d = Some (VDict rating) ->
      lookup "rating_star" rating = None ->
      lookup "score" r = Some VNone) /\
   (lookup "image" d = None -> lookup "primary_image" r = Some VNone) /\
   (lookup "item_card_display_price" d = None ->
    (exists q, lookup "price" r = Some (VFloat q) /\ q == 0) /\
    (exists q, lookup "old_price" r = Some (VFloat q) /\ q == 0) /\
    lookup "discount" r = Some (VStr EmptyString)) /\
   (forall display,
      lookup "item_card_display_price" d = Some (VDict display) ->
      (lookup "price" display = None ->
       exists q, lookup "price" r = Some (VFloat q) /\ q == 0) /\
      (lookup "strikethrough_price" display = None ->
       exists q, lookup "old_price" r = Some (VFloat q) /\ q == 0) /\
      (lookup "discount_text" display = None ->
       lookup "discount" r = Some (VStr EmptyString))) /\
   (lookup "historical_sold" d = None ->
    lookup "sold_count" r = Some (VInt 0))).
Proof.
  repeat apply conj; intros H.
  - unfold Main.top_product in H. cbn [get bind ok] in H.
    binds H. finish_record H.
    repeat apply conj; try solve [intros Hn; field_from Hn].
    intros meta Hmeta Hn.
    unfold ok in Hmeta. injection Hmeta as <-.
    cbn [lookup String.eqb Ascii.eqb Bool.eqb].
    now rewrite (dict_get_none _ _ VNone Hn).
  - unfold Main.suggestion in H. cbn [get bind ok] in H.
    binds H. finish_record H.
    repeat apply conj; try reflexivity.
    + intros Hn. field_from Hn.
    + intros Hn. field_from Hn.
    + intros tracking Hs Hn.
      rewrite (dict_get_some _ _ _ (VStr EmptyString) Hs) in *.
      cbn [re_search] in *. rewrite Hn in *.
      repeat match goal with
             | E : _ = inr _ |- _ =>
                 cbn in E; unfold Py.ok in E; injection E as <-
             end.
      reflexivity.
    + intros Hn Hm. rewrite ?(dict_get_none _ _ _ Hm) in *. field_from Hn.
  - unfold Main.flash_sale in H. cbn [get bind ok] in H.
    binds H. finish_record H.
    repeat apply conj;
      try solve [intros Hn; field_from Hn
                | intros Hn; field_from Hn; eexists; split; reflexivity].
    intros rating Hobj Hn. nested_from Hobj Hn.
  - unfold Main.daily_discover in H. cbn [get bind ok] in H.
    binds H. finish_record H.
    repeat apply conj; try solve [intros Hn; field_from Hn].
    + intros rating Hobj Hn. nested_from Hobj Hn.
    + intros Hn. field_from Hn.
      repeat apply conj; try reflexivity; eexists; split; reflexivity.
    + intros display Hobj. repeat apply conj; intros Hn;
        nested_from Hobj Hn; eexists; split; reflexivity.
Qed.

End AbsentFields.

Lemma absent_fields_defaults_witness :
  exists r,
    Main.extract_flash_sales (R := no_repr) flash_bare = ok [r] /\
    lookup "name" r = Some VNone /\
    lookup "sold_count" r = Some VNone /\
    lookup "discount" r = Some (VStr EmptyString).
Proof.
  edestruct (absent_fields_defaults (R := no_repr)
               [("itemid", VInt 7); ("shopid", VInt 3)])
    as [_ [_ [Hflash _]]].
  destruct (Hflash eq_refl) as [Hname [_ [_ [_ [_ [_ [Hdiscount Hsold]]]]]]].
  eexists. split; [reflexivity|].
  split; [exact (Hname eq_refl)|].
  split; [exact (Hsold eq_refl) | exact (Hdiscount eq_refl)].
Defined.

(** C3 fails on a flash-sale item that carries identifiers only: its record
    has the price 0.0 and the empty string for the discount, not [None], and
    [None] for the count, not 0. *)
Lemma absent_price_is_zero_not_none :
  exists r q,
    Main.extract_flash_sales (R := no_repr) flash_bare = ok [r] /\
    lookup "price" r = Some (VFloat q) /\ q == 0 /\
    lookup "discount" r = Some (VStr EmptyString) /\
    lookup "sold_count" r = Some VNone.
Proof.
  eexists. eexists. repeat split; reflexivity.
Qed.

(* ===================================================================== *)
(** * No containment of failures *)
(* ===================================================================== *)

Lemma each_ok {A B : Type} (f : A -> result B) (xs : list A) (ys : list B) :
  Forall2 (fun x y => f x = ok y) xs ys -> each f xs = ok ys.
Proof.
  induction 1 as [|x y xs ys Hx _ IH]; cbn.
  - reflexivity.
  - rewrite Hx, IH. reflexivity.
Qed.

Lemma each_raises {A B : Type} (f : A -> result B) (xs : list A) (x : A)
      (e : exn) :
  In x xs -> f x = raise e -> exists e', each f xs = raise e'.
Proof.
  induction xs as [|a xs IH]; intros Hin Hx; [destruct Hin|].
  cbn. destruct (f a) as [e0|y] eqn:Ha; [now exists e0|].
  destruct Hin as [->|Hin].
  - rewrite Hx in Ha. discriminate Ha.
  - destruct (IH Hin Hx) as [e' ->]. now exists e'.
Qed.

(** A loop that appends what [records] gives for each item. *)
Lemma for_each_collect {A B : Type} (records : A -> result (list B))
      (xs : list A) (acc : list B) :
  for_each xs (fun acc x => let* rs := records x in ok (acc ++ rs)%list) acc
  = (let* rss := each records xs in ok (acc ++ concat rss)%list).
Proof.
  revert acc. induction xs as [|x xs IH]; intros acc; cbn.
  - now rewrite app_nil_r.
  - destruct (records x) as [e|rs]; [reflexivity|]. cbn.
    rewrite IH. destruct (each records xs) as [e|rss]; [reflexivity|]. cbn.
    now rewrite app_assoc.
Qed.

Lemma for_each_append {A B : Type} (f : A -> result B) (xs : list A)
      (acc : list B) :
  for_each xs (fun acc x => let* r := f x in ok (acc ++ [r])%list) acc
  = (let* ys := each f xs in ok (acc ++ ys)%list).
Proof.
  revert acc. induction xs as [|x xs IH]; intros acc; cbn.
  - now rewrite app_nil_r.
  - destruct (f x) as [e|y]; [reflexivity|]. cbn.
    rewrite IH. destruct (each f xs) as [e|ys]; [reflexivity|]. cbn.
    now rewrite <- app_assoc.
Qed.

Lemma for_each_one {A B : Type} (f : A -> result B) (xs : list A) :
  for_each xs (fun acc x => let* r := f x in ok (acc ++ [r])%list) []
  = (let* rss := each (one f) xs in ok (concat rss)).
Proof.
  transitivity
    (for_each xs (fun acc x => let* rs := one f x in ok (acc ++ rs)%list) []).
  - apply for_each_ext. intros s x. unfold one.
    destruct (f x); reflexivity.
  - rewrite for_each_collect. destruct (each (one f) xs); reflexivity.
Qed.

(** An extractor that is a collecting loop over its container contains no
    failure. *)
Lemma collecting_loop_all_or_nothing
      (extract : value -> result (list dict)) (key : string)
      (records : value -> result (list dict)) :
  (forall data,
     extract data = (let* xs := container data key in
                     let* rss := each records xs in ok (concat rss))) ->
  all_or_nothing extract key records.
Proof.
  intros Heq data xs Hxs. rewrite Heq, Hxs. cbn [bind ok]. split.
  - intros x e Hin Hx.
    destruct (each_raises records xs x e Hin Hx) as [e' ->]. now exists e'.
  - intros rss Hall. now rewrite (each_ok records xs rss Hall).
Qed.

Ltac split_container data key :=
  unfold container;
  destruct (get data "data" (VDict [])) as [?|?d]; [reflexivity|];
  cbn [bind];
  match goal with
  | |- context [get ?d key ?dflt] =>
      destruct (get d key dflt) as [?|?c]; [reflexivity|]; cbn [bind]
  end;
  match goal with
  | |- context [iter ?c] =>
      destruct (iter c) as [?|?xs]; [reflexivity|]; cbn [bind]
  end.

Section Containment.

Context {R : Repr}.

Lemma extract_shopee_products_collects (data : value) :
  Main.extract_shopee_products data
  = (let* xs := container data "sections" in
     let* rss := each section_records xs in ok (concat rss)).
Proof.
  unfold Main.extract_shopee_products. split_container data "sections".
  transitivity
    (for_each xs
       (fun acc x => let* rs := section_records x in ok (acc ++ rs)%list) []);
    [|rewrite for_each_collect; destruct (each section_records xs); reflexivity].
  apply for_each_ext. intros s x. unfold section_records.
  destruct (get x "data" (VDict [])) as [e|sd]; [reflexivity|]; cbn [bind].
  destruct (get sd "top_product" VNone) as [e|tp]; [reflexivity|]; cbn [bind].
  destruct (truthy tp); [|cbn [bind ok]; now rewrite app_nil_r].
  destruct (iter tp) as [e|items]; [reflexivity|]; cbn [bind].
  apply for_each_append.
Qed.

Lemma extract_suggestions_collects (data : value) :
  Main.extract_suggestions data
  = (let* xs := container data "queries" in
     let* rss := each (one Main.suggestion) xs in ok (concat rss)).
Proof.
  unfold Main.extract_suggestions. split_container data "queries".
  apply for_each_one.
Qed.

Lemma extract_categories_collects (data : value) :
  Main.extract_categories data
  = (let* xs := container data "category_list" in
     let* rss := each category_records xs in ok (concat rss)).
Proof.
  unfold Main.extract_categories. split_container data "category_list".
  transitivity
    (for_each xs
       (fun acc x => let* rs := category_records x in ok (acc ++ rs)%list) []);
    [|rewrite for_each_collect; destruct (each category_records xs); reflexivity].
  apply for_each_ext. intros s x. unfold category_records, one.
  destruct (get x "level" VNone) as [e|level]; [reflexivity|]; cbn [bind].
  destruct (eq_int level 1); [|cbn [bind ok]; now rewrite app_nil_r].
  destruct (Main.category x); reflexivity.
Qed.

Lemma extract_flash_sales_collects (data : value) :
  Main.extract_flash_sales data
  = (let* xs := container data "items" in
     let* rss := each (one Main.flash_sale) xs in ok (concat rss)).
Proof.
  unfold Main.extract_flash_sales. split_container data "items".
  apply for_each_one.
Qed.

Lemma extract_daily_discover_collects (data : value) :
  Main.extract_daily_discover data
  = (let* xs := container data "feeds" in
     let* rss := each feed_records xs in ok (concat rss)).
Proof.
  unfold Main.extract_daily_discover. split_container data "feeds".
  transitivity
    (for_each xs
       (fun acc x => let* rs := feed_records x in ok (acc ++ rs)%list) []);
    [|rewrite for_each_collect; destruct (each feed_records xs); reflexivity].
  apply for_each_ext. intros s x. unfold feed_records, one.
  destruct (get x "type" VNone) as [e|ty]; [reflexivity|]; cbn [bind].
  destruct (eq_str ty "item_card"); [|cbn [bind ok]; now rewrite app_nil_r].
  destruct (get x "item_card" (VDict [])) as [e|card]; [reflexivity|]; cbn [bind].
  destruct (get card "item" (VDict [])) as [e|it]; [reflexivity|]; cbn [bind].
  destruct (negb (truthy it)); [cbn [bind ok]; now rewrite app_nil_r|].
  destruct (Main.daily_discover it); reflexivity.
Qed.

(** C5, as the code has it.  No extractor contains a failure per item: when
    an item of the container raises an exception the extractor raises one and
    returns no record, and when no item does the extractor returns the
    records of all the items in order. *)
Theorem extractors_all_or_nothing :
  all_or_nothing Main.extract_shopee_products "sections" section_records /\
  all_or_nothing Main.extract_suggestions "queries" (one Main.suggestion) /\
  all_or_nothing Main.extract_categories "category_list" category_records /\
  all_or_nothing Main.extract_flash_sales "items" (one Main.flash_sale) /\
  all_or_nothing Main.extract_daily_discover "feeds" feed_records.
Proof.
  repeat apply conj; apply collecting_loop_all_or_nothing.
  - exact extract_shopee_products_collects.
  - exact extract_suggestions_collects.
  - exact extract_categories_collects.
  - exact extract_flash_sales_collects.
  - exact extract_daily_discover_collects.
Qed.

End Containment.

Lemma extractors_all_or_nothing_witness :
  (exists e, Main.extract_suggestions (R := no_repr) suggestions_empty_ids
             = raise e) /\
  (exists r, Main.extract_suggestions (R := no_repr)
               (payload "queries" [query_plain]) = ok [r]).
Proof.
  destruct (extractors_all_or_nothing (R := no_repr)) as [_ [Hsug _]].
  split.
  - destruct (Hsug suggestions_empty_ids [query_empty_ids; query_plain] eq_refl)
      as [Hraise _].
    exact (Hraise query_empty_ids IndexError (or_introl eq_refl) eq_refl).
  - destruct (Hsug (payload "queries" [query_plain]) [query_plain] eq_refl)
      as [_ Hall].
    eexists.
    refine (Hall [[_]] _).
    constructor; [reflexivity | constructor].
Defined.

(** C5 fails on two suggestion queries of which the first has an empty
    [item_ids]: the second is processed without an exception when it is alone,
    and the extractor raises [IndexError] and returns no record for it. *)
Lemma empty_item_ids_drops_the_rest :
  (exists r, Main.suggestion (R := no_repr) query_plain = ok r) /\
  Main.extract_suggestions (R := no_repr) suggestions_empty_ids
  = raise IndexError.
Proof.
  split; [eexists; reflexivity | reflexivity].
Qed.

(* ===================================================================== *)
(** * The session harvester *)
(* ===================================================================== *)

Lemma contains_nonempty (p s : string) :
  p <> EmptyString -> contains p s = true -> s <> EmptyString.
Proof.
  intros Hp Hc ->. destruct p as [|a p]; [now apply Hp|]. discriminate Hc.
Qed.

(** A captured URL holds the target fragment, and the signal is set only
    after a URL was stored. *)
Lemma reachable_invariant (s : Harvester.state) :
  reachable s ->
  (forall u, Harvester.url (Harvester.harvested_data s) = Some u ->
             contains Harvester.target u = true) /\
  (Harvester.request_captured s = true ->
   Harvester.url (Harvester.harvested_data s) <> None).
Proof.
  induction 1 as [d | s a _ [IHu IHc]].
  - split; [intros u Hu; discriminate Hu | intros Hc; discriminate Hc].
  - unfold Harvester.handle_response.
    destruct (contains Harvester.target _) eqn:Ht; [|now split].
    destruct (_ || _); [|now split].
    destruct (Harvester.jar a); cbn; split.
    + intros u [= <-]. exact Ht.
    + intros _. discriminate.
    + intros u [= <-]. exact Ht.
    + intros _. discriminate.
Qed.

Lemma no_url_reachable (s : Harvester.state) :
  reachable s ->
  Harvester.no_url (Harvester.url (Harvester.harvested_data s)) = true ->
  Harvester.url (Harvester.harvested_data s) = None.
Proof.
  intros Hs Hno. destruct (reachable_invariant s Hs) as [Hu _].
  destruct (Harvester.url (Harvester.harvested_data s)) as [u|]; [|reflexivity].
  cbn in Hno. apply String.eqb_eq in Hno.
  exfalso. revert Hno. apply (contains_nonempty Harvester.target).
  - discriminate.
  - now apply Hu.
Qed.

Lemma handle_response_keeps (s : Harvester.state) (a : Harvester.arrival) :
  reachable s ->
  Harvester.url (Harvester.harvested_data s) <> None ->
  contains Harvester.bundle (Harvester.resp_url (Harvester.resp a)) = false ->
  Harvester.handle_response s a = s.
Proof.
  intros Hs Hsome Hb. unfold Harvester.handle_response.
  destruct (contains Harvester.target _); [|reflexivity].
  rewrite Hb. cbn [orb].
  destruct (Harvester.no_url _) eqn:Hno; [|reflexivity].
  exfalso. apply Hsome. now apply no_url_reachable.
Qed.

(** C4.  A response whose URL holds the target fragment replaces the
    harvested record when no record was captured yet or the URL holds the
    bundle discriminator, and leaves the shared state as it is otherwise; once
    the capture signal is set, such a response without the discriminator
    changes nothing. *)
Theorem capture_iff_first_or_bundle (s : Harvester.state)
        (a : Harvester.arrival) :
  reachable s ->
  contains Harvester.target (Harvester.resp_url (Harvester.resp a)) = true ->
  let s' := Harvester.handle_response s a in
  (Harvester.url (Harvester.harvested_data s) = None \/
   contains Harvester.bundle (Harvester.resp_url (Harvester.resp a)) = true ->
   Harvester.url (Harvester.harvested_data s')
     = Some (Harvester.resp_url (Harvester.resp a)) /\
   Harvester.headers (Harvester.harvested_data s')
     = Harvester.request_headers (Harvester.resp a) /\
   (forall cs, Harvester.jar a = ok cs ->
      Harvester.cookies (Harvester.harvested_data s') = Harvester.flatten cs /\
      Harvester.request_captured s' = true)) /\
  (Harvester.url (Harvester.harvested_data s) <> None ->
   contains Harvester.bundle (Harvester.resp_url (Harvester.resp a)) = false ->
   s' = s) /\
  (Harvester.request_captured s = true ->
   contains Harvester.bundle (Harvester.resp_url (Harvester.resp a)) = false ->
   s' = s).
Proof.
  intros Hs Ht s'. subst s'. split; [|split].
  - intros Hcond. unfold Harvester.handle_response. rewrite Ht.
    assert (contains Harvester.bundle (Harvester.resp_url (Harvester.resp a))
            || Harvester.no_url (Harvester.url (Harvester.harvested_data s))
            = true) as ->.
    { destruct Hcond as [-> | ->]; [apply orb_true_r | reflexivity]. }
    destruct (Harvester.jar a) as [e|cs']; cbn.
    + repeat split; discriminate.
    + repeat split; match goal with H : _ = ok _ |- _ =>
                      unfold ok in H; injection H as <- end; reflexivity.
  - intros Hsome Hb. now apply handle_response_keeps.
  - intros Hc Hb. apply handle_response_keeps; [exact Hs | | exact Hb].
    now apply (proj2 (reachable_invariant s Hs)).
Qed.

Lemma capture_iff_first_or_bundle_witness :
  let s1 := Harvester.handle_response (Harvester.init Files.empty_disk)
              incidental in
  Harvester.request_captured s1 = true /\
  Harvester.handle_response s1 incidental = s1 /\
  Harvester.url (Harvester.harvested_data (Harvester.handle_response s1 specific))
    = Some (Harvester.resp_url (Harvester.resp specific)).
Proof.
  intros s1.
  assert (Hs1 : reachable s1) by (apply reach_step, reach_init).
  split; [reflexivity|]. split.
  - exact (proj2 (proj2 (capture_iff_first_or_bundle s1 incidental Hs1 eq_refl))
             eq_refl eq_refl).
  - exact (proj1 (proj1 (capture_iff_first_or_bundle s1 specific Hs1 eq_refl)
                    (or_intror eq_refl))).
Defined.

(* ===================================================================== *)
(** * The scroll loop *)
(* ===================================================================== *)

(** The loop over the steps [first], ..., [first + n - 1]. *)
Lemma scroll_loop_trace (env : nat -> Harvester.turn) (n : nat) :
  forall (first : nat) (s s' : Harvester.state) (sc : list Z) (c : bool),
    Harvester.scroll_loop (seq first n) env s = (s', sc, c) ->
    (List.length sc <= n)%nat /\
    (forall i, (i < List.length sc)%nat ->
               nth i sc 0 = 600 + Z.of_nat (first + i) * 200) /\
    (forall k,
        Harvester.request_captured (Harvester.state_at_check env s first k) = true ->
        (List.length sc <= k)%nat).
Proof.
  induction n as [|n IH]; intros first s s' sc c Hrun; cbn in Hrun.
  - injection Hrun as <- <- <-. cbn. repeat split; intros; lia.
  - destruct (Harvester.request_captured s) eqn:Hcap.
    + injection Hrun as <- <- <-. cbn. repeat split; intros; lia.
    + destruct (Harvester.evaluate_ok (env first)).
      * destruct (Harvester.scroll_loop (seq (S first) n) env _)
          as [[s3 sc'] c'] eqn:Hrest.
        injection Hrun as <- <- <-.
        destruct (IH _ _ _ _ _ Hrest) as [Hlen [Hnth Hstop]].
        cbn [List.length]. split; [lia|]. split.
        -- intros [|i] Hi; cbn [nth].
           ++ now rewrite Nat.add_0_r.
           ++ rewrite Hnth by (cbn in Hi; lia).
              now replace (S first + i)%nat with (first + S i)%nat by lia.
        -- intros [|k] Hk; cbn [Harvester.state_at_check] in Hk.
           ++ rewrite Hcap in Hk. discriminate Hk.
           ++ apply Hstop in Hk. lia.
      * injection Hrun as <- <- <-. cbn [List.length]. split; [lia|]. split.
        -- intros [|i] Hi; cbn in Hi; [|lia]. cbn [nth].
           now rewrite Nat.add_0_r.
        -- intros [|k] Hk; cbn [Harvester.state_at_check] in Hk; [|lia].
           rewrite Hcap in Hk. discriminate Hk.
Qed.

(** C9.  A run injects at most 15 scrolls; the scroll of step [i] is by
    [600 + i * 200] pixels; and when the capture signal is set at the test of
    step [k], no scroll of step [k] or later is injected. *)
Theorem scroll_loop_bounded (w : Harvester.world) (d : Files.fs) :
  let r := Harvester.get_shopee_tokens_persistent w d in
  let s2 := Harvester.deliver (Harvester.during_wait w)
              (Harvester.deliver (Harvester.during_goto w) (Harvester.init d)) in
  (List.length (Harvester.scrolls r) <= 15)%nat /\
  (forall i, (i < List.length (Harvester.scrolls r))%nat ->
             nth i (Harvester.scrolls r) 0 = 600 + Z.of_nat i * 200) /\
  (forall k,
      Harvester.request_captured
        (Harvester.state_at_check (Harvester.turns w) s2 0 k) = true ->
      (List.length (Harvester.scrolls r) <= k)%nat).
Proof.
  intros r s2. subst r. unfold Harvester.get_shopee_tokens_persistent.
  destruct (Harvester.goto_ok w).
  - fold s2.
    destruct (Harvester.scroll_loop (seq 0 15) (Harvester.turns w) s2)
      as [[s3 sc] c] eqn:Hrun.
    destruct (c && negb (Harvester.request_captured s3));
      [destruct (Harvester.screenshot_ok w)|];
      cbn [Harvester.scrolls];
      exact (scroll_loop_trace _ _ _ _ _ _ _ Hrun).
  - cbn [Harvester.scrolls List.length]. repeat split; intros; lia.
Qed.

Lemma scroll_loop_bounded_witness :
  Harvester.scrolls
    (Harvester.get_shopee_tokens_persistent capture_in_second_turn
       Files.empty_disk) = [600; 800] /\
  (List.length
     (Harvester.scrolls
        (Harvester.get_shopee_tokens_persistent capture_in_second_turn
           Files.empty_disk)) <= 2)%nat.
Proof.
  split; [reflexivity|].
  exact (proj2 (proj2 (scroll_loop_bounded capture_in_second_turn
                         Files.empty_disk)) 2%nat eq_refl).
Defined.

(* ===================================================================== *)
(** * The replay client *)
(* ===================================================================== *)

Section ReplayClient.

Variable new_client : value -> result unit.
Variable http_get : value -> value -> value -> result Replay.response.

(** C7, as the code has it.  With a readable token record, a client that is
    built and an answered request, the client writes the fresh body over the
    earlier capture when the status is 200, the body parses as JSON and the
    count over [data.sections] completes; with status 200 and a body that
    does not parse or cannot be counted it prints the exception and writes
    nothing; with another status it prints the status code and the first 200
    characters of the body and writes nothing. *)
Theorem replay_persists_on_200_json (d : Files.fs)
        (prep url headers cookies url60 : value)
        (response : Replay.response) :
  Files.read_json d "shopee_prep.json" = ok prep ->
  Replay.subscript prep "url" = ok url ->
  Replay.subscript prep "headers" = ok headers ->
  Replay.subscript prep "cookies" = ok cookies ->
  slice_to 60 url = ok url60 ->
  new_client cookies = ok tt ->
  http_get url headers cookies = ok response ->
  let out := Replay.fetch_shopee_direct new_client http_get d in
  (forall data n,
     Replay.status_code response = 200 ->
     Replay.json response = ok data ->
     Replay.count_products data = ok n ->
     Replay.disk out = Files.write_json d "response_shopee.json" data /\
     Replay.stdout out
       = [Replay.Loading; Replay.Sending url60; Replay.Success n; Replay.Saved]) /\
  (forall e,
     Replay.status_code response = 200 ->
     Replay.json response = raise e \/
     (exists data, Replay.json response = ok data /\
                   Replay.count_products data = raise e) ->
     Replay.disk out = d /\
     Replay.stdout out
       = [Replay.Loading; Replay.Sending url60; Replay.ExceptionLine e]) /\
  (Replay.status_code response <> 200 ->
   Replay.disk out = d /\
   Replay.stdout out
     = [Replay.Loading; Replay.Sending url60;
        Replay.StatusCode (Replay.status_code response);
        Replay.ResponseExcerpt (take 200 (Replay.text response))]) /\
  Replay.escaped out = None.
Proof.
  intros Hprep Hurl Hheaders Hcookies Hslice Hclient Hget out. subst out.
  unfold Replay.fetch_shopee_direct. unfold ok, raise in *.
  rewrite Hprep, Hurl. cbn [bind]. rewrite Hheaders. cbn [bind].
  rewrite Hcookies. cbn [bind]. rewrite Hslice. cbn [bind].
  rewrite Hclient, Hget.
  split; [|split; [|split]].
  - intros data n H200 Hjson Hcount.
    rewrite H200, Hjson. cbn [Z.eqb Pos.eqb bind]. rewrite Hcount.
    cbn. split; reflexivity.
  - intros e H200 Hbad. rewrite H200. cbn [Z.eqb Pos.eqb].
    destruct Hbad as [Hjson | [data [Hjson Hcount]]].
    + rewrite Hjson. cbn. split; reflexivity.
    + rewrite Hjson. cbn [bind]. rewrite Hcount. cbn. split; reflexivity.
  - intros Hnot. destruct (Z.eqb_spec (Replay.status_code response) 200)
      as [Heq|_]; [contradiction|].
    cbn. split; reflexivity.
  - destruct (Replay.status_code response =? 200); [|reflexivity].
    destruct (Replay.json response) as [e|data]; [reflexivity|].
    cbn [bind]. destruct (Replay.count_products data); reflexivity.
Qed.

End ReplayClient.

Lemma replay_persists_on_200_json_witness :
  Replay.disk
    (Replay.fetch_shopee_direct client_opens http_200_json disk_with_prep)
    "response_shopee.json" = Files.Json fresh_body /\
  Replay.disk
    (Replay.fetch_shopee_direct client_opens http_403 disk_with_prep)
    "response_shopee.json" = Files.Json earlier_capture /\
  Replay.stdout
    (Replay.fetch_shopee_direct client_opens http_403 disk_with_prep)
    = [Replay.Loading;
       Replay.Sending (VStr "https://shopee.co.id/api/v4/recommend/recommend?bundle=top_p");
       Replay.StatusCode 403; Replay.ResponseExcerpt "forbidden"] /\
  Replay.stdout
    (Replay.fetch_shopee_direct client_opens http_200_html disk_with_prep)
    = [Replay.Loading;
       Replay.Sending (VStr "https://shopee.co.id/api/v4/recommend/recommend?bundle=top_p");
       Replay.ExceptionLine ValueError].
Proof.
  epose proof (replay_persists_on_200_json client_opens http_200_json
                 disk_with_prep prep_sample _ _ _ _ _
                 eq_refl eq_refl eq_refl eq_refl eq_refl eq_refl eq_refl)
    as [Hsave _].
  epose proof (replay_persists_on_200_json client_opens http_403
                 disk_with_prep prep_sample _ _ _ _ _
                 eq_refl eq_refl eq_refl eq_refl eq_refl eq_refl eq_refl)
    as [_ [_ [Hother _]]].
  epose proof (replay_persists_on_200_json client_opens http_200_html
                 disk_with_prep prep_sample _ _ _ _ _
                 eq_refl eq_refl eq_refl eq_refl eq_refl eq_refl eq_refl)
    as [_ [Hbad _]].
  destruct (Hsave fresh_body 2 eq_refl eq_refl eq_refl) as [Hdisk _].
  destruct Hother as [Hkept Hout]; [discriminate|].
  destruct (Hbad ValueError eq_refl (or_introl eq_refl)) as [_ Hprinted].
  split; [|split; [|split]].
  - rewrite Hdisk. reflexivity.
  - rewrite Hkept. reflexivity.
  - exact Hout.
  - exact Hprinted.
Defined.

(** C7 fails for a 200 answer whose body is not JSON: the status is 200 and
    the earlier capture stays on the disk. *)
Lemma status_200_without_json_is_not_persisted :
  (exists response,
     http_200_html (VStr "u") (VDict []) (VDict []) = ok response /\
     Replay.status_code response = 200) /\
  Replay.disk
    (Replay.fetch_shopee_direct client_opens http_200_html disk_with_prep)
    "response_shopee.json" = Files.Json earlier_capture /\
  Replay.stdout
    (Replay.fetch_shopee_direct client_opens http_200_html disk_with_prep)
    = [Replay.Loading;
       Replay.Sending (VStr "https://shopee.co.id/api/v4/recommend/recommend?bundle=top_p");
       Replay.ExceptionLine ValueError].
Proof.
  split; [eexists; split; reflexivity|]. split; reflexivity.
Qed.

(* ===================================================================== *)
(** * The other copies in [main_2.py] *)
(* ===================================================================== *)

Lemma for_each_in_step {A S S' : Type} (Rel : S -> S' -> Prop)
      (Err : exn -> exn -> Prop)
      (body : S -> A -> result S) (body' : S' -> A -> result S')
      (xs : list A) :
  (forall s s' x, Rel s s' -> in_step Rel Err (body s x) (body' s' x)) ->
  forall s s', Rel s s' ->
    in_step Rel Err (for_each xs body s) (for_each xs body' s').
Proof.
  intros Hbody. induction xs as [|x xs IH]; intros s s' Hs; cbn.
  - exact Hs.
  - specialize (Hbody s s' x Hs).
    destruct (body s x) as [e|s1], (body' s' x) as [e'|s1']; cbn in Hbody;
      try contradiction; [exact Hbody | now apply IH].
Qed.

Ltac enter_container data key :=
  destruct (get data "data" (VDict [])) as [?|?d]; [cbn; auto|];
  cbn [bind];
  match goal with
  | |- context [get ?d key ?dflt] =>
      destruct (get d key dflt) as [?|?c]; [cbn; auto|]; cbn [bind]
  end;
  match goal with
  | |- context [iter ?c] =>
      destruct (iter c) as [?|?xs]; [cbn; auto|]; cbn [bind]
  end.

Section OtherCopies.

Context {R : Repr}.

Lemma category_same (c : value) : Main.category c = Main2.category c.
Proof. destruct c; reflexivity. Qed.

(** X1.  The category extractor and the metadata parser of [main_2.py]
    return what those of [main.py] return, on every input. *)
Theorem categories_and_parser_copies_agree (data info : value) :
  Main.extract_categories data = Main2.extract_categories data /\
  Main.parse_info_string info = Main2.parse_info_string info.
Proof.
  split; [|reflexivity].
  unfold Main.extract_categories, Main2.extract_categories.
  destruct (get data "data" (VDict [])) as [e|d]; [reflexivity|]; cbn [bind].
  destruct (get d "category_list" (VList [])) as [e|l]; [reflexivity|]; cbn [bind].
  destruct (iter l) as [e|cs]; [reflexivity|]; cbn [bind].
  apply for_each_ext. intros s x.
  destruct (get x "level" VNone) as [e|lv]; [reflexivity|]; cbn [bind].
  destruct (eq_int lv 1); [|reflexivity].
  now rewrite category_same.
Qed.

Lemma suggestion_in_step (q : value) :
  in_step eq (fun _ _ => True) (Main.suggestion q) (Main2.suggestion q).
Proof.
  destruct q; try exact I.
  unfold Main.suggestion, Main2.suggestion. cbn [get bind ok].
  change Main2.rank_score_lit with Main.rank_score_lit.
  change (@Main2.cdn_url R) with (@Main.cdn_url R).
  match goal with
  | |- context [Py.bind ?m _] => destruct m as [e|img]; [exact I|]; cbn [bind]
  end.
  destruct (quote (dict_get d "text" (VStr EmptyString))) as [e|quoted];
    destruct (re_search Main.rank_score_lit
                (dict_get d "tracking" (VStr EmptyString))) as [e'|[g|]];
    cbn [bind]; try exact I;
    try (destruct (float_of_string g) as [e''|f]; cbn [bind]; try exact I);
    destruct (index0 (dict_get d "item_ids" (VList [VNone]))) as [e3|pid];
    cbn [bind]; try exact I; exact eq_refl.
Qed.

(** X2.  The suggestion extractors of [main.py] and [main_2.py] return the
    same records whenever one of them returns, and raise together; the
    exception need not be the same, since [main.py] quotes the text before it
    reads [item_ids] and [main_2.py] after. *)
Theorem suggestions_copies_agree_on_success (data : value) :
  (forall rs, Main.extract_suggestions data = ok rs <->
              Main2.extract_suggestions data = ok rs) /\
  Main.extract_suggestions (payload "queries" [query_two_faults])
    = raise TypeError /\
  Main2.extract_suggestions (payload "queries" [query_two_faults])
    = raise IndexError.
Proof.
  split; [|split; reflexivity].
  assert (Hstep : in_step eq (fun _ _ => True)
                    (Main.extract_suggestions data)
                    (Main2.extract_suggestions data)).
  { unfold Main.extract_suggestions, Main2.extract_suggestions.
    enter_container data "queries".
    apply for_each_in_step; [|exact eq_refl].
    intros s s' x <-. pose proof (suggestion_in_step x) as Hx.
    destruct (Main.suggestion x), (Main2.suggestion x); cbn in Hx |- *;
      try contradiction; [exact I | now subst]. }
  intros rs.
  destruct (Main.extract_suggestions data), (Main2.extract_suggestions data);
    cbn in Hstep; try contradiction.
  - split; intros H; discriminate H.
  - subst. reflexivity.
Qed.

End OtherCopies.

Lemma quote_nonempty (v : value) (q : string) :
  truthy v = true -> quote v = inr q -> String.eqb q EmptyString = false.
Proof.
  destruct v; try discriminate. cbn.
  destruct s as [|c s]; [discriminate|]. intros _ [= <-].
  cbn. destruct (is_unreserved c); reflexivity.
Qed.

Section TopProductCopies.

Context {R : Repr}.

Lemma top_product_relinked (item : value) :
  Main2.top_product item
  = (let* r := Main.top_product item in ok (relink r)).
Proof.
  destruct item; try reflexivity.
  unfold Main.top_product, Main2.top_product. cbn [get bind ok].
  change (@Main2.cdn_url R) with (@Main.cdn_url R).
  change Main2.parse_info_string with Main.parse_info_string.
  destruct (Main.parse_info_string _) as [e|meta]; [reflexivity|]; cbn [bind].
  destruct (iter _) as [e|ids]; [reflexivity|]; cbn [bind].
  destruct (truthy (or_else _ _)) eqn:Hcat.
  - destruct (quote _) as [e|quoted] eqn:Hq; [reflexivity|].
    unfold ok. cbn [bind]. f_equal. unfold relink.
    cbn [lookup String.eqb Ascii.eqb Bool.eqb andb String.append].
    now rewrite (quote_nonempty _ _ Hcat Hq).
  - reflexivity.
Qed.

(** X3.  The top-product extractor of [main_2.py] returns the records of the
    one of [main.py] with the link of a product without category id (the bare
    [...top_products?catId=]) replaced by ["#"], and raises the same
    exception when that one raises. *)
Theorem top_products_copy_relinks (data : value) :
  Main2.extract_shopee_products data
  = (let* rs := Main.extract_shopee_products data in ok (map relink rs)).
Proof.
  assert (Hstep : in_step (fun rs rs2 => rs2 = map relink rs) eq
                    (Main.extract_shopee_products data)
                    (Main2.extract_shopee_products data)).
  { unfold Main.extract_shopee_products, Main2.extract_shopee_products.
    enter_container data "sections".
    apply for_each_in_step; [|reflexivity].
    intros s s' x ->.
    destruct (get x "data" (VDict [])) as [e|sd]; [reflexivity|]; cbn [bind].
    destruct (get sd "top_product" VNone) as [e|tp]; [reflexivity|]; cbn [bind].
    destruct (truthy tp); [|reflexivity].
    destruct (iter tp) as [e|items]; [reflexivity|]; cbn [bind].
    apply for_each_in_step; [|reflexivity].
    intros acc acc' item ->. rewrite top_product_relinked.
    destruct (Main.top_product item) as [e|r]; cbn; [reflexivity|].
    now rewrite map_app. }
  destruct (Main.extract_shopee_products data),
           (Main2.extract_shopee_products data);
    cbn in Hstep |- *; try contradiction; now subst.
Qed.

End TopProductCopies.

(* ===================================================================== *)
(** * What every record of an extractor satisfies *)
(* ===================================================================== *)

Lemma each_concat_forall {A B : Type} (P : B -> Prop)
      (f : A -> result (list B)) (xs : list A) (yss : list (list B)) :
  (forall x ys, f x = ok ys -> Forall P ys) ->
  each f xs = ok yss -> Forall P (concat yss).
Proof.
  intros Hf. revert yss. induction xs as [|x xs IH]; intros yss H; cbn in H.
  - finish_record H. constructor.
  - binds H. finish_record H. cbn. apply Forall_app. split.
    + eapply Hf. eassumption.
    + now apply IH.
Qed.

(** A property of the records of every item is a property of every record
    the extractor returns. *)
Lemma collected_records_forall (P : dict -> Prop)
      (extract : value -> result (list dict)) (key : string)
      (records : value -> result (list dict)) :
  (forall data,
     extract data = (let* xs := container data key in
                     let* rss := each records xs in ok (concat rss))) ->
  (forall x rs, records x = ok rs -> Forall P rs) ->
  forall data rs, extract data = ok rs -> Forall P rs.
Proof.
  intros Heq Hrec data rs H. rewrite Heq in H. binds H. finish_record H.
  eapply each_concat_forall; eassumption.
Qed.

Lemma one_forall {A B : Type} (P : B -> Prop) (f : A -> result B) :
  (forall x y, f x = ok y -> P y) ->
  forall x ys, one f x = ok ys -> Forall P ys.
Proof.
  intros Hf x ys H. unfold one in H. bind_inv H. finish_record H.
  constructor; [|constructor]. eapply Hf. eassumption.
Qed.

Lemma truediv_float (v : value) (n : positive) (r : value) :
  truediv v n = inr r -> exists q, r = VFloat q.
Proof.
  destruct v; cbn [truediv]; intros H; try discriminate H;
    apply float_quotient_inv in H; destruct H as [f [_ ->]]; now exists f.
Qed.

Lemma take_length (n : nat) (s : string) : (String.length (take n s) <= n)%nat.
Proof.
  revert s. induction n as [|n IH]; intros [|c s]; cbn; try lia.
  specialize (IH s). lia.
Qed.

Lemma chars_length (s : string) : List.length (chars s) = String.length s.
Proof. induction s as [|c s IH]; cbn; [reflexivity | now rewrite IH]. Qed.

(** The items drawn from [v[:n]] are at most [n]. *)
Lemma slice_iter_length (n : nat) (v w : value) (l : list value) :
  slice_to n v = inr w -> iter w = inr l -> (List.length l <= n)%nat.
Proof.
  destruct v; cbn; intros Hs; try discriminate Hs; injection Hs as <-;
    cbn; intros Hi; injection Hi as <-.
  - rewrite length_map, chars_length. apply take_length.
  - rewrite length_firstn. lia.
Qed.

Section Records.

Context {R : Repr}.

(** Invert [H : item_function item = ok r] down to the record. *)
Ltac item_inv H item :=
  destruct item; try discriminate H;
  unfold Main.top_product, Main.suggestion, Main.flash_sale,
    Main.daily_discover in H;
  cbn [get bind ok] in H; binds H; finish_record H.

Lemma feed_records_forall (P : dict -> Prop) :
  (forall it r, Main.daily_discover it = ok r -> P r) ->
  forall feed rs, feed_records feed = ok rs -> Forall P rs.
Proof.
  intros Hitem feed rs H. unfold feed_records in H. bind_inv H.
  destruct (eq_str _ _); [|finish_record H; constructor].
  do 2 bind_inv H.
  destruct (negb _); [finish_record H; constructor|].
  eapply one_forall; eassumption.
Qed.

Lemma section_records_forall (P : dict -> Prop) :
  (forall it r, Main.top_product it = ok r -> P r) ->
  forall section rs, section_records section = ok rs -> Forall P rs.
Proof.
  intros Hitem section rs H. unfold section_records in H. do 2 bind_inv H.
  destruct (truthy _); [|finish_record H; constructor].
  bind_inv H. clear - Hitem H. revert rs H.
  induction l as [|x l IH]; intros rs H; cbn in H.
  - finish_record H. constructor.
  - binds H. finish_record H. constructor; [eapply Hitem; eassumption|].
    now apply IH.
Qed.

(** X4.  A daily-discover record never has more than three images, whatever
    the item's [images] holds. *)
Theorem daily_discover_gallery_capped (data : value) (rs : list dict) :
  Main.extract_daily_discover data = ok rs ->
  Forall (gallery_within 3) rs.
Proof.
  apply (collected_records_forall _ _ _ _ extract_daily_discover_collects).
  apply feed_records_forall. intros it r H. item_inv H it.
  eexists. split; [reflexivity|]. rewrite length_map.
  eapply slice_iter_length; eassumption.
Qed.

(** X5.  In every flash-sale and daily-discover record [price] and
    [old_price] are numbers, never [None] or a text. *)
Theorem flash_and_discover_prices_are_numbers (data : value)
        (rs : list dict) :
  Main.extract_flash_sales data = ok rs \/
  Main.extract_daily_discover data = ok rs ->
  Forall priced rs.
Proof.
  intros [H | H]; revert data rs H.
  - apply (collected_records_forall _ _ _ _ extract_flash_sales_collects).
    apply one_forall. intros it r H. item_inv H it.
    repeat match goal with
           | E : truediv _ _ = inr _ |- _ =>
               apply truediv_float in E; destruct E as [? ->]
           end.
    do 2 eexists. split; reflexivity.
  - apply (collected_records_forall _ _ _ _ extract_daily_discover_collects).
    apply feed_records_forall. intros it r H. item_inv H it.
    repeat match goal with
           | E : truediv _ _ = inr _ |- _ =>
               apply truediv_float in E; destruct E as [? ->]
           end.
    do 2 eexists. split; reflexivity.
Qed.

(** X6.  In every flash-sale and daily-discover record the link is the
    product page of the record's [product_id]:
    [https://shopee.co.id/product-i.] followed by [product_id]. *)
Theorem flash_and_discover_link_matches_id (data : value) (rs : list dict) :
  Main.extract_flash_sales data = ok rs \/
  Main.extract_daily_discover data = ok rs ->
  Forall linked rs.
Proof.
  intros [H | H]; revert data rs H.
  - apply (collected_records_forall _ _ _ _ extract_flash_sales_collects).
    apply one_forall. intros it r H. item_inv H it.
    eexists. split; reflexivity.
  - apply (collected_records_forall _ _ _ _ extract_daily_discover_collects).
    apply feed_records_forall. intros it r H. item_inv H it.
    eexists. split; reflexivity.
Qed.

(** X7.  Every record of an extractor has the keys of its kind, in the same
    order, and carries the extractor's tag both as [type] and as [label]:
    nine keys for top products and suggestions, twelve (with the prices and
    the discount) for flash sales and daily discover. *)
Theorem records_follow_schema (data : value) (rs : list dict) :
  (Main.extract_shopee_products data = ok rs ->
   Forall (tagged plain_keys "Top Product") rs) /\
  (Main.extract_suggestions data = ok rs ->
   Forall (tagged plain_keys "Suggestion") rs) /\
  (Main.extract_flash_sales data = ok rs ->
   Forall (tagged priced_keys "Flash Sale") rs) /\
  (Main.extract_daily_discover data = ok rs ->
   Forall (tagged priced_keys "Daily Discover") rs).
Proof.
  repeat apply conj; revert data rs.
  - apply (collected_records_forall _ _ _ _ extract_shopee_products_collects).
    apply section_records_forall. intros it r H. item_inv H it.
    repeat split.
  - apply (collected_records_forall _ _ _ _ extract_suggestions_collects).
    apply one_forall. intros it r H. item_inv H it. repeat split.
  - apply (collected_records_forall _ _ _ _ extract_flash_sales_collects).
    apply one_forall. intros it r H. item_inv H it. repeat split.
  - apply (collected_records_forall _ _ _ _ extract_daily_discover_collects).
    apply feed_records_forall. intros it r H. item_inv H it. repeat split.
Qed.

End Records.

Lemma daily_discover_gallery_capped_witness :
  exists r l,
    Main.extract_daily_discover (R := no_repr) discover_five_images = ok [r] /\
    lookup "images" r = Some (VList l) /\ List.length l = 3%nat /\
    gallery_within 3 r.
Proof.
  eexists. eexists. split; [reflexivity|]. split; [reflexivity|].
  split; [reflexivity|].
  exact (Forall_inv (daily_discover_gallery_capped (R := no_repr)
                       discover_five_images _ eq_refl)).
Defined.

Lemma flash_and_discover_prices_are_numbers_witness :
  exists r, Main.extract_flash_sales (R := no_repr) flash_bare = ok [r] /\
            priced r.
Proof.
  eexists. split; [reflexivity|].
  exact (Forall_inv (flash_and_discover_prices_are_numbers (R := no_repr)
                       flash_bare _ (or_introl eq_refl))).
Defined.

Lemma flash_and_discover_link_matches_id_witness :
  exists r, Main.extract_flash_sales (R := no_repr) flash_priced = ok [r] /\
            lookup "url" r = Some (VStr "https://shopee.co.id/product-i.3.7") /\
            linked r.
Proof.
  eexists. split; [reflexivity|]. split; [reflexivity|].
  exact (Forall_inv (flash_and_discover_link_matches_id (R := no_repr)
                       flash_priced _ (or_introl eq_refl))).
Defined.

Lemma records_follow_schema_witness :
  exists r, Main.extract_shopee_products (R := no_repr) top_products_one
            = ok [r] /\
            tagged plain_keys "Top Product" r.
Proof.
  eexists. split; [reflexivity|].
  exact (Forall_inv (proj1 (records_follow_schema (R := no_repr)
                              top_products_one _) eq_refl)).
Defined.

(* ===================================================================== *)
(** * How many records *)
(* ===================================================================== *)

Lemma each_length {A B : Type} (f : A -> result B) (xs : list A)
      (ys : list B) :
  each f xs = ok ys -> List.length ys = List.length xs.
Proof.
  revert ys. induction xs as [|x xs IH]; intros ys H; cbn in H.
  - finish_record H. reflexivity.
  - binds H. finish_record H. cbn. f_equal. now apply IH.
Qed.

Lemma each_concat_length {A B : Type} (f : A -> result (list B))
      (g : A -> nat) (xs : list A) (yss : list (list B)) :
  (forall x ys, f x = ok ys -> List.length ys = g x) ->
  each f xs = ok yss ->
  List.length (concat yss) = list_sum (map g xs).
Proof.
  intros Hf. revert yss. induction xs as [|x xs IH]; intros yss H; cbn in H.
  - finish_record H. reflexivity.
  - binds H. finish_record H. cbn [concat map]. rewrite length_app.
    change (list_sum (g x :: map g xs)) with (g x + list_sum (map g xs))%nat.
    f_equal; [eapply Hf; eassumption | now apply IH].
Qed.

Lemma each_concat_length_le {A B : Type} (f : A -> result (list B))
      (xs : list A) (yss : list (list B)) :
  (forall x ys, f x = ok ys -> (List.length ys <= 1)%nat) ->
  each f xs = ok yss ->
  (List.length (concat yss) <= List.length xs)%nat.
Proof.
  intros Hf. revert yss. induction xs as [|x xs IH]; intros yss H; cbn in H.
  - finish_record H. cbn. lia.
  - binds H. finish_record H. cbn. rewrite length_app.
    match goal with
    | E : f x = inr _ |- _ =>
        pose proof (Hf _ _ E); pose proof (IH _ eq_refl); lia
    end.
Qed.

Lemma list_sum_ones {A : Type} (xs : list A) :
  list_sum (map (fun _ => 1%nat) xs) = List.length xs.
Proof.
  unfold list_sum.
  induction xs as [|x xs IH]; cbn; [reflexivity | now rewrite IH].
Qed.

Lemma list_sum_filter {A : Type} (p : A -> bool) (xs : list A) :
  list_sum (map (fun x => if p x then 1%nat else 0%nat) xs)
  = List.length (filter p xs).
Proof.
  unfold list_sum.
  induction xs as [|x xs IH]; cbn; [reflexivity|].
  destruct (p x); cbn; now rewrite IH.
Qed.

Lemma one_length {A B : Type} (f : A -> result B) (x : A) (ys : list B) :
  one f x = ok ys -> List.length ys = 1%nat.
Proof.
  unfold one. intros H. bind_inv H. finish_record H. reflexivity.
Qed.

Section Counts.

Context {R : Repr}.

(** X8.  An extractor that returns gives one record for every flash-sale
    item and for every query, one for every category entry of level 1, and
    at most one for every feed. *)
Theorem record_counts (data : value) (xs : list value) (rs : list dict) :
  (container data "items" = ok xs ->
   Main.extract_flash_sales data = ok rs ->
   List.length rs = List.length xs) /\
  (container data "queries" = ok xs ->
   Main.extract_suggestions data = ok rs ->
   List.length rs = List.length xs) /\
  (container data "category_list" = ok xs ->
   Main.extract_categories data = ok rs ->
   List.length rs = List.length (filter is_level_1 xs)) /\
  (container data "feeds" = ok xs ->
   Main.extract_daily_discover data = ok rs ->
   (List.length rs <= List.length xs)%nat).
Proof.
  repeat apply conj; intros Hxs H.
  - rewrite extract_flash_sales_collects, Hxs in H. cbn [bind ok] in H.
    bind_inv H. finish_record H.
    erewrite each_concat_length; [apply list_sum_ones | | eassumption].
    intros x ys. apply one_length.
  - rewrite extract_suggestions_collects, Hxs in H. cbn [bind ok] in H.
    bind_inv H. finish_record H.
    erewrite each_concat_length; [apply list_sum_ones | | eassumption].
    intros x ys. apply one_length.
  - rewrite extract_categories_collects, Hxs in H. cbn [bind ok] in H.
    bind_inv H. finish_record H.
    erewrite each_concat_length; [apply list_sum_filter | | eassumption].
    intros x ys Hx. unfold category_records in Hx. unfold is_level_1.
    bind_inv Hx. destruct (eq_int _ _).
    + now apply one_length in Hx.
    + finish_record Hx. reflexivity.
  - rewrite extract_daily_discover_collects, Hxs in H. cbn [bind ok] in H.
    bind_inv H. finish_record H.
    eapply each_concat_length_le; [|eassumption].
    intros x ys Hx. unfold feed_records in Hx. bind_inv Hx.
    destruct (eq_str _ _); [|finish_record Hx; cbn; lia].
    do 2 bind_inv Hx.
    destruct (negb _); [finish_record Hx; cbn; lia|].
    apply one_length in Hx. lia.
Qed.

Lemma extractors_without_data (d : dict) :
  lookup "data" d = None ->
  (Main.extract_shopee_products (VDict d) = ok [] /\
   Main.extract_suggestions (VDict d) = ok [] /\
   Main.extract_categories (VDict d) = ok [] /\
   Main.extract_flash_sales (VDict d) = ok [] /\
   Main.extract_daily_discover (VDict d) = ok []) /\
  (Main2.extract_shopee_products (VDict d) = ok [] /\
   Main2.extract_suggestions (VDict d) = ok [] /\
   Main2.extract_categories (VDict d) = ok [] /\
   Main2.extract_flash_sales (VDict d) = ok [] /\
   Main2.extract_daily_discover (VDict d) = ok []).
Proof.
  intros Hd.
  unfold Main.extract_shopee_products, Main.extract_suggestions,
    Main.extract_categories, Main.extract_flash_sales,
    Main.extract_daily_discover, Main2.extract_shopee_products,
    Main2.extract_suggestions, Main2.extract_categories,
    Main2.extract_flash_sales, Main2.extract_daily_discover.
  cbn [get bind ok]. rewrite (dict_get_none _ _ (VDict []) Hd).
  repeat split.
Qed.

(** X9.  Every extractor of [main.py] and of [main_2.py] returns the empty
    sequence on a dictionary without the key [data], such as the marker
    [{error: message}] of a failed in-page fetch. *)
Theorem no_data_key_gives_no_record (d : dict) :
  lookup "data" d = None ->
  (Main.extract_shopee_products (VDict d) = ok [] /\
   Main.extract_suggestions (VDict d) = ok [] /\
   Main.extract_categories (VDict d) = ok [] /\
   Main.extract_flash_sales (VDict d) = ok [] /\
   Main.extract_daily_discover (VDict d) = ok []) /\
  (Main2.extract_shopee_products (VDict d) = ok [] /\
   Main2.extract_suggestions (VDict d) = ok [] /\
   Main2.extract_categories (VDict d) = ok [] /\
   Main2.extract_flash_sales (VDict d) = ok [] /\
   Main2.extract_daily_discover (VDict d) = ok []).
Proof. exact (extractors_without_data d). Qed.

End Counts.

Lemma record_counts_witness :
  exists rs,
    Main.extract_categories (R := no_repr) categories_mixed = ok rs /\
    List.length rs = 2%nat.
Proof.
  eexists. split; [reflexivity|].
  exact (proj1 (proj2 (proj2 (record_counts (R := no_repr) categories_mixed
                                _ _))) eq_refl eq_refl).
Defined.

Lemma no_data_key_gives_no_record_witness :
  Main2.extract_flash_sales (R := no_repr)
    (VDict (error_marker "Failed to fetch")) = ok [].
Proof.
  exact (proj1 (proj2 (proj2 (proj2 (proj2
           (no_data_key_gives_no_record (R := no_repr)
              (error_marker "Failed to fetch") eq_refl)))))).
Defined.

(* ===================================================================== *)
(** * The count the replay client reports *)
(* ===================================================================== *)

Lemma len_iter (v : value) (n : Z) (l : list value) :
  Replay.len v = ok n -> iter v = ok l -> n = Z.of_nat (List.length l).
Proof.
  destruct v; cbn; intros Hn Hl; try discriminate Hn;
    injection Hn as <-; injection Hl as <-.
  - now rewrite length_map, chars_length.
  - reflexivity.
  - now rewrite length_map.
Qed.

Lemma len_falsy (v : value) (n : Z) :
  truthy v = false -> Replay.len v = ok n -> n = 0.
Proof.
  destruct v; cbn; intros Hv Hn; try discriminate Hn; injection Hn as <-.
  - destruct s; [reflexivity | discriminate Hv].
  - destruct l; [reflexivity | discriminate Hv].
  - destruct d; [reflexivity | discriminate Hv].
Qed.

Section ReportedCount.

Context {R : Repr}.

(** One section: the count added is the number of records added. *)
Lemma section_count (section : value) (rs : list dict) (acc n : Z) :
  section_records section = ok rs ->
  (let* section_data := get section "data" (VDict []) in
   let* prods := get section_data "top_product" (VList []) in
   let* k := Replay.len prods in
   ok (acc + k)) = ok n ->
  n = acc + Z.of_nat (List.length rs).
Proof.
  unfold section_records. intros Hrs Hn.
  destruct (get section "data" (VDict [])) as [e|sd]; [discriminate Hrs|].
  cbn [bind] in Hrs, Hn.
  destruct sd as [| | | | | |d]; try discriminate Hrs.
  cbn [get bind ok] in Hrs, Hn. unfold dict_get in Hrs, Hn.
  destruct (lookup "top_product" d) as [tp|].
  - bind_inv Hn. finish_record Hn. f_equal.
    destruct (truthy tp) eqn:Htp.
    + bind_inv Hrs. apply each_length in Hrs. rewrite Hrs.
      eapply len_iter; eassumption.
    + finish_record Hrs. eapply len_falsy; eassumption.
  - cbn in Hrs, Hn. finish_record Hrs. finish_record Hn. reflexivity.
Qed.

Lemma sections_count (xs : list value) :
  forall (rss : list (list dict)) (acc n : Z),
    each section_records xs = ok rss ->
    for_each xs
      (fun product_count section =>
         let* section_data := get section "data" (VDict []) in
         let* prods := get section_data "top_product" (VList []) in
         let* k := Replay.len prods in
         ok (product_count + k)) acc = ok n ->
    n = acc + Z.of_nat (List.length (concat rss)).
Proof.
  induction xs as [|x xs IH]; intros rss acc n Hrss Hn; cbn in Hrss, Hn.
  - finish_record Hrss. finish_record Hn. cbn. lia.
  - bind_inv Hrss. bind_inv Hrss. finish_record Hrss.
    match type of Hn with
    | match ?m with inl _ => _ | inr _ => _ end = _ =>
        destruct m as [e|acc'] eqn:Hx
    end; [discriminate Hn|].
    match goal with
    | E : section_records x = inr ?rs |- _ =>
        pose proof (section_count x rs acc acc' E Hx) as ->
    end.
    rewrite (IH _ _ n eq_refl Hn).
    cbn [concat]. rewrite length_app. lia.
Qed.

(** X10.  When the replay client counts the products of a body and the
    normaliser extracts its top products, both without an exception, the
    count the client prints is the number of records extracted. *)
Theorem reported_count_is_record_count (data : value) (rs : list dict)
        (n : Z) :
  Main.extract_shopee_products data = ok rs ->
  Replay.count_products data = ok n ->
  n = Z.of_nat (List.length rs).
Proof.
  intros Hrs Hn. rewrite extract_shopee_products_collects in Hrs.
  unfold container in Hrs. unfold Replay.count_products in Hn.
  destruct (get data "data" (VDict [])) as [e|d]; [discriminate Hrs|].
  cbn [bind] in Hrs, Hn.
  destruct (get d "sections" (VList [])) as [e|sections]; [discriminate Hrs|].
  cbn [bind] in Hrs, Hn.
  destruct (iter sections) as [e|xs]; [discriminate Hrs|].
  cbn [bind] in Hrs, Hn.
  bind_inv Hrs. finish_record Hrs.
  match goal with
  | E : each section_records xs = inr ?l |- _ =>
      rewrite (sections_count xs l 0 n E Hn)
  end.
  lia.
Qed.

End ReportedCount.

Lemma reported_count_is_record_count_witness :
  exists rs,
    Main.extract_shopee_products (R := no_repr) fresh_body = ok rs /\
    Replay.count_products fresh_body = ok 2 /\
    2 = Z.of_nat (List.length rs).
Proof.
  eexists. split; [reflexivity|]. split; [reflexivity|].
  exact (reported_count_is_record_count (R := no_repr) fresh_body _ 2
           eq_refl eq_refl).
Defined.

(* ===================================================================== *)
(** * What a harvesting run keeps *)
(* ===================================================================== *)

Lemma deliver_invariant (P : Harvester.state -> Prop) :
  (forall s a, P s -> P (Harvester.handle_response s a)) ->
  forall arrivals s, P s -> P (Harvester.deliver arrivals s).
Proof.
  intros Hstep arrivals. unfold Harvester.deliver.
  induction arrivals as [|a l IH]; intros s Hs; cbn; [exact Hs|].
  apply IH, Hstep, Hs.
Qed.

Lemma scroll_loop_invariant (P : Harvester.state -> Prop)
      (env : nat -> Harvester.turn) :
  (forall s a, P s -> P (Harvester.handle_response s a)) ->
  forall steps s, P s -> P (fst (fst (Harvester.scroll_loop steps env s))).
Proof.
  intros Hstep steps. induction steps as [|i steps IH]; intros s Hs; cbn.
  - exact Hs.
  - destruct (Harvester.request_captured s); [exact Hs|].
    destruct (Harvester.evaluate_ok (env i)).
    + specialize (IH (Harvester.deliver (Harvester.during_sleep (env i))
                        (Harvester.deliver (Harvester.during_evaluate (env i)) s))).
      destruct (Harvester.scroll_loop steps env _) as [[s3 sc] c]. cbn in *.
      apply IH. now repeat apply deliver_invariant.
    + cbn. now apply deliver_invariant.
Qed.

(** What every observer keeps, a whole run keeps. *)
Lemma run_invariant (P : Harvester.state -> Prop) (w : Harvester.world)
      (d : Files.fs) :
  (forall s a, P s -> P (Harvester.handle_response s a)) ->
  (forall s, P s -> P (Harvester.take_screenshot s)) ->
  P (Harvester.init d) ->
  P (Harvester.final (Harvester.get_shopee_tokens_persistent w d)).
Proof.
  intros Hstep Hshot Hinit. unfold Harvester.get_shopee_tokens_persistent.
  destruct (Harvester.goto_ok w).
  - pose proof (scroll_loop_invariant P (Harvester.turns w) Hstep (seq 0 15)
                  (Harvester.deliver (Harvester.during_wait w)
                     (Harvester.deliver (Harvester.during_goto w)
                        (Harvester.init d)))) as Hloop.
    destruct (Harvester.scroll_loop _ _ _) as [[s3 sc] c]. cbn [fst] in Hloop.
    assert (Hs3 : P s3) by (apply Hloop; now repeat apply deliver_invariant).
    destruct (c && negb (Harvester.request_captured s3));
      [destruct (Harvester.screenshot_ok w)|]; cbn [Harvester.final];
      apply deliver_invariant; try assumption.
    + apply Hshot. now apply deliver_invariant.
    + now apply deliver_invariant.
  - cbn. now repeat apply deliver_invariant.
Qed.

Lemma handle_response_signal_stays (s : Harvester.state)
      (a : Harvester.arrival) :
  Harvester.request_captured s = true ->
  Harvester.request_captured (Harvester.handle_response s a) = true.
Proof.
  intros Hs. unfold Harvester.handle_response.
  destruct (contains Harvester.target _); [|exact Hs].
  destruct (_ || _); [|exact Hs].
  destruct (Harvester.jar a); [exact Hs | reflexivity].
Qed.

Lemma handle_response_url_stays (s : Harvester.state)
      (a : Harvester.arrival) :
  Harvester.url (Harvester.harvested_data s) <> None ->
  Harvester.url (Harvester.harvested_data (Harvester.handle_response s a))
    <> None.
Proof.
  intros Hs. unfold Harvester.handle_response.
  destruct (contains Harvester.target _); [|exact Hs].
  destruct (_ || _); [|exact Hs].
  destruct (Harvester.jar a); discriminate.
Qed.

(** X11.  Observers never clear the capture signal and never reset the
    harvested URL: once set, each stays set through every later response. *)
Theorem capture_is_never_undone (arrivals : list Harvester.arrival)
        (s : Harvester.state) :
  (Harvester.request_captured s = true ->
   Harvester.request_captured (Harvester.deliver arrivals s) = true) /\
  (Harvester.url (Harvester.harvested_data s) <> None ->
   Harvester.url (Harvester.harvested_data (Harvester.deliver arrivals s))
     <> None).
Proof.
  split.
  - apply (deliver_invariant
             (fun s => Harvester.request_captured s = true)).
    intros s0 a. apply handle_response_signal_stays.
  - apply (deliver_invariant
             (fun s => Harvester.url (Harvester.harvested_data s) <> None)).
    intros s0 a. apply handle_response_url_stays.
Qed.

Lemma handle_response_bundle_stays (s : Harvester.state)
      (a : Harvester.arrival) :
  holds_bundle s -> holds_bundle (Harvester.handle_response s a).
Proof.
  intros [u [Hu Hb]]. unfold Harvester.handle_response.
  destruct (contains Harvester.target _); [|now exists u].
  destruct (contains Harvester.bundle (Harvester.resp_url (Harvester.resp a)))
    eqn:Hba; cbn [orb].
  - destruct (Harvester.jar a); eexists; split; try reflexivity; exact Hba.
  - rewrite Hu. cbn [Harvester.no_url].
    destruct (String.eqb_spec u EmptyString) as [->|_]; [discriminate Hb|].
    now exists u.
Qed.

(** X12.  A response of the recommend API that carries the bundle
    discriminator wins over every response without it: after the responses
    of a sequence that holds such a response have been observed, the
    harvested URL holds the discriminator, whatever came before or after. *)
Theorem bundle_response_prevails (arrivals : list Harvester.arrival)
        (a : Harvester.arrival) (s : Harvester.state) :
  In a arrivals ->
  contains Harvester.target (Harvester.resp_url (Harvester.resp a)) = true ->
  contains Harvester.bundle (Harvester.resp_url (Harvester.resp a)) = true ->
  holds_bundle (Harvester.deliver arrivals s).
Proof.
  intros Hin Ht Hb. apply in_split in Hin. destruct Hin as [l1 [l2 ->]].
  unfold Harvester.deliver. rewrite fold_left_app. cbn [fold_left].
  apply (deliver_invariant holds_bundle handle_response_bundle_stays).
  unfold Harvester.handle_response. rewrite Ht, Hb. cbn [orb].
  destruct (Harvester.jar a); eexists; split; try reflexivity; exact Hb.
Qed.

Lemma deliver_misses (arrivals : list Harvester.arrival)
      (s : Harvester.state) :
  Forall misses arrivals -> Harvester.deliver arrivals s = s.
Proof.
  unfold Harvester.deliver.
  induction 1 as [|a l Ha _ IH]; cbn; [reflexivity|].
  unfold Harvester.handle_response at 2. unfold misses in Ha. rewrite Ha.
  exact IH.
Qed.

Lemma scroll_loop_unanswered (env : nat -> Harvester.turn)
      (s : Harvester.state) :
  Harvester.request_captured s = false ->
  (forall i, Forall misses (Harvester.during_evaluate (env i)) /\
             Forall misses (Harvester.during_sleep (env i))) ->
  (forall i, Harvester.evaluate_ok (env i) = true) ->
  forall steps,
    Harvester.scroll_loop steps env s
    = (s, map (fun i => 600 + Z.of_nat i * 200) steps, true).
Proof.
  intros Hs Hmiss Hok steps. induction steps as [|i steps IH]; cbn.
  - reflexivity.
  - rewrite Hs, Hok.
    rewrite (deliver_misses _ _ (proj1 (Hmiss i))).
    rewrite (deliver_misses _ _ (proj2 (Hmiss i))).
    now rewrite IH.
Qed.

(** X13.  When no response of the recommend API is observed and every call
    before it returns, the run spends its whole budget: fifteen scrolls by
    600, 800, ..., 3400 pixels, then the call for the diagnostic screenshot.
    Nothing is captured, and [debug_persistent.png] is the only file the run
    writes, when the screenshot call returns; no token record and no body is
    written. *)
Theorem unanswered_run_exhausts_budget (w : Harvester.world) (d : Files.fs) :
  no_target_response w ->
  Harvester.goto_ok w = true ->
  (forall i, Harvester.evaluate_ok (Harvester.turns w i) = true) ->
  Harvester.get_shopee_tokens_persistent w d
  = {| Harvester.final :=
         if Harvester.screenshot_ok w
         then Harvester.take_screenshot (Harvester.init d)
         else Harvester.init d;
       Harvester.scrolls := [600; 800; 1000; 1200; 1400; 1600; 1800; 2000;
                             2200; 2400; 2600; 2800; 3000; 3200; 3400];
       Harvester.screenshot := Harvester.screenshot_ok w;
       Harvester.saved :=
         if Harvester.screenshot_ok w
         then Files.write_image d "debug_persistent.png"
         else d |}.
Proof.
  intros [Hgoto [Hwait [Hturns [Hshot Hclose]]]] Hok Heval.
  unfold Harvester.get_shopee_tokens_persistent.
  rewrite Hok, (deliver_misses _ _ Hgoto), (deliver_misses _ _ Hwait).
  rewrite (scroll_loop_unanswered (Harvester.turns w) (Harvester.init d)
             eq_refl Hturns Heval).
  cbn [andb negb Harvester.request_captured Harvester.init].
  rewrite (deliver_misses _ _ Hshot).
  destruct (Harvester.screenshot_ok w);
    rewrite (deliver_misses _ _ Hclose); reflexivity.
Qed.

Lemma capture_is_never_undone_witness :
  Harvester.request_captured
    (Harvester.deliver [specific; incidental]
       (Harvester.handle_response (Harvester.init Files.empty_disk) incidental))
  = true.
Proof.
  exact (proj1 (capture_is_never_undone [specific; incidental]
                  (Harvester.handle_response
                     (Harvester.init Files.empty_disk) incidental))
           eq_refl).
Defined.

Lemma bundle_response_prevails_witness :
  holds_bundle
    (Harvester.deliver [incidental; specific; incidental]
       (Harvester.init Files.empty_disk)).
Proof.
  exact (bundle_response_prevails [incidental; specific; incidental] specific
           (Harvester.init Files.empty_disk)
           (or_intror (or_introl eq_refl)) eq_refl eq_refl).
Defined.

Lemma unanswered_run_exhausts_budget_witness :
  List.length
    (Harvester.scrolls
       (Harvester.get_shopee_tokens_persistent silent_world Files.empty_disk))
  = 15%nat /\
  Harvester.saved
    (Harvester.get_shopee_tokens_persistent silent_world Files.empty_disk)
    "debug_persistent.png" = Files.Image /\
  Harvester.saved
    (Harvester.get_shopee_tokens_persistent silent_world Files.empty_disk)
    "shopee_prep.json" = Files.Absent.
Proof.
  rewrite (unanswered_run_exhausts_budget silent_world Files.empty_disk).
  - repeat split; reflexivity.
  - repeat split; constructor.
  - reflexivity.
  - intros i. reflexivity.
Defined.

(* ===================================================================== *)
(** * The artifacts of a harvesting run *)
(* ===================================================================== *)

Lemma lookup_strmap_set_same (k v : string) (m : Harvester.strmap) :
  lookup k (map (fun kv => (fst kv, VStr (snd kv))) (assoc_set k v m))
  = Some (VStr v).
Proof.
  induction m as [|[k' v'] m IH]; cbn.
  - now rewrite String.eqb_refl.
  - destruct (String.eqb k' k) eqn:Hk; cbn.
    + now rewrite String.eqb_refl.
    + now rewrite Hk.
Qed.

Lemma lookup_strmap_set_other (k k' v : string) (m : Harvester.strmap) :
  k <> k' ->
  lookup k (map (fun kv => (fst kv, VStr (snd kv))) (assoc_set k' v m))
  = lookup k (map (fun kv => (fst kv, VStr (snd kv))) m).
Proof.
  intros Hk. apply not_eq_sym in Hk. apply String.eqb_neq in Hk.
  induction m as [|[k0 v0] m IH]; cbn.
  - now rewrite Hk.
  - destruct (String.eqb k0 k') eqn:H0; cbn.
    + apply String.eqb_eq in H0. subst k0. now rewrite Hk.
    + destruct (String.eqb k0 k); [reflexivity | exact IH].
Qed.

Lemma reachable_deliver (arrivals : list Harvester.arrival)
      (s : Harvester.state) :
  reachable s -> reachable (Harvester.deliver arrivals s).
Proof.
  apply (deliver_invariant reachable). intros s0 a. apply reach_step.
Qed.

Lemma url_holds_target_step (s : Harvester.state) (a : Harvester.arrival) :
  (forall u, Harvester.url (Harvester.harvested_data s) = Some u ->
             contains Harvester.target u = true) ->
  forall u,
    Harvester.url (Harvester.harvested_data (Harvester.handle_response s a))
    = Some u ->
    contains Harvester.target u = true.
Proof.
  intros Hs. unfold Harvester.handle_response.
  destruct (contains Harvester.target _) eqn:Ht; [|exact Hs].
  destruct (_ || _); [|exact Hs].
  destruct (Harvester.jar a); cbn; intros u [= <-]; exact Ht.
Qed.

(** The URL a run harvests holds the target fragment. *)
Lemma final_url_holds_target (w : Harvester.world) (d : Files.fs) (u : string) :
  Harvester.url
    (Harvester.harvested_data
       (Harvester.final (Harvester.get_shopee_tokens_persistent w d)))
  = Some u ->
  contains Harvester.target u = true.
Proof.
  revert u.
  apply (run_invariant
           (fun s => forall u,
                Harvester.url (Harvester.harvested_data s) = Some u ->
                contains Harvester.target u = true)).
  - intros s a. apply url_holds_target_step.
  - intros s Hs. exact Hs.
  - intros u Hu. discriminate Hu.
Qed.

Lemma saved_of_final (w : Harvester.world) (d : Files.fs) :
  let r := Harvester.get_shopee_tokens_persistent w d in
  Harvester.saved r
  = match Harvester.url (Harvester.harvested_data (Harvester.final r)) with
    | Some u =>
        if String.eqb u EmptyString then Harvester.disk (Harvester.final r)
        else Files.write_json (Harvester.disk (Harvester.final r))
               "shopee_prep.json"
               (Harvester.prep_data u (Harvester.harvested_data (Harvester.final r)))
    | None => Harvester.disk (Harvester.final r)
    end.
Proof.
  cbn zeta. unfold Harvester.get_shopee_tokens_persistent.
  destruct (Harvester.goto_ok w).
  - destruct (Harvester.scroll_loop _ _ _) as [[s3 sc] c].
    destruct (c && negb (Harvester.request_captured s3));
      [destruct (Harvester.screenshot_ok w)|]; reflexivity.
  - reflexivity.
Qed.

Lemma final_url_nonempty (w : Harvester.world) (d : Files.fs) (u : string) :
  Harvester.url
    (Harvester.harvested_data
       (Harvester.final (Harvester.get_shopee_tokens_persistent w d)))
  = Some u ->
  String.eqb u EmptyString = false.
Proof.
  intros Hu. apply String.eqb_neq.
  apply (contains_nonempty Harvester.target); [discriminate|].
  exact (final_url_holds_target w d u Hu).
Qed.

Lemma token_record_shape (w : Harvester.world)
        (d : Files.fs) :
  let r := Harvester.get_shopee_tokens_persistent w d in
  let t := Harvester.harvested_data (Harvester.final r) in
  (Harvester.url t = None ->
   Harvester.saved r = Harvester.disk (Harvester.final r)) /\
  (forall u,
     Harvester.url t = Some u ->
     exists hs,
       Harvester.saved r "shopee_prep.json"
       = Files.Json (VDict [("url", VStr u); ("headers", VDict hs);
                            ("cookies",
                               Harvester.strmap_value (Harvester.cookies t))]) /\
       lookup "x-requested-with" hs = Some (VStr "XMLHttpRequest") /\
       lookup "accept" hs = Some (VStr "application/json")).
Proof.
  intros r t. subst t. pose proof (saved_of_final w d) as Hsaved.
  cbn zeta in Hsaved. fold r in Hsaved. split.
  - intros Hnone. now rewrite Hsaved, Hnone.
  - intros u Hu. rewrite Hsaved, Hu.
    rewrite (final_url_nonempty w d u Hu).
    eexists. split; [reflexivity|]. split.
    + rewrite lookup_strmap_set_other by discriminate.
      apply lookup_strmap_set_same.
    + apply lookup_strmap_set_same.
Qed.

(** X14.  A run writes the token record exactly when a URL was harvested.
    The record then holds that URL, the harvested cookies, and headers in
    which [x-requested-with] is [XMLHttpRequest] and [accept] is
    [application/json], whatever the captured request sent for them. *)
Theorem token_record_written_with_fixed_headers (w : Harvester.world)
        (d : Files.fs) :
  let r := Harvester.get_shopee_tokens_persistent w d in
  let t := Harvester.harvested_data (Harvester.final r) in
  (Harvester.url t = None ->
   Harvester.saved r = Harvester.disk (Harvester.final r)) /\
  (forall u,
     Harvester.url t = Some u ->
     exists hs,
       Harvester.saved r "shopee_prep.json"
       = Files.Json (VDict [("url", VStr u); ("headers", VDict hs);
                            ("cookies",
                               Harvester.strmap_value (Harvester.cookies t))]) /\
       lookup "x-requested-with" hs = Some (VStr "XMLHttpRequest") /\
       lookup "accept" hs = Some (VStr "application/json")).
Proof. exact (token_record_shape w d). Qed.

Lemma handle_response_other_files (p : string) (s : Harvester.state)
      (a : Harvester.arrival) :
  p <> "response_shopee.json" ->
  Harvester.disk (Harvester.handle_response s a) p = Harvester.disk s p.
Proof.
  intros Hp. unfold Harvester.handle_response.
  destruct (contains Harvester.target _); [|reflexivity].
  destruct (_ || _); [|reflexivity].
  destruct (Harvester.jar a); [reflexivity|]. cbn.
  destruct (Harvester.resp_json _); [reflexivity|].
  unfold Files.write_json.
  destruct (String.eqb_spec p "response_shopee.json"); [contradiction|].
  reflexivity.
Qed.

(** The loop ends without exception and with the signal not set only after
    a scroll at every step. *)
Lemma scroll_loop_uncaptured (env : nat -> Harvester.turn) (n : nat) :
  forall (first : nat) (s s' : Harvester.state) (sc : list Z),
    Harvester.scroll_loop (seq first n) env s = (s', sc, true) ->
    Harvester.request_captured s' = false ->
    List.length sc = n.
Proof.
  induction n as [|n IH]; intros first s s' sc Hrun Hs'; cbn in Hrun.
  - injection Hrun as <- <-. reflexivity.
  - destruct (Harvester.request_captured s) eqn:Hcap.
    + injection Hrun as <- <-. rewrite Hcap in Hs'. discriminate Hs'.
    + destruct (Harvester.evaluate_ok (env first)).
      * destruct (Harvester.scroll_loop (seq (S first) n) env _)
          as [[s3 sc'] c'] eqn:Hrest.
        injection Hrun as <- <- ->. cbn [List.length]. f_equal.
        exact (IH _ _ _ _ Hrest Hs').
      * discriminate Hrun.
Qed.

(** A run reports a screenshot only after fifteen scrolls. *)
Lemma screenshot_after_all_scrolls (w : Harvester.world) (d : Files.fs) :
  let r := Harvester.get_shopee_tokens_persistent w d in
  Harvester.screenshot r = true ->
  List.length (Harvester.scrolls r) = 15%nat.
Proof.
  cbn zeta. unfold Harvester.get_shopee_tokens_persistent.
  destruct (Harvester.goto_ok w); [|intros H; discriminate H].
  destruct (Harvester.scroll_loop _ _ _) as [[s3 sc] c] eqn:Hrun.
  destruct c; [|intros H; discriminate H].
  destruct (Harvester.request_captured s3) eqn:Hs3;
    [intros H; discriminate H|].
  cbn [andb negb]. destruct (Harvester.screenshot_ok w);
    [|intros H; discriminate H].
  intros _. cbn [Harvester.scrolls].
  exact (scroll_loop_uncaptured _ _ _ _ _ _ Hrun Hs3).
Qed.

(** What a run leaves at a path other than [response_shopee.json], before
    the token record is written. *)
Lemma final_disk (w : Harvester.world) (d : Files.fs) (p : string) :
  let r := Harvester.get_shopee_tokens_persistent w d in
  p <> "response_shopee.json" ->
  Harvester.disk (Harvester.final r) p
  = if Harvester.screenshot r && String.eqb p "debug_persistent.png"
    then Files.Image else d p.
Proof.
  cbn zeta. intros Hp.
  assert (Hkeep : forall (c : Files.file) arrivals s,
             Harvester.disk s p = c ->
             Harvester.disk (Harvester.deliver arrivals s) p = c).
  { intros c. apply (deliver_invariant (fun s => Harvester.disk s p = c)).
    intros s a H. now rewrite handle_response_other_files. }
  unfold Harvester.get_shopee_tokens_persistent.
  destruct (Harvester.goto_ok w).
  - pose proof (scroll_loop_invariant
                  (fun s => Harvester.disk s p = d p) (Harvester.turns w)
                  (fun s a H => eq_trans
                                  (handle_response_other_files p s a Hp) H)
                  (seq 0 15)
                  (Harvester.deliver (Harvester.during_wait w)
                     (Harvester.deliver (Harvester.during_goto w)
                        (Harvester.init d)))) as Hloop.
    destruct (Harvester.scroll_loop _ _ _) as [[s3 sc] c]. cbn [fst] in Hloop.
    assert (Hs3 : Harvester.disk s3 p = d p)
      by (apply Hloop; now repeat apply Hkeep).
    destruct (c && negb (Harvester.request_captured s3));
      [destruct (Harvester.screenshot_ok w)|];
      cbn [Harvester.final Harvester.screenshot andb]; apply Hkeep.
    + cbn [Harvester.take_screenshot Harvester.disk].
      unfold Files.write_image.
      destruct (String.eqb p "debug_persistent.png"); [reflexivity|].
      now apply Hkeep.
    + now apply Hkeep.
    + exact Hs3.
  - cbn [Harvester.final Harvester.screenshot andb]. now repeat apply Hkeep.
Qed.

(** X15.  A harvesting run writes no file but [response_shopee.json],
    [shopee_prep.json] and [debug_persistent.png]: every other path holds
    after the run what it held before.  The screenshot
    [debug_persistent.png] is written exactly when the run reports one, and
    a run reports one only after the fifteen scrolls of its budget. *)
Theorem harvester_writes_three_artifacts_only (w : Harvester.world)
        (d : Files.fs) :
  let r := Harvester.get_shopee_tokens_persistent w d in
  (forall p,
     p <> "response_shopee.json" ->
     p <> "shopee_prep.json" ->
     p <> "debug_persistent.png" ->
     Harvester.saved r p = d p) /\
  Harvester.saved r "debug_persistent.png"
  = (if Harvester.screenshot r then Files.Image
     else d "debug_persistent.png") /\
  (Harvester.screenshot r = true ->
   List.length (Harvester.scrolls r) = 15%nat).
Proof.
  intros r.
  assert (Hsaved : forall p, p <> "shopee_prep.json" ->
                             Harvester.saved r p
                             = Harvester.disk (Harvester.final r) p).
  { intros p Hp. unfold r. rewrite (saved_of_final w d). fold r.
    destruct (Harvester.url _) as [u|]; [|reflexivity].
    destruct (String.eqb u EmptyString); [reflexivity|].
    unfold Files.write_json.
    destruct (String.eqb_spec p "shopee_prep.json"); [contradiction|].
    reflexivity. }
  split; [|split].
  - intros p Hresp Hprep Hpng. rewrite (Hsaved p Hprep).
    unfold r. rewrite (final_disk w d p Hresp).
    destruct (String.eqb_spec p "debug_persistent.png"); [contradiction|].
    now rewrite andb_false_r.
  - rewrite Hsaved by discriminate.
    unfold r. rewrite final_disk by discriminate.
    now rewrite andb_true_r.
  - exact (screenshot_after_all_scrolls w d).
Qed.

Lemma token_record_exact (w : Harvester.world) (d : Files.fs) (u : string) :
  let r := Harvester.get_shopee_tokens_persistent w d in
  let t := Harvester.harvested_data (Harvester.final r) in
  Harvester.url t = Some u ->
  Files.read_json (Harvester.saved r) "shopee_prep.json"
  = inr (VDict [("url", VStr u);
                ("headers", VDict (strmap_dict (persisted_headers t)));
                ("cookies", VDict (strmap_dict (Harvester.cookies t)))]).
Proof.
  intros r t Hu. unfold Files.read_json, r.
  rewrite (saved_of_final w d). fold r. fold t. rewrite Hu.
  rewrite (final_url_nonempty w d u Hu). reflexivity.
Qed.

Section HarvestThenReplay.

Variable new_client : value -> result unit.
Variable http_get : value -> value -> value -> result Replay.response.

(** X16.  The replay client reads the token record a harvesting run wrote,
    and its request is the harvested one: the harvested URL, the harvested
    headers, of which only [x-requested-with] and [accept] are set anew, and
    the harvested cookies.  No exception escapes the client when its
    constructor accepts those cookies, and the one the constructor raises
    escapes it otherwise, with nothing written.  The client's outcome depends
    on the constructor and on the server only through these arguments. *)
Theorem replay_sends_the_harvested_request (w : Harvester.world)
        (d : Files.fs) (u : string) :
  let r := Harvester.get_shopee_tokens_persistent w d in
  let t := Harvester.harvested_data (Harvester.final r) in
  let headers := VDict (strmap_dict (persisted_headers t)) in
  let cookies := VDict (strmap_dict (Harvester.cookies t)) in
  let out := Replay.fetch_shopee_direct new_client http_get (Harvester.saved r) in
  Harvester.url t = Some u ->
  (forall k, k <> "accept" -> k <> "x-requested-with" ->
             lookup k (strmap_dict (persisted_headers t))
             = lookup k (strmap_dict (Harvester.headers t))) /\
  lookup "x-requested-with" (strmap_dict (persisted_headers t))
  = Some (VStr "XMLHttpRequest") /\
  lookup "accept" (strmap_dict (persisted_headers t))
  = Some (VStr "application/json") /\
  (new_client cookies = ok tt -> Replay.escaped out = None) /\
  (forall e, new_client cookies = raise e ->
             Replay.escaped out = Some e /\
             Replay.disk out = Harvester.saved r) /\
  (forall other_client other_get,
     other_client cookies = new_client cookies ->
     other_get (VStr u) headers cookies = http_get (VStr u) headers cookies ->
     Replay.fetch_shopee_direct other_client other_get (Harvester.saved r)
     = out).
Proof.
  intros r t headers cookies out Hu. subst out.
  pose proof (token_record_exact w d u Hu) as Hread.
  cbn zeta in Hread. fold r in Hread. fold t in Hread.
  fold headers in Hread. fold cookies in Hread.
  split; [|split; [|split; [|split; [|split]]]].
  - intros k Ha Hx. unfold persisted_headers, strmap_dict.
    now rewrite !lookup_strmap_set_other.
  - unfold persisted_headers, strmap_dict.
    rewrite lookup_strmap_set_other by discriminate.
    apply lookup_strmap_set_same.
  - apply lookup_strmap_set_same.
  - intros Hclient. unfold Replay.fetch_shopee_direct. rewrite Hread.
    cbn [Replay.subscript lookup String.eqb Ascii.eqb Bool.eqb andb bind ok
         slice_to].
    unfold ok in Hclient. rewrite Hclient.
    destruct (http_get _ _ _) as [e|response]; [reflexivity|].
    destruct (Replay.status_code response =? 200); [|reflexivity].
    destruct (Replay.json response) as [e|data]; [reflexivity|]. cbn [bind].
    destruct (Replay.count_products data); reflexivity.
  - intros e Hclient. unfold Replay.fetch_shopee_direct. rewrite Hread.
    cbn [Replay.subscript lookup String.eqb Ascii.eqb Bool.eqb andb bind ok
         slice_to].
    unfold raise in Hclient. rewrite Hclient. split; reflexivity.
  - intros other_client other_get Hclient Hget.
    unfold Replay.fetch_shopee_direct. rewrite Hread.
    cbn [Replay.subscript lookup String.eqb Ascii.eqb Bool.eqb andb bind ok
         slice_to].
    now rewrite Hclient, Hget.
Qed.

(** X17.  Whatever the token record, the constructor of the client and the
    server are, the replay client writes at most one file,
    [response_shopee.json], and only together with its line that the data
    was saved.  An exception escapes it only before any request and any
    write: while it reads the token record, with nothing printed after the
    loading line, or from the constructor of the client, right after the
    sending line.  An exception that the request or the handling of the
    answer raises is printed, not raised. *)
Theorem replay_client_effects (d : Files.fs) :
  let out := Replay.fetch_shopee_direct new_client http_get d in
  (forall p, p <> "response_shopee.json" -> Replay.disk out p = d p) /\
  (~ In Replay.Saved (Replay.stdout out) -> Replay.disk out = d) /\
  (In Replay.Saved (Replay.stdout out) ->
   exists data, Replay.disk out
                = Files.write_json d "response_shopee.json" data) /\
  (Replay.escaped out <> None ->
   Replay.disk out = d /\
   (Replay.stdout out = [Replay.Loading] \/
    exists url60, Replay.stdout out = [Replay.Loading; Replay.Sending url60])) /\
  (forall e, In (Replay.ExceptionLine e) (Replay.stdout out) ->
             Replay.escaped out = None /\ Replay.disk out = d).
Proof.
  cbn zeta. unfold Replay.fetch_shopee_direct.
  destruct (Files.read_json d "shopee_prep.json") as [e|prep].
  - destruct e; cbn; (split; [reflexivity|]); (split; [reflexivity|]);
      (split; [intros Hin; cbn in Hin; intuition discriminate|]);
      (split; [|intros e0 Hin; cbn in Hin; intuition discriminate]);
      intros Hesc; try (split; [reflexivity | left; reflexivity]);
      exfalso; apply Hesc; reflexivity.
  - destruct (let* url := Replay.subscript prep "url" in _)
      as [e|[[[url headers] cookies] url60]].
    + cbn. split; [reflexivity|]. split; [reflexivity|].
      split; [intros Hin; cbn in Hin; intuition discriminate|].
      split; [|intros e0 Hin; cbn in Hin; intuition discriminate].
      intros _. split; [reflexivity | left; reflexivity].
    + destruct (new_client cookies) as [e|[]].
      * cbn. split; [reflexivity|]. split; [reflexivity|].
        split; [intros Hin; cbn in Hin; intuition discriminate|].
        split; [|intros e0 Hin; cbn in Hin; intuition discriminate].
        intros _. split; [reflexivity|]. right. now exists url60.
      * destruct (http_get url headers cookies) as [e|response].
        -- cbn. split; [reflexivity|]. split; [reflexivity|].
           split; [intros Hin; cbn in Hin; intuition discriminate|].
           split; [|intros e0 _; split; reflexivity].
           intros Hesc. exfalso. apply Hesc. reflexivity.
        -- destruct (Replay.status_code response =? 200).
           ++ destruct (let* data := Replay.json response in _)
                as [e|[data n]].
              ** cbn. split; [reflexivity|]. split; [reflexivity|].
                 split; [intros Hin; cbn in Hin; intuition discriminate|].
                 split; [|intros e0 _; split; reflexivity].
                 intros Hesc. exfalso. apply Hesc. reflexivity.
              ** cbn. split; [|split; [|split; [|split]]].
                 --- intros p Hp. unfold Files.write_json.
                     destruct (String.eqb_spec p "response_shopee.json");
                       [contradiction | reflexivity].
                 --- intros Hno. exfalso. apply Hno. tauto.
                 --- intros _. now exists data.
                 --- intros Hesc. exfalso. apply Hesc. reflexivity.
                 --- intros e0 Hin. cbn in Hin. intuition discriminate.
           ++ cbn. split; [reflexivity|]. split; [reflexivity|].
              split; [intros Hin; cbn in Hin; intuition discriminate|].
              split; [|intros e0 Hin; cbn in Hin; intuition discriminate].
              intros Hesc. exfalso. apply Hesc. reflexivity.
Qed.

End HarvestThenReplay.

Lemma token_record_written_with_fixed_headers_witness :
  exists hs cs,
    Harvester.saved
      (Harvester.get_shopee_tokens_persistent capture_on_load Files.empty_disk)
      "shopee_prep.json"
    = Files.Json
        (VDict [("url", VStr (Harvester.resp_url (Harvester.resp specific)));
                ("headers", VDict hs); ("cookies", cs)]) /\
    lookup "accept" hs = Some (VStr "application/json").
Proof.
  destruct (proj2 (token_record_written_with_fixed_headers capture_on_load
                     Files.empty_disk) _ eq_refl) as [hs [Hfile [_ Ha]]].
  exists hs. eexists. split; [exact Hfile | exact Ha].
Defined.

Lemma harvester_writes_three_artifacts_only_witness :
  Harvester.saved
    (Harvester.get_shopee_tokens_persistent capture_on_load disk_with_prep)
    "report.html" = Files.Absent /\
  List.length
    (Harvester.scrolls
       (Harvester.get_shopee_tokens_persistent silent_world Files.empty_disk))
  = 15%nat.
Proof.
  split.
  - rewrite (proj1 (harvester_writes_three_artifacts_only capture_on_load
                      disk_with_prep) "report.html");
      [reflexivity | discriminate | discriminate | discriminate].
  - exact (proj2 (proj2 (harvester_writes_three_artifacts_only silent_world
                           Files.empty_disk)) eq_refl).
Defined.

Lemma replay_sends_the_harvested_request_witness :
  Replay.escaped
    (Replay.fetch_shopee_direct client_opens http_refused
       (Harvester.saved
          (Harvester.get_shopee_tokens_persistent capture_on_load
             Files.empty_disk))) = None /\
  Replay.escaped
    (Replay.fetch_shopee_direct client_rejects http_refused
       (Harvester.saved
          (Harvester.get_shopee_tokens_persistent capture_on_load
             Files.empty_disk))) = Some TypeError.
Proof.
  split.
  - exact (proj1 (proj2 (proj2 (proj2
             (replay_sends_the_harvested_request client_opens http_refused
                capture_on_load Files.empty_disk _ eq_refl)))) eq_refl).
  - exact (proj1 (proj1 (proj2 (proj2 (proj2 (proj2
             (replay_sends_the_harvested_request client_rejects http_refused
                capture_on_load Files.empty_disk _ eq_refl)))))
             TypeError eq_refl)).
Defined.

Lemma replay_client_effects_witness :
  Replay.disk
    (Replay.fetch_shopee_direct client_opens http_403 disk_with_prep)
  = disk_with_prep /\
  (Replay.stdout
     (Replay.fetch_shopee_direct client_rejects http_200_json
        disk_with_bad_cookies) = [Replay.Loading] \/
   exists url60,
     Replay.stdout
       (Replay.fetch_shopee_direct client_rejects http_200_json
          disk_with_bad_cookies) = [Replay.Loading; Replay.Sending url60]).
Proof.
  split.
  - apply (proj1 (proj2 (replay_client_effects client_opens http_403
                           disk_with_prep))).
    intros Hin. cbn in Hin. intuition discriminate.
  - apply (proj1 (proj2 (proj2 (proj2
             (replay_client_effects client_rejects http_200_json
                disk_with_bad_cookies))))).
    discriminate.
Defined.

(* ===================================================================== *)
(** * The multi-endpoint fetcher of [main_2.py] *)
(* ===================================================================== *)

Section Fetcher.

Variable evaluate : string -> result value.

Lemma fetch_endpoints_results (disk : Files.fs) :
  fst (Main2.fetch_endpoints evaluate disk)
  = map (fun endpoint => (fst endpoint, fetched evaluate (snd endpoint)))
        Main2.endpoints.
Proof.
  unfold Main2.fetch_endpoints, Main2.endpoints, fetched.
  cbn [fold_left map fst snd]. unfold Main2.fetch_endpoint.
  repeat match goal with
         | |- context [evaluate ?u] => destruct (evaluate u)
         end; reflexivity.
Qed.

(** X18.  After the loop of [fetch_dynamic_data], [results] has an entry for
    each of the six endpoints, in their order: the fetched value, or the
    empty dictionary when [page.evaluate] raised.  The artifact of an
    endpoint holds the fetched value, or is left as it was when
    [page.evaluate] raised, and no other file is written. *)
Theorem fetch_endpoints_outcome (disk : Files.fs) :
  let results := fst (Main2.fetch_endpoints evaluate disk) in
  let disk' := snd (Main2.fetch_endpoints evaluate disk) in
  results
  = map (fun endpoint => (fst endpoint, fetched evaluate (snd endpoint)))
        Main2.endpoints /\
  (forall name url,
     In (name, url) Main2.endpoints ->
     lookup name results = Some (fetched evaluate url) /\
     disk' (dynamic_file name)
     = match evaluate url with
       | inr raw_data => Files.Json raw_data
       | inl _ => disk (dynamic_file name)
       end) /\
  (forall p,
     (forall name url, In (name, url) Main2.endpoints ->
                       p <> dynamic_file name) ->
     disk' p = disk p).
Proof.
  cbn zeta. split; [apply fetch_endpoints_results|]. split.
  - intros name url Hin. rewrite fetch_endpoints_results.
    unfold Main2.fetch_endpoints, Main2.endpoints in *.
    cbn [fold_left map fst snd] in *. unfold Main2.fetch_endpoint, fetched.
    cbn [In] in Hin.
    repeat (destruct Hin as [Hin | Hin];
            [injection Hin as <- <-;
             repeat match goal with
                    | |- context [evaluate ?u] => destruct (evaluate u)
                    end; split; reflexivity |]).
    destruct Hin.
  - intros p Hp.
    pose proof (Hp "rec" _ (or_introl eq_refl)) as H1.
    pose proof (Hp "cat" _ (or_intror (or_introl eq_refl))) as H2.
    pose proof (Hp "flash" _ (or_intror (or_intror (or_introl eq_refl)))) as H3.
    pose proof (Hp "discover" _
                  (or_intror (or_intror (or_intror (or_introl eq_refl))))) as H4.
    pose proof (Hp "footer" _
                  (or_intror (or_intror (or_intror (or_intror
                     (or_introl eq_refl)))))) as H5.
    pose proof (Hp "sug" _
                  (or_intror (or_intror (or_intror (or_intror (or_intror
                     (or_introl eq_refl))))))) as H6.
    clear Hp. unfold dynamic_file in *.
    cbn [String.append] in H1, H2, H3, H4, H5, H6.
    unfold Main2.fetch_endpoints, Main2.endpoints.
    cbn [fold_left]. unfold Main2.fetch_endpoint.
    repeat match goal with
           | |- context [evaluate ?u] => destruct (evaluate u)
           end;
      cbn [snd String.append]; unfold Files.write_json;
      repeat match goal with
             | |- context [String.eqb p ?q] =>
                 destruct (String.eqb_spec p q); [contradiction|]
             end; reflexivity.
Qed.

Context {R : Repr}.

(** X19.  When every in-page fetch gave nothing to extract (the call raised,
    or returned a dictionary without [data], such as the error marker),
    [fetch_dynamic_data] raises no exception and hands five empty record
    lists to the report. *)
Theorem fetcher_degrades_to_empty_lists (disk : Files.fs) :
  (forall name url, In (name, url) Main2.endpoints ->
                    nothing_fetched evaluate url) ->
  exists footer,
    snd (Main2.fetch_dynamic_data evaluate disk)
    = ok {| Main2.products := [];
            Main2.suggestions := [];
            Main2.footer_data := footer;
            Main2.categories := [];
            Main2.flash_sales := [];
            Main2.daily_discover_items := [] |}.
Proof.
  intros Hall. unfold Main2.fetch_dynamic_data.
  pose proof (fetch_endpoints_results disk) as Hres.
  destruct (Main2.fetch_endpoints evaluate disk) as [results disk'].
  cbn [fst snd] in *. subst results.
  destruct (Hall "rec" _ (or_introl eq_refl)) as [d1 [E1 N1]].
  destruct (Hall "cat" _ (or_intror (or_introl eq_refl))) as [d2 [E2 N2]].
  destruct (Hall "flash" _ (or_intror (or_intror (or_introl eq_refl))))
    as [d3 [E3 N3]].
  destruct (Hall "discover" _
              (or_intror (or_intror (or_intror (or_introl eq_refl)))))
    as [d4 [E4 N4]].
  destruct (Hall "sug" _
              (or_intror (or_intror (or_intror (or_intror (or_intror
                 (or_introl eq_refl)))))))
    as [d6 [E6 N6]].
  unfold Main2.process, Main2.endpoints.
  cbn [map fst snd dict_get lookup String.eqb Ascii.eqb Bool.eqb andb].
  rewrite E1, E2, E3, E4, E6.
  destruct (extractors_without_data d1 N1) as [_ [-> _]].
  destruct (extractors_without_data d2 N2) as [_ [_ [_ [-> _]]]].
  destruct (extractors_without_data d3 N3) as [_ [_ [_ [_ [-> _]]]]].
  destruct (extractors_without_data d4 N4) as [_ [_ [_ [_ [_ ->]]]]].
  destruct (extractors_without_data d6 N6) as [_ [_ [-> _]]].
  cbn [bind ok]. eexists. reflexivity.
Qed.

End Fetcher.

Lemma fetch_endpoints_outcome_witness :
  lookup "flash" (fst (Main2.fetch_endpoints evaluate_raises Files.empty_disk))
  = Some (VDict []) /\
  snd (Main2.fetch_endpoints evaluate_marker Files.empty_disk)
      "dynamic_flash.json"
  = Files.Json (VDict (error_marker "Failed to fetch")) /\
  snd (Main2.fetch_endpoints evaluate_marker disk_with_prep) "shopee_prep.json"
  = Files.Json prep_sample.
Proof.
  split; [|split].
  - exact (proj1 (proj1 (proj2 (fetch_endpoints_outcome evaluate_raises
                                  Files.empty_disk))
                    "flash" _ (or_intror (or_intror (or_introl eq_refl))))).
  - exact (proj2 (proj1 (proj2 (fetch_endpoints_outcome evaluate_marker
                                  Files.empty_disk))
                    "flash" _ (or_intror (or_intror (or_introl eq_refl))))).
  - rewrite (proj2 (proj2 (fetch_endpoints_outcome evaluate_marker
                             disk_with_prep)) "shopee_prep.json").
    + reflexivity.
    + intros name url Hin. cbn [In Main2.endpoints] in Hin.
      repeat (destruct Hin as [Hin | Hin];
              [injection Hin as <- <-; discriminate |]).
      destruct Hin.
Defined.

Lemma fetcher_degrades_to_empty_lists_witness :
  exists footer,
    snd (Main2.fetch_dynamic_data (R := no_repr) evaluate_marker
           Files.empty_disk)
    = ok {| Main2.products := [];
            Main2.suggestions := [];
            Main2.footer_data := footer;
            Main2.categories := [];
            Main2.flash_sales := [];
            Main2.daily_discover_items := [] |}.
Proof.
  apply (fetcher_degrades_to_empty_lists evaluate_marker (R := no_repr)).
  intros name url _. eexists. split; reflexivity.
Defined.

(* ===================================================================== *)
(** * The script of [main.py] *)
(* ===================================================================== *)

Section Script.

Context {R : Repr}.

(** X20.  The script of [main.py] hands five empty record lists to the
    report when the recommend and category artifacts are missing or
    unreadable and each of the suggestion, flash-sale and daily-discover
    artifacts is missing or holds a falsy JSON value (such as [[]] or
    [null]): those three are guarded by a truth test.  The recommend
    artifact is not: when it holds a JSON value that is not an object, even
    an empty array, the script raises [AttributeError]. *)
Theorem script_guards (disk : Files.fs) :
  (Main.load_json_data disk "response_shopee.json" = VDict [] ->
   Main.load_json_data disk "response_category.json" = VDict [] ->
   truthy (Main.load_json_data disk "search_suggestion_shopee.json") = false ->
   truthy (Main.load_json_data disk "response_flash_sale.json") = false ->
   truthy (Main.load_json_data disk "response_daily_discover.json") = false ->
   Main.main disk
   = ok {| Main.products := [];
           Main.suggestions := [];
           Main.footer_data := Main.load_json_data disk "response_footer.json";
           Main.categories := [];
           Main.flash_sales := [];
           Main.daily_discover_items := [] |}) /\
  (forall v,
     disk "response_shopee.json" = Files.Json v ->
     (forall d, v <> VDict d) ->
     Main.main disk = raise AttributeError).
Proof.
  split.
  - intros Hrec Hcat Hsug Hflash Hdiscover. unfold Main.main.
    rewrite Hrec, Hcat, Hsug, Hflash, Hdiscover. reflexivity.
  - intros v Hv Hnot. unfold Main.main, Main.load_json_data at 1.
    unfold Files.read_json. rewrite Hv.
    destruct v; try reflexivity. now destruct (Hnot d).
Qed.

End Script.

Lemma script_guards_witness :
  Main.main (R := no_repr) disk_with_empty_flash
  = ok {| Main.products := [];
          Main.suggestions := [];
          Main.footer_data := VDict [];
          Main.categories := [];
          Main.flash_sales := [];
          Main.daily_discover_items := [] |} /\
  Main.main (R := no_repr) disk_with_array = raise AttributeError.
Proof.
  split.
  - exact (proj1 (script_guards (R := no_repr) disk_with_empty_flash)
             eq_refl eq_refl eq_refl eq_refl eq_refl).
  - refine (proj2 (script_guards (R := no_repr) disk_with_array)
              (VList []) eq_refl _).
    intros d. discriminate.
Defined.

(* ===================================================================== *)
(** * The score of the metadata parser, in general *)
(* ===================================================================== *)

Lemma lookup_set_same (k : string) (v : value) (d : dict) :
  lookup k (dict_set k v d) = Some v.
Proof.
  unfold dict_set. induction d as [|[k' v'] d IH]; cbn.
  - now rewrite String.eqb_refl.
  - destruct (String.eqb k' k) eqn:Hk; cbn.
    + now rewrite String.eqb_refl.
    + now rewrite Hk.
Qed.

Lemma lookup_set_other (k k' : string) (v : value) (d : dict) :
  k <> k' -> lookup k (dict_set k' v d) = lookup k d.
Proof.
  intros Hk. apply not_eq_sym in Hk. apply String.eqb_neq in Hk.
  unfold dict_set. induction d as [|[k0 v0] d IH]; cbn.
  - now rewrite Hk.
  - destruct (String.eqb k0 k') eqn:H0; cbn.
    + apply String.eqb_eq in H0. subst k0. now rewrite Hk.
    + destruct (String.eqb k0 k); [reflexivity | exact IH].
Qed.

Lemma append_empty (s : string) : s ++ EmptyString = s.
Proof. induction s as [|c s IH]; cbn; [reflexivity | now rewrite IH]. Qed.

(** The first part of a text whose first separator comes after [p]. *)
Lemma split_on_first (sep : ascii) (p r : string) :
  has_char sep p = false ->
  split_on sep (p ++ String sep r) = p :: split_on sep r.
Proof.
  induction p as [|c p IH]; cbn; intros Hp.
  - now rewrite Ascii.eqb_refl.
  - apply orb_false_iff in Hp. destruct Hp as [Hc Hp].
    rewrite Hc, (IH Hp). reflexivity.
Qed.

Lemma split_on_single (sep : ascii) (p : string) :
  has_char sep p = false -> split_on sep p = [p].
Proof.
  induction p as [|c p IH]; cbn; intros Hp; [reflexivity|].
  apply orb_false_iff in Hp. destruct Hp as [Hc Hp].
  rewrite Hc, (IH Hp). reflexivity.
Qed.

Lemma parse_part_keeps_text (d : dict) (part : string) :
  score_is_text d -> score_is_text (Main.parse_part d part).
Proof.
  intros [v Hv]. unfold Main.parse_part.
  destruct (_ && _); [|now exists v].
  destruct (split_once ":"%char part) as [[k x]|]; [|now exists v].
  destruct (string_dec "score" (lower (strip k))) as [<-|Hk].
  - eexists. apply lookup_set_same.
  - exists v. now rewrite lookup_set_other.
Qed.

Lemma parse_parts_keep_text (parts : list string) (d : dict) :
  score_is_text d -> score_is_text (fold_left Main.parse_part parts d).
Proof.
  revert d. induction parts as [|p parts IH]; intros d Hd; cbn; [exact Hd|].
  now apply IH, parse_part_keeps_text.
Qed.

Lemma score_part_sets_text (g : string) (d : dict) :
  has_char "{"%char g = false ->
  score_is_text (Main.parse_part d ("SCORE:" ++ g)).
Proof.
  intros Hg. unfold Main.parse_part.
  cbn [String.append has_char Ascii.eqb Bool.eqb orb andb negb split_once].
  rewrite Hg. cbn [negb].
  change (lower (strip "SCORE")) with "score".
  eexists. apply lookup_set_same.
Qed.

(** X21.  Whenever the info string starts with a token [SCORE:g] (ended by
    a comma or by the end of the string, [g] without a brace) and the parser
    returns, the [score] of the returned map is a text, never the number the
    [SCORE:] match stores: the loop over the parts overwrites it.  This holds
    for both copies of the parser. *)
Theorem leading_score_is_always_text (g rest : string) (d : dict) :
  has_char ","%char g = false ->
  has_char "{"%char g = false ->
  let info := VStr ("SCORE:" ++ g ++ rest) in
  rest = EmptyString \/ (exists r, rest = String ","%char r) ->
  (Main.parse_info_string info = ok d -> score_is_text d) /\
  (Main2.parse_info_string info = ok d -> score_is_text d).
Proof.
  intros Hcomma Hbrace info Hrest. subst info.
  assert (Hmain : Main.parse_info_string (VStr ("SCORE:" ++ g ++ rest)) = ok d
                  -> score_is_text d).
  { intros H. unfold Main.parse_info_string in H.
    replace (truthy (VStr ("SCORE:" ++ g ++ rest))) with true in H
      by reflexivity.
    cbn [negb re_search bind ok] in H.
    bind_inv H. apply ok_inj in H. subst d.
    assert (Hparts : exists parts,
               split_on ","%char ("SCORE:" ++ g ++ rest)
               = ("SCORE:" ++ g) :: parts).
    { destruct Hrest as [-> | [r ->]].
      - exists []. rewrite append_empty. now apply split_on_single.
      - exists (split_on ","%char r).
        change ("SCORE:" ++ g ++ String ","%char r)
          with (("SCORE:" ++ g) ++ String ","%char r).
        now apply split_on_first. }
    destruct Hparts as [parts ->]. cbn [fold_left].
    apply parse_parts_keep_text. now apply score_part_sets_text. }
  split; [exact Hmain | exact Hmain].
Qed.

Lemma leading_score_is_always_text_witness :
  exists d,
    Main.parse_info_string (VStr "SCORE:4.8,other:{nested},sold:12") = ok d /\
    score_is_text d.
Proof.
  eexists. split; [reflexivity|].
  exact (proj1 (leading_score_is_always_text "4.8" ",other:{nested},sold:12" _
                  eq_refl eq_refl (or_intror (ex_intro _ _ eq_refl)))
           eq_refl).
Defined.
